(** * Email verification with one-time codes: the OTP life cycle

    A shallow embedding of the two programs of the repository,

    - [Redis]     : [src/main.go], records kept in Redis under a
                    time-to-live, and
    - [SQLServer] : [src/unnamed/part_000], records kept in the SQL Server
                    table [otp_verifications], swept by [CleanupExpiredOTPs],

    and of the properties their specification states about them.

    Modelling conventions, shared by both programs.

    - Time is an integer number of nanoseconds (Go's [time.Duration] unit).
      One service call happens at one instant, [now]: the readings of
      [time.Now()], of the Redis server clock and of [GETDATE()] inside one
      call are identified.
    - [time.Since(t).Minutes() < ResendDelayMins] compares a [float64]; the
      quotient of a duration by [time.Minute] is below [1] exactly when the
      duration is below one minute, so the test is the integer comparison
      [now - t < ResendDelayMins * Minute].
    - The outside world of one call is an [Env]: the instant, the clock
      readings consumed by [generateOTP], and, for each round trip the call
      can make (to the store, to the SMTP server), whether it succeeds.
    - A Go [string] is a sequence of bytes, here a [string] of Rocq; e-mail
      addresses are compared byte for byte.  The Redis program keeps its
      records as JSON texts: what [encoding/json] does to a record on the
      way in and out is modelled in [JSON] (strings are coerced to valid
      UTF-8, instants outside the years 0 to 9999 are refused).  The SQL
      column encodings are taken to round-trip the record exactly.
    - Instants are counted from the Unix epoch, years are read in UTC.
    - [Attempts] is a Go [int].  The only arithmetic on it is [Attempts++]
      under the guard [Attempts < MaxAttempts], which cannot overflow, so the
      field is an integer of [Z] without wrap-around. *)

From stdpp Require Import gmap strings list fin_maps.
From Stdlib Require Import ZArith Lia Ascii.

Open Scope Z_scope.

(** ** Constants (identical in both programs) *)

Definition OTPLength : nat := 6.
Definition OTPExpiryMinutes : Z := 10.
Definition MaxAttempts : Z := 3.
Definition ResendDelayMins : Z := 1.

(** [time.Minute], in nanoseconds. *)
Definition Minute : Z := 60 * 1000000000.

(** ** Errors

    The programs build their errors with [fmt.Errorf]; each constructor
    stands for one message (or one origin), named as the specification
    names it. *)
Inductive error : Type :=
  | ThrottleError (minutes : Z)
      (* "please wait %d minutes before requesting a new OTP" *)
  | NotFoundError
      (* "no verification code found or code has expired" *)
  | AlreadyVerifiedError
      (* "email is already verified" *)
  | AttemptsExhausted
      (* "maximum verification attempts exceeded" *)
  | MismatchError
      (* "invalid verification code" *)
  | DeliveryError
      (* the error returned by EmailService.SendEmail *)
  | StorageError
      (* a transport or driver error of the store *)
  | MarshalError
      (* the error returned by json.Marshal *)
  | RedisNil.
      (* redis.Nil: the key does not exist (or its TTL has run out) *)

(** A Go [error] result: [nil] or an error. *)
Inductive outcome : Type :=
  | Success
  | Failure (e : error).

(** A Go [(T, error)] result. *)
Inductive res (A : Type) : Type :=
  | Ok (a : A)
  | Err (e : error).
Arguments Ok {A} a.
Arguments Err {A} e.

#[global] Instance error_eq_dec : EqDecision error.
Proof. solve_decision. Defined.
#[global] Instance outcome_eq_dec : EqDecision outcome.
Proof. solve_decision. Defined.

(** ** A state monad for the calls on a store *)

Definition M (S A : Type) : Type := S -> A * S.

Definition ret {S A : Type} (a : A) : M S A := fun s => (a, s).

Definition bind {S A B : Type} (c : M S A) (k : A -> M S B) : M S B :=
  fun s => let (a, s') := c s in k a s'.

Notation "x <- c ;; k" := (bind c (fun x => k))
  (at level 100, c at next level, right associativity).
Notation "c ;;; k" := (bind c (fun _ => k))
  (at level 100, right associativity).

(** Runs the calls of a list one after the other and collects the results. *)
Fixpoint sequence {S A : Type} (cs : list (M S A)) : M S (list A) :=
  match cs with
  | [] => ret []
  | c :: cs' => a <- c ;; rest <- sequence cs' ;; ret (a :: rest)
  end.

(** ** generateOTP

    [otp[i] = digits[time.Now().UnixNano() % len(digits)]]: one clock reading
    per position.  [nano i] is the reading at position [i]; readings are
    after the Unix epoch, hence of type [N]. *)

Definition digits : string := "0123456789".

Definition digit_at (n : N) : ascii :=
  match String.get (N.to_nat (n mod 10)%N) digits with
  | Some c => c
  | None => "0"%char
  end.

Definition generateOTP (nano : nat -> N) : string :=
  String.string_of_list_ascii (map (fun i => digit_at (nano i)) (seq 0 OTPLength)).

(** * [encoding/json], as far as the records of the Redis program go

    [StoreOTP] keeps a record as the text [json.Marshal] makes of it, and
    [GetOTP] hands out what [json.Unmarshal] reads from that text.  Two
    things happen to a record on the way.

    - A JSON text is valid UTF-8, a Go string need not be.  The encoder walks
      the string with [utf8.DecodeRuneInString] and writes [\ufffd] for
      every byte at which that returns [(RuneError, 1)]; the decoder reads it
      back as U+FFFD, the three bytes [EF BF BD].  The other escapes of the
      encoder (quotes, control characters, [<], [>], [&], U+2028, U+2029)
      are undone by the decoder.
    - [time.Time.MarshalJSON] returns an error for a year outside
      [[0, 9999]]; an instant inside is written in RFC 3339 with its
      nanoseconds and read back as the same instant. *)
Module JSON.

Definition byte (c : ascii) : N := N_of_ascii c.

Definition between (lo hi : N) (c : ascii) : bool :=
  ((lo <=? byte c) && (byte c <=? hi))%N.

(** [s] starts with [n] continuation bytes ([locb = 0x80] to
    [hicb = 0xBF]). *)
Fixpoint continuation (n : nat) (s : string) : bool :=
  match n, s with
  | O, _ => true
  | S n', String c s' => between 128 191 c && continuation n' s'
  | S _, EmptyString => false
  end.

(** [s] starts with a byte of the accept range [[lo, hi]] followed by [n]
    continuation bytes. *)
Definition accepted (lo hi : N) (n : nat) (s : string) : bool :=
  match s with
  | String c s' => between lo hi c && continuation n s'
  | EmptyString => false
  end.

(** [utf8.DecodeRuneInString] on the bytes [c] followed by [s], through the
    tables [first] and [acceptRanges] of [unicode/utf8]: [Some k] when a
    rune is encoded there on [1 + k] bytes, [None] when the result is
    [(RuneError, 1)]. *)
Definition DecodeRuneInString (c : ascii) (s : string) : option nat :=
  let b := byte c in
  if (b <? 128)%N then Some 0%nat                                (* as *)
  else if (b <? 194)%N then None                                 (* xx *)
  else if (b <=? 223)%N then                                     (* s1 *)
    if accepted 128 191 0 s then Some 1%nat else None
  else if (b =? 224)%N then                                      (* s2 *)
    if accepted 160 191 1 s then Some 2%nat else None
  else if (b =? 237)%N then                                      (* s4 *)
    if accepted 128 159 1 s then Some 2%nat else None
  else if (b <=? 239)%N then                                     (* s3 *)
    if accepted 128 191 1 s then Some 2%nat else None
  else if (b =? 240)%N then                                      (* s5 *)
    if accepted 144 191 2 s then Some 3%nat else None
  else if (b <=? 243)%N then                                     (* s6 *)
    if accepted 128 191 2 s then Some 3%nat else None
  else if (b =? 244)%N then                                      (* s7 *)
    if accepted 128 143 2 s then Some 3%nat else None
  else None.                                                     (* xx *)

(** U+FFFD in UTF-8. *)
Definition replacement (s : string) : string :=
  String "239" (String "191" (String "189" s)).

(** The loop of the encoder over the bytes of a string, read back by the
    decoder: the bytes of a rune are kept ([rest] of them are still to be
    copied), a byte that starts no rune becomes U+FFFD. *)
Fixpoint coerce (rest : nat) (s : string) : string :=
  match s with
  | EmptyString => EmptyString
  | String c s' =>
      match rest with
      | S k => String c (coerce k s')
      | O =>
          match DecodeRuneInString c s' with
          | Some k => String c (coerce k s')
          | None => replacement (coerce 0 s')
          end
      end
  end.

(** A Go string after [json.Marshal] and [json.Unmarshal]. *)
Definition utf8 (s : string) : string := coerce 0 s.

(** The first instant of the year 0 and of the year 10000, in nanoseconds
    from the Unix epoch. *)
Definition year0 : Z := -62167219200 * 1000000000.
Definition year10000 : Z := 253402300800 * 1000000000.

(** [time.Time.MarshalJSON] accepts the instant. *)
Definition year_ok (t : Z) : bool := (year0 <=? t) && (t <? year10000).

(** An instant that can be marshalled: [t] itself when it can, and the
    epoch otherwise. *)
Definition instant (t : Z) : Z := if year_ok t then t else 0.

Definition instant_ok (t : Z) : year_ok (instant t) = true :=
  match year_ok t as b
        return year_ok t = b -> year_ok (if b then t else 0) = true with
  | true => fun H => H
  | false => fun _ => eq_refl
  end eq_refl.

End JSON.

(** * The Redis program, [src/main.go] *)
Module Redis.

Record OTPRecord : Type := {
  Email : string;
  OTP : string;
  CreatedAt : Z;
  Attempts : Z;
  Verified : bool
}.

(** A Redis key holds a value, the JSON text of a record, and the instant
    at which it expires.  The text is kept as the record that
    [json.Unmarshal] reads from it. *)
Record entry : Type := {
  value : OTPRecord;
  expireAt : Z
}.

(** [now_year]: the clock of the host reads a year between 0 and 9999, so
    that [time.Now()] can be marshalled; the [CreatedAt] of a record handed
    to [StoreOTP] is any instant. *)
Record Env : Type := {
  now : Z;
  nano : nat -> N;
  get_ok : bool;
  set_ok : bool;
  del_ok : bool;
  mail_ok : bool;
  now_year : JSON.year_ok now = true
}.

(** [fmt.Sprintf("email_verification:%s", email)] *)
Definition key (email : string) : string := "email_verification:" +:+ email.

(** A record after [json.Marshal] and [json.Unmarshal]. *)
Definition roundtrip (record : OTPRecord) : OTPRecord :=
  {| Email := JSON.utf8 (Email record); OTP := JSON.utf8 (OTP record);
     CreatedAt := CreatedAt record; Attempts := Attempts record;
     Verified := Verified record |}.

(** [json.Marshal(record)]: the text, kept as the record it stands for, or
    [None] when [CreatedAt] cannot be marshalled. *)
Definition Marshal (record : OTPRecord) : option OTPRecord :=
  if JSON.year_ok (CreatedAt record) then Some (roundtrip record) else None.

Section Service.
Variable ev : Env.

(** [json.Marshal(record)], then
    [client.Set(ctx, key, data, time.Minute*OTPExpiryMinutes)] under the key
    of [record.Email] as it is in the record. *)
Definition StoreOTP (record : OTPRecord) : M (gmap string entry) outcome :=
  fun db =>
    match Marshal record with
    | None => (Failure MarshalError, db)
    | Some data =>
        if set_ok ev then
          (Success,
           <[key (Email record) :=
               {| value := data;
                  expireAt := now ev + Minute * OTPExpiryMinutes |}]> db)
        else (Failure StorageError, db)
    end.

(** [client.Get(ctx, key)]: a key whose time-to-live has run out is gone.
    The text found was written by [StoreOTP], and [json.Unmarshal] reads
    its fields back. *)
Definition GetOTP (email : string) : M (gmap string entry) (res OTPRecord) :=
  fun db =>
    if get_ok ev then
      match db !! key email with
      | Some e =>
          if now ev <? expireAt e then (Ok (value e), db)
          else (Err RedisNil, db)
      | None => (Err RedisNil, db)
      end
    else (Err StorageError, db).

(** [client.Del(ctx, key)] *)
Definition DeleteOTP (email : string) : M (gmap string entry) outcome :=
  fun db =>
    if del_ok ev then (Success, delete (key email) db)
    else (Failure StorageError, db).

(** [EmailService.SendEmail]: the SMTP round trip of this call. *)
Definition SendEmail : outcome :=
  if mail_ok ev then Success else Failure DeliveryError.

Definition SendVerificationEmail (email : string)
  : M (gmap string entry) outcome :=
  existing <- GetOTP email ;;
  let throttled :=
    match existing with
    | Ok existingRecord =>
        now ev - CreatedAt existingRecord <? ResendDelayMins * Minute
    | Err _ => false
    end in
  if throttled then ret (Failure (ThrottleError ResendDelayMins))
  else
    let otp := generateOTP (nano ev) in
    let record :=
      {| Email := email; OTP := otp; CreatedAt := now ev;
         Attempts := 0; Verified := false |} in
    stored <- StoreOTP record ;;
    match stored with
    | Failure err => ret (Failure err)
    | Success =>
        match SendEmail with
        | Failure err => DeleteOTP email ;;; ret (Failure err)
        | Success => ret Success
        end
    end.

Definition VerifyOTP (email providedOTP : string)
  : M (gmap string entry) outcome :=
  got <- GetOTP email ;;
  match got with
  | Err _ => ret (Failure NotFoundError)
  | Ok record =>
      if Verified record then ret (Failure AlreadyVerifiedError)
      else if MaxAttempts <=? Attempts record then
        DeleteOTP email ;;; ret (Failure AttemptsExhausted)
      else
        let attempts := Attempts record + 1 in
        if negb (String.eqb (OTP record) providedOTP) then
          StoreOTP {| Email := Email record; OTP := OTP record;
                      CreatedAt := CreatedAt record;
                      Attempts := attempts;
                      Verified := Verified record |} ;;;
          ret (Failure MismatchError)
        else
          StoreOTP {| Email := Email record; OTP := OTP record;
                      CreatedAt := CreatedAt record;
                      Attempts := attempts;
                      Verified := true |}
  end.
End Service.

(** The two public operations, as the HTTP handlers call them. *)
Inductive Call : Type :=
  | Send (ev : Env) (email : string)
  | Verify (ev : Env) (email providedOTP : string).

Definition call (c : Call) : M (gmap string entry) outcome :=
  match c with
  | Send ev email => SendVerificationEmail ev email
  | Verify ev email providedOTP => VerifyOTP ev email providedOTP
  end.

Definition run (cs : list Call) : M (gmap string entry) (list outcome) :=
  sequence (map call cs).

(** A list of [VerifyOTP] calls only. *)
Definition verifies (vs : list (Env * string * string)) : list Call :=
  map (fun v => Verify v.1.1 v.1.2 v.2) vs.

(** The record an issuance builds, and its entry in the store. *)
Definition fresh (ev : Env) (email : string) : OTPRecord :=
  {| Email := email; OTP := generateOTP (nano ev); CreatedAt := now ev;
     Attempts := 0; Verified := false |}.

Definition stored_at (ev : Env) (record : OTPRecord) : entry :=
  {| value := roundtrip record;
     expireAt := now ev + Minute * OTPExpiryMinutes |}.

(** The result of [SendVerificationEmail] once it is past the resend
    check: store the fresh record, send, and roll back if sending fails. *)
Definition issued (ev : Env) (email : string)
    (db : gmap string entry) : outcome * gmap string entry :=
  let db1 := <[key email := stored_at ev (fresh ev email)]> db in
  if set_ok ev then
    if mail_ok ev then (Success, db1)
    else (Failure DeliveryError,
          if del_ok ev then delete (key email) db1 else db1)
  else (Failure StorageError, db).

(** A record after one more checked attempt. *)
Definition checked (record : OTPRecord) (verified : bool) : OTPRecord :=
  {| Email := Email record; OTP := OTP record;
     CreatedAt := CreatedAt record; Attempts := Attempts record + 1;
     Verified := verified |}.

(** [r'] is a later state of the record instance [r]: same address, code
    and issuance time, no fewer attempts, and still verified if [r] was. *)
Definition later_of (r r' : OTPRecord) : Prop :=
  Email r' = Email r /\ OTP r' = OTP r /\ CreatedAt r' = CreatedAt r /\
  Attempts r <= Attempts r' /\ (Verified r = true -> Verified r' = true).

(** The record of [email], if any, is out of attempts. *)
Definition spent (db : gmap string entry) (email : string) : Prop :=
  forall e, db !! key email = Some e -> MaxAttempts <= Attempts (value e).

(** [VerifyOTP] calls for one address, each with its own guess. *)
Definition guesses (email : string) (vs : list (Env * string)) : list Call :=
  map (fun v => Verify v.1 email v.2) vs.

(** [ev] lies in the expiry window opened by an issuance at [ev0]. *)
Definition in_window (ev0 ev : Env) : Prop :=
  now ev0 <= now ev < now ev0 + Minute * OTPExpiryMinutes.

(** The store holds, for [email], an unverified record with code [otp]
    issued at [t] with [k] attempts made, kept at least until the end of
    the expiry window of its issuance. *)
Definition pending (db : gmap string entry) (email otp : string)
    (t k : Z) : Prop :=
  exists e,
    db !! key email = Some e /\ Email (value e) = email /\
    OTP (value e) = otp /\ CreatedAt (value e) = t /\
    Attempts (value e) = k /\ Verified (value e) = false /\
    t + Minute * OTPExpiryMinutes <= expireAt e.

(** What every entry written by [StoreOTP] satisfies: its key is the key of
    an address of which the record holds the coerced form, and its code and
    its issuance time are as [json.Marshal] leaves them. *)
Definition written (db : gmap string entry) : Prop :=
  map_Forall
    (fun k e =>
       (exists email, k = key email /\ Email (value e) = JSON.utf8 email) /\
       JSON.utf8 (OTP (value e)) = OTP (value e) /\
       JSON.year_ok (CreatedAt (value e)) = true)
    db.

(** No stored record has more than [MaxAttempts] attempts. *)
Definition bounded (db : gmap string entry) : Prop :=
  map_Forall (fun _ e => Attempts (value e) <= MaxAttempts) db.

End Redis.

(** * The SQL Server program, [src/unnamed/part_000] *)
Module SQLServer.

Record OTPRecord : Type := {
  ID : Z;
  Email : string;
  OTP : string;
  CreatedAt : Z;
  Attempts : Z;
  Verified : bool
}.

(** A row of [otp_verifications].  The constraint [UC_Email] makes the
    [email] column a key: the table is a finite map from it to the other
    columns. *)
Record Row : Type := {
  id : Z;
  otp : string;
  created_at : Z;
  attempts : Z;
  verified : bool
}.

(** The table and the next value of its [IDENTITY(1,1)] column. *)
Record DB : Type := {
  otp_verifications : gmap string Row;
  identity : Z
}.

Record Env : Type := {
  now : Z;
  nano : nat -> N;
  cleanup_ok : bool;
  get_ok : bool;
  merge_ok : bool;
  update_ok : bool;
  mail_ok : bool
}.

(** The [WHERE] clause of [CleanupExpiredOTPs]:
    [created_at < DATEADD(MINUTE, -@ExpiryMinutes, GETDATE()) AND verified = 0] *)
Definition swept (t : Z) (row : Row) : bool :=
  (created_at row <? t - Minute * OTPExpiryMinutes) && negb (verified row).

Section Service.
Variable ev : Env.

(** [MERGE INTO otp_verifications ... WHEN MATCHED THEN UPDATE ...
    WHEN NOT MATCHED THEN INSERT ...] *)
Definition StoreOTP (record : OTPRecord) : M DB outcome :=
  fun db =>
    if merge_ok ev then
      match otp_verifications db !! Email record with
      | Some row =>
          (Success,
           {| otp_verifications :=
                <[Email record :=
                    {| id := id row; otp := OTP record;
                       created_at := CreatedAt record;
                       attempts := Attempts record;
                       verified := Verified record |}]>
                  (otp_verifications db);
              identity := identity db |})
      | None =>
          (Success,
           {| otp_verifications :=
                <[Email record :=
                    {| id := identity db; otp := OTP record;
                       created_at := CreatedAt record;
                       attempts := Attempts record;
                       verified := Verified record |}]>
                  (otp_verifications db);
              identity := identity db + 1 |})
      end
    else (Failure StorageError, db).

(** [SELECT id, email, otp, created_at, attempts, verified ...
    WHERE email = @Email]; [sql.ErrNoRows] becomes [(nil, nil)]. *)
Definition GetOTP (email : string) : M DB (res (option OTPRecord)) :=
  fun db =>
    if get_ok ev then
      match otp_verifications db !! email with
      | Some row =>
          (Ok (Some {| ID := id row; Email := email; OTP := otp row;
                       CreatedAt := created_at row;
                       Attempts := attempts row;
                       Verified := verified row |}), db)
      | None => (Ok None, db)
      end
    else (Err StorageError, db).

(** [UPDATE otp_verifications SET attempts = @Attempts,
    verified = @Verified WHERE email = @Email] *)
Definition UpdateOTP (record : OTPRecord) : M DB outcome :=
  fun db =>
    if update_ok ev then
      (Success,
       {| otp_verifications :=
            alter (fun row =>
                     {| id := id row; otp := otp row;
                        created_at := created_at row;
                        attempts := Attempts record;
                        verified := Verified record |})
                  (Email record) (otp_verifications db);
          identity := identity db |})
    else (Failure StorageError, db).

(** [DELETE FROM otp_verifications WHERE created_at < ... AND verified = 0] *)
Definition CleanupExpiredOTPs : M DB outcome :=
  fun db =>
    if cleanup_ok ev then
      (Success,
       {| otp_verifications :=
            filter (fun kv => swept (now ev) kv.2 = false)
                   (otp_verifications db);
          identity := identity db |})
    else (Failure StorageError, db).

(** [EmailService.SendEmail]: the SMTP round trip of this call. *)
Definition SendEmail : outcome :=
  if mail_ok ev then Success else Failure DeliveryError.

Definition SendVerificationEmail (email : string) : M DB outcome :=
  CleanupExpiredOTPs ;;;
  got <- GetOTP email ;;
  match got with
  | Err err => ret (Failure err)
  | Ok existingRecord =>
      let throttled :=
        match existingRecord with
        | Some r => now ev - CreatedAt r <? ResendDelayMins * Minute
        | None => false
        end in
      if throttled then ret (Failure (ThrottleError ResendDelayMins))
      else
        let otp := generateOTP (nano ev) in
        let record :=
          {| ID := 0; Email := email; OTP := otp; CreatedAt := now ev;
             Attempts := 0; Verified := false |} in
        stored <- StoreOTP record ;;
        match stored with
        | Failure err => ret (Failure err)
        | Success => ret SendEmail
        end
  end.

Definition VerifyOTP (email providedOTP : string) : M DB outcome :=
  got <- GetOTP email ;;
  match got with
  | Err err => ret (Failure err)
  | Ok None => ret (Failure NotFoundError)
  | Ok (Some record) =>
      if Verified record then ret (Failure AlreadyVerifiedError)
      else if MaxAttempts <=? Attempts record then
        ret (Failure AttemptsExhausted)
      else
        let attempts := Attempts record + 1 in
        if negb (String.eqb (OTP record) providedOTP) then
          updated <-
            UpdateOTP {| ID := ID record; Email := Email record;
                         OTP := OTP record;
                         CreatedAt := CreatedAt record;
                         Attempts := attempts;
                         Verified := Verified record |} ;;
          match updated with
          | Failure err => ret (Failure err)
          | Success => ret (Failure MismatchError)
          end
        else
          UpdateOTP {| ID := ID record; Email := Email record;
                       OTP := OTP record;
                       CreatedAt := CreatedAt record;
                       Attempts := attempts;
                       Verified := true |}
  end.
End Service.

(** The two public operations, as the HTTP handlers call them. *)
Inductive Call : Type :=
  | Send (ev : Env) (email : string)
  | Verify (ev : Env) (email providedOTP : string).

Definition call (c : Call) : M DB outcome :=
  match c with
  | Send ev email => SendVerificationEmail ev email
  | Verify ev email providedOTP => VerifyOTP ev email providedOTP
  end.

Definition run (cs : list Call) : M DB (list outcome) :=
  sequence (map call cs).

(** A list of [VerifyOTP] calls only. *)
Definition verifies (vs : list (Env * string * string)) : list Call :=
  map (fun v => Verify v.1.1 v.1.2 v.2) vs.

(** [VerifyOTP] calls for one address, each with its own guess. *)
Definition guesses (email : string) (vs : list (Env * string)) : list Call :=
  map (fun v => Verify v.1 email v.2) vs.

(** The row an issuance writes: it keeps the [id] of the row it replaces,
    or takes the next identity value. *)
Definition fresh (ev : Env) (id0 : Z) : Row :=
  {| id := id0; otp := generateOTP (nano ev); created_at := now ev;
     attempts := 0; verified := false |}.

(** A row after one more checked attempt. *)
Definition checked (row : Row) (v : bool) : Row :=
  {| id := id row; otp := otp row; created_at := created_at row;
     attempts := attempts row + 1; verified := v |}.

(** The table with the row of [email] replaced. *)
Definition with_row (db : DB) (email : string) (row : Row) : DB :=
  {| otp_verifications := <[email := row]> (otp_verifications db);
     identity := identity db |}.

(** The table after the sweep that opens [SendVerificationEmail]. *)
Definition cleaned (ev : Env) (db : DB) : DB := (CleanupExpiredOTPs ev db).2.

(** The table after the [MERGE] of a fresh row for [email]. *)
Definition merged (ev : Env) (email : string) (db : DB) : DB :=
  match otp_verifications db !! email with
  | Some row => with_row db email (fresh ev (id row))
  | None =>
      {| otp_verifications :=
           <[email := fresh ev (identity db)]> (otp_verifications db);
         identity := identity db + 1 |}
  end.

(** The result of [SendVerificationEmail] once it is past the resend
    check: merge the fresh row, then send. *)
Definition issued (ev : Env) (email : string) (db : DB) : outcome * DB :=
  if merge_ok ev then (SendEmail ev, merged ev email db)
  else (Failure StorageError, db).

(** [row'] is a later state of the record instance [row]. *)
Definition later_of (row row' : Row) : Prop :=
  id row' = id row /\ otp row' = otp row /\
  created_at row' = created_at row /\
  attempts row <= attempts row' /\
  (verified row = true -> verified row' = true).

(** The row of [email], if any, is out of attempts. *)
Definition spent (db : DB) (email : string) : Prop :=
  forall row,
    otp_verifications db !! email = Some row -> MaxAttempts <= attempts row.

(** The table holds, for [email], an unverified row with code [code] and
    [k] attempts made. *)
Definition pending (db : DB) (email code : string) (k : Z) : Prop :=
  exists row,
    otp_verifications db !! email = Some row /\ otp row = code /\
    attempts row = k /\ verified row = false.

(** No stored row has more than [MaxAttempts] attempts. *)
Definition bounded (db : DB) : Prop :=
  map_Forall (fun _ row => attempts row <= MaxAttempts) (otp_verifications db).

(** The table right after the schema has been created. *)
Definition empty : DB := {| otp_verifications := ∅; identity := 1 |}.

End SQLServer.

(** * A notion of the specification

    What is left of the resend delay at instant [t] for a record created at
    [createdAt], in nanoseconds: the remaining wait that the specification
    has [ThrottleError] carry.  The programs do not compute it. *)
Definition spec_remaining_wait (t createdAt : Z) : Z :=
  ResendDelayMins * Minute - (t - createdAt).

(** * Concrete scenarios

    Environments and stores used to run the programs on explicit inputs. *)
Module Scenario.

Definition seconds (n : Z) : Z := n * 1000000000.
Definition minutes (n : Z) : Z := n * Minute.

(** Clock readings that make [generateOTP] return ["123456"]. *)
Definition ticks (i : nat) : N := N.of_nat (S i).

(** A call at instant [t] during which every round trip succeeds (the
    instants used are all in the year 1970). *)
Definition redis_at (t : Z) : Redis.Env :=
  {| Redis.now := JSON.instant t; Redis.nano := ticks;
     Redis.get_ok := true; Redis.set_ok := true; Redis.del_ok := true;
     Redis.mail_ok := true; Redis.now_year := JSON.instant_ok t |}.

Definition sql_at (t : Z) : SQLServer.Env :=
  {| SQLServer.now := t; SQLServer.nano := ticks;
     SQLServer.cleanup_ok := true; SQLServer.get_ok := true;
     SQLServer.merge_ok := true; SQLServer.update_ok := true;
     SQLServer.mail_ok := true |}.

(** A call at instant [t] during which the SMTP server refuses the mail. *)
Definition redis_no_mail_at (t : Z) : Redis.Env :=
  {| Redis.now := JSON.instant t; Redis.nano := ticks;
     Redis.get_ok := true; Redis.set_ok := true; Redis.del_ok := true;
     Redis.mail_ok := false; Redis.now_year := JSON.instant_ok t |}.

Definition sql_no_mail_at (t : Z) : SQLServer.Env :=
  {| SQLServer.now := t; SQLServer.nano := ticks;
     SQLServer.cleanup_ok := true; SQLServer.get_ok := true;
     SQLServer.merge_ok := true; SQLServer.update_ok := true;
     SQLServer.mail_ok := false |}.

(** The stores right after a code was issued to ["a@x.com"] at instant 0. *)
Definition redis_issued : gmap string Redis.entry :=
  (Redis.SendVerificationEmail (redis_at 0) "a@x.com" ∅).2.

Definition sql_issued : SQLServer.DB :=
  (SQLServer.SendVerificationEmail (sql_at 0) "a@x.com" SQLServer.empty).2.

(** The same stores after the right code was provided five seconds
    later. *)
Definition redis_verified : gmap string Redis.entry :=
  (Redis.VerifyOTP (redis_at (seconds 5)) "a@x.com" "123456" redis_issued).2.

Definition sql_verified : SQLServer.DB :=
  (SQLServer.VerifyOTP (sql_at (seconds 5)) "a@x.com" "123456" sql_issued).2.

(** Three wrong guesses, one second apart, and the stores they leave. *)
Definition redis_three_wrong : list Redis.Call :=
  [Redis.Verify (redis_at (seconds 1)) "a@x.com" "000000";
   Redis.Verify (redis_at (seconds 2)) "a@x.com" "111111";
   Redis.Verify (redis_at (seconds 3)) "a@x.com" "222222"].

Definition sql_three_wrong : list SQLServer.Call :=
  [SQLServer.Verify (sql_at (seconds 1)) "a@x.com" "000000";
   SQLServer.Verify (sql_at (seconds 2)) "a@x.com" "111111";
   SQLServer.Verify (sql_at (seconds 3)) "a@x.com" "222222"].

Definition redis_spent : gmap string Redis.entry :=
  (Redis.run redis_three_wrong redis_issued).2.

Definition sql_spent : SQLServer.DB :=
  (SQLServer.run sql_three_wrong sql_issued).2.

(** A table with two rows: ["c@x.com"] issued at instant 0 and ["a@x.com"]
    issued nine and a half minutes later. *)
Definition sql_two_rows : SQLServer.DB :=
  (SQLServer.run
     [SQLServer.Send (sql_at 0) "c@x.com";
      SQLServer.Send (sql_at (seconds 570)) "a@x.com"] SQLServer.empty).2.

(** The entry and the row they hold. *)
Definition redis_entry : Redis.entry :=
  Redis.stored_at (redis_at 0) (Redis.fresh (redis_at 0) "a@x.com").

Definition sql_row : SQLServer.Row := SQLServer.fresh (sql_at 0) 1.

Definition redis_verified_entry : Redis.entry :=
  Redis.stored_at (redis_at (seconds 5))
    (Redis.checked (Redis.value redis_entry) true).

Definition sql_verified_row : SQLServer.Row := SQLServer.checked sql_row true.

End Scenario.

(** * Further notions: the store contracts and the reachable states *)

(** The outcomes that tell the caller that the guess was compared with the
    stored code: success, or ["invalid verification code"]. *)
Definition compared (o : outcome) : bool :=
  match o with
  | Success => true
  | Failure MismatchError => true
  | Failure _ => false
  end.

(** How many of the [VerifyOTP] calls [vs] for [email] got a compared
    outcome in [outs], the results of [vs] in order. *)
Fixpoint compared_guesses {E : Type} (email : string)
    (vs : list (E * string * string)) (outs : list outcome) : Z :=
  match vs, outs with
  | v :: vs', o :: outs' =>
      (if String.eqb v.1.2 email && compared o then 1 else 0)
      + compared_guesses email vs' outs'
  | _, _ => 0
  end.

Module RedisStates.

(** No entry is kept longer than one expiry window per store of its record:
    the issuance and one per counted attempt. *)
Definition timely (db : gmap string Redis.entry) : Prop :=
  map_Forall
    (fun _ e =>
       Redis.expireAt e
       <= Redis.CreatedAt (Redis.value e)
          + (Redis.Attempts (Redis.value e) + 1) * (Minute * OTPExpiryMinutes))
    db.

(** No record has a negative number of attempts. *)
Definition counted (db : gmap string Redis.entry) : Prop :=
  map_Forall (fun _ e => 0 <= Redis.Attempts (Redis.value e)) db.

(** The record of [email], if any, has at least [a] attempts. *)
Definition at_least (db : gmap string Redis.entry) (email : string)
    (a : Z) : Prop :=
  forall e, db !! Redis.key email = Some e -> a <= Redis.Attempts (Redis.value e).

(** The record of [email], if any, is verified. *)
Definition settled (db : gmap string Redis.entry) (email : string) : Prop :=
  forall e,
    db !! Redis.key email = Some e -> Redis.Verified (Redis.value e) = true.

End RedisStates.

Module SQLServerStates.

(** The [id] column is a key (PRIMARY KEY) below the next identity value. *)
Definition keyed_by_id (db : SQLServer.DB) : Prop :=
  1 <= SQLServer.identity db /\
  (forall k row,
     SQLServer.otp_verifications db !! k = Some row ->
     1 <= SQLServer.id row < SQLServer.identity db) /\
  (forall k1 k2 r1 r2,
     SQLServer.otp_verifications db !! k1 = Some r1 ->
     SQLServer.otp_verifications db !! k2 = Some r2 ->
     SQLServer.id r1 = SQLServer.id r2 -> k1 = k2).

(** The row of [email], if any, has at least [a] attempts. *)
Definition at_least (db : SQLServer.DB) (email : string) (a : Z) : Prop :=
  forall row,
    SQLServer.otp_verifications db !! email = Some row ->
    a <= SQLServer.attempts row.

(** The row of [email], if any, is verified. *)
Definition settled (db : SQLServer.DB) (email : string) : Prop :=
  forall row,
    SQLServer.otp_verifications db !! email = Some row ->
    SQLServer.verified row = true.

(** The call asks for a new code for [email]. *)
Definition issues (email : string) (c : SQLServer.Call) : Prop :=
  match c with
  | SQLServer.Send _ email' => email' = email
  | SQLServer.Verify _ _ _ => False
  end.

(** No row is unverified and older than [OTPExpiryMinutes] at instant [t]. *)
Definition clean_at (t : Z) (db : SQLServer.DB) : Prop :=
  forall k row,
    SQLServer.otp_verifications db !! k = Some row ->
    SQLServer.verified row = true \/
    t - Minute * OTPExpiryMinutes <= SQLServer.created_at row.

End SQLServerStates.

(** Further concrete inputs. *)
Module Cases.

(** A call at instant [t] during which Redis cannot be read. *)
Definition redis_blind_at (t : Z) : Redis.Env :=
  {| Redis.now := JSON.instant t; Redis.nano := Scenario.ticks;
     Redis.get_ok := false; Redis.set_ok := true; Redis.del_ok := true;
     Redis.mail_ok := true; Redis.now_year := JSON.instant_ok t |}.

(** A call at instant [t] during which Redis cannot be written. *)
Definition redis_readonly_at (t : Z) : Redis.Env :=
  {| Redis.now := JSON.instant t; Redis.nano := Scenario.ticks;
     Redis.get_ok := true; Redis.set_ok := false; Redis.del_ok := false;
     Redis.mail_ok := true; Redis.now_year := JSON.instant_ok t |}.

(** A call at instant [t] during which the table cannot be read. *)
Definition sql_blind_at (t : Z) : SQLServer.Env :=
  {| SQLServer.now := t; SQLServer.nano := Scenario.ticks;
     SQLServer.cleanup_ok := true; SQLServer.get_ok := false;
     SQLServer.merge_ok := true; SQLServer.update_ok := true;
     SQLServer.mail_ok := true |}.

(** A call at instant [t] during which the table cannot be updated. *)
Definition sql_readonly_at (t : Z) : SQLServer.Env :=
  {| SQLServer.now := t; SQLServer.nano := Scenario.ticks;
     SQLServer.cleanup_ok := false; SQLServer.get_ok := true;
     SQLServer.merge_ok := false; SQLServer.update_ok := false;
     SQLServer.mail_ok := true |}.

(** The record of a second address. *)
Definition redis_other : Redis.OTPRecord :=
  {| Redis.Email := "b@x.com"; Redis.OTP := "654321";
     Redis.CreatedAt := Scenario.seconds 2; Redis.Attempts := 1;
     Redis.Verified := false |}.

(** The same record created at the first instant of the year 10000. *)
Definition redis_year_10000 : Redis.OTPRecord :=
  {| Redis.Email := "b@x.com"; Redis.OTP := "654321";
     Redis.CreatedAt := JSON.year10000; Redis.Attempts := 1;
     Redis.Verified := false |}.

Definition sql_other : SQLServer.OTPRecord :=
  {| SQLServer.ID := 0; SQLServer.Email := "b@x.com";
     SQLServer.OTP := "654321"; SQLServer.CreatedAt := Scenario.seconds 2;
     SQLServer.Attempts := 1; SQLServer.Verified := false |}.

(** A stalled clock: every reading is the same. *)
Definition stalled (i : nat) : N := 1700000000123456787%N.

(** An address that is not valid UTF-8, [a\xff@x.com], and the address
    that [encoding/json] makes of it, [a\ufffd@x.com]. *)
Definition raw_address : string := String "a" (String "255" "@x.com").

Definition coerced_address : string :=
  String "a" (String "239" (String "191" (String "189" "@x.com"))).

(** A record of [raw_address]. *)
Definition redis_raw_record : Redis.OTPRecord :=
  {| Redis.Email := raw_address; Redis.OTP := "654321";
     Redis.CreatedAt := Scenario.seconds 2; Redis.Attempts := 1;
     Redis.Verified := false |}.

(** Clock readings that make [generateOTP] return ["654321"], and a call at
    instant [t] under them, every round trip succeeding. *)
Definition late_ticks (i : nat) : N := N.of_nat (6 - i).

Definition redis_late_at (t : Z) : Redis.Env :=
  {| Redis.now := JSON.instant t; Redis.nano := late_ticks;
     Redis.get_ok := true; Redis.set_ok := true; Redis.del_ok := true;
     Redis.mail_ok := true; Redis.now_year := JSON.instant_ok t |}.

(** The store right after a code was issued to [raw_address] at
    instant 0. *)
Definition redis_raw_issued : gmap string Redis.entry :=
  (Redis.SendVerificationEmail (Scenario.redis_at 0) raw_address ∅).2.

(** Five wrong guesses for an address, one second apart, then the code
    ["123456"]. *)
Definition redis_six_guesses (email : string) : list Redis.Call :=
  [Redis.Verify (Scenario.redis_at (Scenario.seconds 1)) email "000000";
   Redis.Verify (Scenario.redis_at (Scenario.seconds 2)) email "111111";
   Redis.Verify (Scenario.redis_at (Scenario.seconds 3)) email "222222";
   Redis.Verify (Scenario.redis_at (Scenario.seconds 4)) email "333333";
   Redis.Verify (Scenario.redis_at (Scenario.seconds 5)) email "444444";
   Redis.Verify (Scenario.redis_at (Scenario.seconds 6)) email "123456"].

(** The address [first] has used up its attempts (a code issued at
    instant 0, three wrong guesses), and a code, ["654321"], is then issued
    to the address [second] at second 4. *)
Definition redis_spent_beside (first second : string)
  : gmap string Redis.entry :=
  (Redis.run
     [Redis.Send (Scenario.redis_at 0) first;
      Redis.Verify (Scenario.redis_at (Scenario.seconds 1)) first "000000";
      Redis.Verify (Scenario.redis_at (Scenario.seconds 2)) first "111111";
      Redis.Verify (Scenario.redis_at (Scenario.seconds 3)) first "222222";
      Redis.Send (redis_late_at (Scenario.seconds 4)) second] ∅).2.

(** The address [first] is verified (a code issued at instant 0, the right
    code given a second later), and a code, ["654321"], is then issued to
    the address [second] at second 4. *)
Definition redis_verified_beside (first second : string)
  : gmap string Redis.entry :=
  (Redis.run
     [Redis.Send (Scenario.redis_at 0) first;
      Redis.Verify (Scenario.redis_at (Scenario.seconds 1)) first "123456";
      Redis.Send (redis_late_at (Scenario.seconds 4)) second] ∅).2.

End Cases.

(** * Properties *)

(** The generated code has [OTPLength] characters, whatever the clock reads. *)
Lemma generateOTP_length (nano : nat -> N) :
  String.length (generateOTP nano) = OTPLength.
Proof. reflexivity. Qed.

Lemma sequence_app {S A : Type} (xs ys : list (M S A)) (s : S) :
  sequence (xs ++ ys) s =
  (let (a, s1) := sequence xs s in
   let (b, s2) := sequence ys s1 in (a ++ b, s2)).
Proof.
  revert s. induction xs as [|x xs IH]; intros s; simpl.
  - unfold ret. destruct (sequence ys s); reflexivity.
  - unfold bind, ret in *. destruct (x s) as [a s1]. rewrite IH.
    destruct (sequence xs s1) as [r s2].
    destruct (sequence ys s2) as [r' s3]. reflexivity.
Qed.

Lemma sequence_cons {S A : Type} (c : M S A) (cs : list (M S A)) (s : S) :
  sequence (c :: cs) s =
  ((c s).1 :: (sequence cs (c s).2).1, (sequence cs (c s).2).2).
Proof.
  simpl. unfold bind, ret. destruct (c s) as [a s1]. simpl.
  destruct (sequence cs s1); reflexivity.
Qed.

(** A property of the state kept by every call is kept by the whole list. *)
Lemma sequence_invariant {S A : Type} (I : S -> Prop) (cs : list (M S A)) :
  (forall c s, In c cs -> I s -> I (c s).2) ->
  forall s, I s -> I (sequence cs s).2.
Proof.
  induction cs as [|c cs IH]; intros Hstep s Hs.
  - exact Hs.
  - rewrite sequence_cons. simpl. apply IH.
    + intros c' s' Hin. apply Hstep. right. exact Hin.
    + apply Hstep; [left; reflexivity | exact Hs].
Qed.

Section JSONFacts.

Lemma digit_at_decimal (n : N) : (48 <= nat_of_ascii (digit_at n) <= 57)%nat.
Proof.
  unfold digit_at.
  assert (Hk : (N.to_nat (n mod 10) < 10)%nat).
  { pose proof (N.mod_upper_bound n 10). lia. }
  destruct (N.to_nat (n mod 10)) as [|k]; [vm_compute; lia|].
  do 9 (destruct k as [|k]; [vm_compute; lia|]). lia.
Qed.

(** The encoder keeps a string of ASCII characters as it is. *)
Lemma utf8_ascii (s : string) :
  Forall (fun c => (JSON.byte c < 128)%N) (String.list_ascii_of_string s) ->
  JSON.utf8 s = s.
Proof.
  unfold JSON.utf8. induction s as [|c s IH]; intros Hs; [reflexivity|].
  simpl in Hs. apply Forall_cons in Hs as [Hc Hs].
  cbn [JSON.coerce]. unfold JSON.DecodeRuneInString. cbv zeta.
  destruct (N.ltb_spec (JSON.byte c) 128) as [_|Hge]; [|lia].
  rewrite (IH Hs). reflexivity.
Qed.

(** A generated code is made of digits: [json.Marshal] does not change it. *)
Lemma utf8_generateOTP (nano : nat -> N) :
  JSON.utf8 (generateOTP nano) = generateOTP nano.
Proof.
  apply utf8_ascii. unfold generateOTP.
  rewrite String.list_ascii_of_string_of_list_ascii.
  apply Forall_map. apply Forall_forall. intros i _.
  pose proof (digit_at_decimal (nano i)) as Hd.
  unfold nat_of_ascii in Hd. unfold JSON.byte. lia.
Qed.

End JSONFacts.

Section RedisFacts.
Import Redis.

Lemma redis_key_inj (a b : string) : key a = key b -> a = b.
Proof. unfold key. simpl. intros H. injection H. trivial. Qed.

(** [GetOTP] never changes the store. *)
Lemma redis_GetOTP_reads ev email db : (GetOTP ev email db).2 = db.
Proof. unfold GetOTP. repeat case_match; reflexivity. Qed.

(** [GetOTP] on a live entry. *)
Lemma redis_GetOTP_live ev email db e :
  db !! key email = Some e -> now ev < expireAt e -> get_ok ev = true ->
  GetOTP ev email db = (Ok (value e), db).
Proof.
  intros Hl Hlive Hget. unfold GetOTP. rewrite Hget, Hl.
  destruct (Z.ltb_spec (now ev) (expireAt e)); [reflexivity|lia].
Qed.

(** [GetOTP] hands out nothing but live entries: the time-to-live is the
    only expiry it knows of. *)
Lemma redis_GetOTP_Ok ev email db record :
  (GetOTP ev email db).1 = Ok record ->
  exists e, db !! key email = Some e /\ value e = record /\
            now ev < expireAt e /\ get_ok ev = true.
Proof.
  unfold GetOTP. destruct (get_ok ev); [|discriminate].
  destruct (db !! key email) as [e|]; [|discriminate].
  destruct (Z.ltb_spec (now ev) (expireAt e)); [|discriminate].
  simpl. intros [= <-]. eauto.
Qed.

(** [StoreOTP] on a record that can be marshalled. *)
Lemma redis_StoreOTP_marshalled ev record db :
  JSON.year_ok (CreatedAt record) = true ->
  StoreOTP ev record db =
  if set_ok ev then
    (Success, <[key (Email record) := stored_at ev record]> db)
  else (Failure StorageError, db).
Proof. intros Hy. unfold StoreOTP, Marshal. rewrite Hy. reflexivity. Qed.

(** [StoreOTP] on a record that cannot: the error of [json.Marshal] comes
    back before anything is sent to Redis. *)
Lemma redis_StoreOTP_refused ev record db :
  JSON.year_ok (CreatedAt record) = false ->
  StoreOTP ev record db = (Failure MarshalError, db).
Proof. intros Hy. unfold StoreOTP, Marshal. rewrite Hy. reflexivity. Qed.

(** [StoreOTP] writes one entry, or fails and writes nothing. *)
Lemma redis_StoreOTP_cases ev record db :
  JSON.year_ok (CreatedAt record) = true /\ set_ok ev = true /\
  StoreOTP ev record db =
  (Success, <[key (Email record) := stored_at ev record]> db)
  \/
  (StoreOTP ev record db).1 <> Success /\ (StoreOTP ev record db).2 = db.
Proof.
  destruct (JSON.year_ok (CreatedAt record)) eqn:Hy.
  - rewrite redis_StoreOTP_marshalled by exact Hy.
    destruct (set_ok ev); [left | right]; repeat split; discriminate.
  - rewrite redis_StoreOTP_refused by exact Hy.
    right. split; [discriminate | reflexivity].
Qed.

(** What [VerifyOTP] does when [GetOTP] fails. *)
Lemma redis_VerifyOTP_absent ev email providedOTP db err :
  (GetOTP ev email db).1 = Err err ->
  VerifyOTP ev email providedOTP db = (Failure NotFoundError, db).
Proof.
  intros Hg. unfold VerifyOTP, bind, ret.
  pose proof (redis_GetOTP_reads ev email db) as Hr.
  destruct (GetOTP ev email db) as [g db0]. simpl in *. subst. reflexivity.
Qed.

(** What [VerifyOTP] does on a live record that is already verified. *)
Lemma redis_VerifyOTP_verified ev email providedOTP db e :
  db !! key email = Some e -> now ev < expireAt e -> get_ok ev = true ->
  Verified (value e) = true ->
  VerifyOTP ev email providedOTP db = (Failure AlreadyVerifiedError, db).
Proof.
  intros Hl Hlive Hget Hv. unfold VerifyOTP, bind, ret.
  rewrite (redis_GetOTP_live _ _ _ _ Hl Hlive Hget), Hv. reflexivity.
Qed.

(** What [VerifyOTP] does on a live, unverified record out of attempts. *)
Lemma redis_VerifyOTP_exhausted ev email providedOTP db e :
  db !! key email = Some e -> now ev < expireAt e -> get_ok ev = true ->
  Verified (value e) = false ->
  MaxAttempts <= Attempts (value e) ->
  VerifyOTP ev email providedOTP db =
  (Failure AttemptsExhausted,
   if del_ok ev then delete (key email) db else db).
Proof.
  intros Hl Hlive Hget Hv Ha. unfold VerifyOTP, bind, ret.
  rewrite (redis_GetOTP_live _ _ _ _ Hl Hlive Hget), Hv.
  destruct (Z.leb_spec MaxAttempts (Attempts (value e))); [|lia].
  unfold DeleteOTP. destruct (del_ok ev); reflexivity.
Qed.

(** What [VerifyOTP] does on a live, unverified record with attempts left:
    it hands the record, one attempt further, to [StoreOTP], and drops the
    error of [StoreOTP] when the code is wrong. *)
Lemma redis_VerifyOTP_pending ev email providedOTP db e :
  db !! key email = Some e -> now ev < expireAt e -> get_ok ev = true ->
  Verified (value e) = false ->
  Attempts (value e) < MaxAttempts ->
  VerifyOTP ev email providedOTP db =
  let matches := String.eqb (OTP (value e)) providedOTP in
  (if matches then (StoreOTP ev (checked (value e) true) db).1
   else Failure MismatchError,
   (StoreOTP ev (checked (value e) matches) db).2).
Proof.
  intros Hl Hlive Hget Hv Ha. unfold VerifyOTP, bind, ret.
  rewrite (redis_GetOTP_live _ _ _ _ Hl Hlive Hget), Hv.
  destruct (Z.leb_spec MaxAttempts (Attempts (value e))); [lia|].
  unfold checked. cbv zeta.
  destruct (String.eqb (OTP (value e)) providedOTP); simpl.
  - destruct (StoreOTP ev _ db); reflexivity.
  - destruct (StoreOTP ev _ db); reflexivity.
Qed.

(** The same when the record can be marshalled and the store written. *)
Lemma redis_VerifyOTP_counted ev email providedOTP db e :
  db !! key email = Some e -> now ev < expireAt e -> get_ok ev = true ->
  Verified (value e) = false ->
  Attempts (value e) < MaxAttempts ->
  JSON.year_ok (CreatedAt (value e)) = true -> set_ok ev = true ->
  VerifyOTP ev email providedOTP db =
  let matches := String.eqb (OTP (value e)) providedOTP in
  (if matches then Success else Failure MismatchError,
   <[key (Email (value e)) := stored_at ev (checked (value e) matches)]> db).
Proof.
  intros Hl Hlive Hget Hv Ha Hy Hset.
  rewrite (redis_VerifyOTP_pending _ _ _ _ e) by assumption. cbv zeta.
  rewrite !redis_StoreOTP_marshalled by exact Hy. rewrite Hset.
  destruct (String.eqb (OTP (value e)) providedOTP); reflexivity.
Qed.

(** The four ways a [VerifyOTP] call can go. *)
Lemma redis_VerifyOTP_cases ev email providedOTP db :
  VerifyOTP ev email providedOTP db = (Failure NotFoundError, db) \/
  exists e,
    db !! key email = Some e /\ now ev < expireAt e /\ get_ok ev = true /\
    (Verified (value e) = true /\
     VerifyOTP ev email providedOTP db = (Failure AlreadyVerifiedError, db)
     \/
     Verified (value e) = false /\ MaxAttempts <= Attempts (value e) /\
     VerifyOTP ev email providedOTP db =
     (Failure AttemptsExhausted,
      if del_ok ev then delete (key email) db else db)
     \/
     Verified (value e) = false /\ Attempts (value e) < MaxAttempts /\
     VerifyOTP ev email providedOTP db =
     let matches := String.eqb (OTP (value e)) providedOTP in
     (if matches then (StoreOTP ev (checked (value e) true) db).1
      else Failure MismatchError,
      (StoreOTP ev (checked (value e) matches) db).2)).
Proof.
  destruct (GetOTP ev email db).1 as [record|err] eqn:Hg.
  - right. apply redis_GetOTP_Ok in Hg as (e & Hl & <- & Hlive & Hget).
    exists e. repeat split; try assumption.
    destruct (Verified (value e)) eqn:Hv.
    { left. split; [reflexivity|].
      apply (redis_VerifyOTP_verified _ _ _ _ e); assumption. }
    right.
    destruct (Z.le_gt_cases MaxAttempts (Attempts (value e))) as [Ha|Ha].
    + left. repeat split; try assumption.
      apply (redis_VerifyOTP_exhausted _ _ _ _ e); assumption.
    + right. repeat split; try lia.
      apply (redis_VerifyOTP_pending _ _ _ _ e); (assumption || lia).
  - left. eapply redis_VerifyOTP_absent, Hg.
Qed.

(** What [SendVerificationEmail] does inside the resend delay. *)
Lemma redis_Send_throttled ev email db e :
  db !! key email = Some e -> now ev < expireAt e -> get_ok ev = true ->
  now ev - CreatedAt (value e) < ResendDelayMins * Minute ->
  SendVerificationEmail ev email db =
  (Failure (ThrottleError ResendDelayMins), db).
Proof.
  intros Hl Hlive Hget Hd. unfold SendVerificationEmail, bind, ret.
  rewrite (redis_GetOTP_live _ _ _ _ Hl Hlive Hget).
  destruct (Z.ltb_spec (now ev - CreatedAt (value e))
              (ResendDelayMins * Minute)); [reflexivity|lia].
Qed.

(** Past the resend check: the record built at [now] can be marshalled. *)
Lemma redis_Send_issues ev email db :
  (let otp := generateOTP (nano ev) in
   let record :=
     {| Email := email; OTP := otp; CreatedAt := now ev;
        Attempts := 0; Verified := false |} in
   stored <- StoreOTP ev record ;;
   match stored with
   | Failure err => ret (Failure err)
   | Success =>
       match SendEmail ev with
       | Failure err => DeleteOTP ev email ;;; ret (Failure err)
       | Success => ret Success
       end
   end) db = issued ev email db.
Proof.
  cbv zeta. unfold bind, ret.
  rewrite redis_StoreOTP_marshalled by apply now_year.
  unfold issued, SendEmail, DeleteOTP, fresh. simpl.
  destruct (set_ok ev), (mail_ok ev), (del_ok ev); reflexivity.
Qed.

(** The two ways a [SendVerificationEmail] call can go. *)
Lemma redis_Send_cases ev email db :
  (exists e,
     db !! key email = Some e /\ now ev < expireAt e /\ get_ok ev = true /\
     now ev - CreatedAt (value e) < ResendDelayMins * Minute /\
     SendVerificationEmail ev email db =
     (Failure (ThrottleError ResendDelayMins), db)) \/
  SendVerificationEmail ev email db = issued ev email db.
Proof.
  destruct (GetOTP ev email db).1 as [record|err] eqn:Hg.
  - apply redis_GetOTP_Ok in Hg as (e & Hl & <- & Hlive & Hget).
    destruct (Z.lt_ge_cases (now ev - CreatedAt (value e))
                (ResendDelayMins * Minute)) as [Hd|Hd].
    + left. exists e. repeat split; try assumption.
      eapply redis_Send_throttled; eassumption.
    + right. rewrite <- redis_Send_issues.
      unfold SendVerificationEmail. unfold bind at 1.
      rewrite (redis_GetOTP_live _ _ _ _ Hl Hlive Hget).
      destruct (Z.ltb_spec (now ev - CreatedAt (value e))
                  (ResendDelayMins * Minute)); [lia|reflexivity].
  - right. rewrite <- redis_Send_issues.
    unfold SendVerificationEmail. unfold bind at 1.
    pose proof (redis_GetOTP_reads ev email db) as Hr.
    destruct (GetOTP ev email db) as [g db0]. simpl in *. subst.
    reflexivity.
Qed.

(** *** Invariants of the store *)

Lemma redis_later_of_refl r : later_of r r.
Proof. unfold later_of. repeat split; (reflexivity || lia || trivial). Qed.

Lemma redis_later_of_trans r1 r2 r3 :
  later_of r1 r2 -> later_of r2 r3 -> later_of r1 r3.
Proof.
  unfold later_of. intros (? & ? & ? & ? & ?) (? & ? & ? & ? & ?).
  repeat split; try congruence; try lia. auto.
Qed.

(** A property of the entries that holds of a fresh entry is kept by
    [issued]. *)
Lemma redis_issued_Forall (P : string -> entry -> Prop) ev email db :
  P (key email) (stored_at ev (fresh ev email)) ->
  map_Forall P db -> map_Forall P (issued ev email db).2.
Proof.
  intros Hnew Hdb. unfold issued.
  destruct (set_ok ev), (mail_ok ev), (del_ok ev); simpl; try exact Hdb;
    try apply map_Forall_delete; apply map_Forall_insert_2; assumption.
Qed.

(** A property of the entries that [StoreOTP] gives to what it writes is
    kept by [StoreOTP]. *)
Lemma redis_StoreOTP_Forall (P : string -> entry -> Prop) ev record db :
  (JSON.year_ok (CreatedAt record) = true ->
   P (key (Email record)) (stored_at ev record)) ->
  map_Forall P db -> map_Forall P (StoreOTP ev record db).2.
Proof.
  intros Hnew Hdb.
  destruct (redis_StoreOTP_cases ev record db) as [(Hy & _ & ->) | [_ ->]];
    [|exact Hdb].
  apply map_Forall_insert_2; [apply Hnew, Hy | exact Hdb].
Qed.

(** A property of the entries kept by the stores of [VerifyOTP] and by
    fresh entries is kept by every call. *)
Lemma redis_call_Forall (P : string -> entry -> Prop) c db :
  (forall ev email, P (key email) (stored_at ev (fresh ev email))) ->
  (forall ev email e matches,
     db !! key email = Some e -> P (key email) e ->
     now ev < expireAt e ->
     Verified (value e) = false -> Attempts (value e) < MaxAttempts ->
     JSON.year_ok (CreatedAt (value e)) = true ->
     P (key (Email (value e))) (stored_at ev (checked (value e) matches))) ->
  map_Forall P db -> map_Forall P (call c db).2.
Proof.
  intros Hfresh Hchecked Hdb.
  destruct c as [ev email|ev email providedOTP]; simpl.
  - destruct (redis_Send_cases ev email db) as [(e & _ & _ & _ & _ & ->) | ->];
      [exact Hdb|].
    apply redis_issued_Forall; [apply Hfresh | exact Hdb].
  - destruct (redis_VerifyOTP_cases ev email providedOTP db)
      as [-> | (e & Hl & Hlive & _ &
                [(_ & ->) | [(_ & _ & ->) | (Hv & Ha & ->)]])];
      simpl; try exact Hdb.
    + destruct (del_ok ev); [apply map_Forall_delete|]; exact Hdb.
    + apply redis_StoreOTP_Forall; [|exact Hdb].
      intros Hy. apply (Hchecked ev email e); try assumption.
      apply Hdb in Hl. exact Hl.
Qed.

Lemma redis_run_Forall (P : string -> entry -> Prop) cs db :
  (forall c db, map_Forall P db -> map_Forall P (call c db).2) ->
  map_Forall P db -> map_Forall P (run cs db).2.
Proof.
  intros Hcall. unfold run. apply sequence_invariant. intros c s Hin.
  apply in_map_iff in Hin as (c0 & <- & _). apply Hcall.
Qed.

Lemma redis_bounded_call c db : bounded db -> bounded (call c db).2.
Proof.
  apply redis_call_Forall.
  - intros ev email. simpl. unfold MaxAttempts. lia.
  - intros ev email e matches _ _ _ _ Ha _. simpl. lia.
Qed.

Lemma redis_bounded_run cs db : bounded db -> bounded (run cs db).2.
Proof. apply redis_run_Forall. apply redis_bounded_call. Qed.

Lemma redis_written_call c db : written db -> written (call c db).2.
Proof.
  apply redis_call_Forall.
  - intros ev email. simpl. repeat split.
    + exists email. split; reflexivity.
    + rewrite !utf8_generateOTP. reflexivity.
    + apply now_year.
  - intros ev email e matches _ (_ & Ho & Hy) _ _ _ _. simpl. repeat split.
    + exists (Email (value e)). split; reflexivity.
    + rewrite Ho. exact Ho.
    + exact Hy.
Qed.

Lemma redis_written_run cs db : written db -> written (run cs db).2.
Proof. apply redis_run_Forall. apply redis_written_call. Qed.

Lemma redis_written_reachable cs : written (run cs ∅).2.
Proof. apply redis_written_run, map_Forall_empty. Qed.

(** In a store written by the service, the record under the key of an
    address holds the coerced address. *)
Lemma redis_written_lookup db email e :
  written db -> db !! key email = Some e ->
  Email (value e) = JSON.utf8 email /\
  JSON.utf8 (OTP (value e)) = OTP (value e) /\
  JSON.year_ok (CreatedAt (value e)) = true.
Proof.
  intros Hw Hl. apply Hw in Hl as ((x & Hk & He) & Ho & Hy).
  apply redis_key_inj in Hk as ->. repeat split; assumption.
Qed.

(** The entry [VerifyOTP] writes for an address that is valid UTF-8 is the
    entry of that address.  [VerifyOTP] then creates no record, and what it
    leaves under a key is a later state of what was there. *)
Lemma redis_VerifyOTP_later ev email providedOTP db k e' :
  written db -> JSON.utf8 email = email ->
  (VerifyOTP ev email providedOTP db).2 !! k = Some e' ->
  exists e, db !! k = Some e /\ later_of (value e) (value e').
Proof.
  intros Hw Hvalid.
  destruct (redis_VerifyOTP_cases ev email providedOTP db)
    as [-> | (e & Hl & _ & _ &
              [(_ & ->) | [(_ & _ & ->) | (Hv & _ & ->)]])];
    simpl; intros Hk.
  - exists e'. split; [exact Hk | apply redis_later_of_refl].
  - exists e'. split; [exact Hk | apply redis_later_of_refl].
  - exists e'. split; [|apply redis_later_of_refl].
    destruct (del_ok ev); [|exact Hk].
    apply lookup_delete_Some in Hk as [_ Hk]. exact Hk.
  - destruct (redis_written_lookup _ _ _ Hw Hl) as (He & Ho & _).
    destruct (redis_StoreOTP_cases ev
                (checked (value e)
                   (String.eqb (OTP (value e)) providedOTP)) db)
      as [(_ & _ & Hs) | [_ Hs]]; rewrite Hs in Hk; simpl in Hk;
      [|exists e'; split; [exact Hk | apply redis_later_of_refl]].
    rewrite He, Hvalid in Hk.
    apply lookup_insert_Some in Hk as [[<- <-] | [_ Hk]].
    + exists e. split; [exact Hl|].
      unfold later_of; simpl. rewrite He, Ho, Hvalid.
      repeat split; try lia; congruence.
    + exists e'. split; [exact Hk | apply redis_later_of_refl].
Qed.

(** The same through a list of [VerifyOTP] calls for addresses that are
    valid UTF-8. *)
Lemma redis_run_verifies_later vs db k e' :
  written db ->
  Forall (fun v : Env * string * string => JSON.utf8 v.1.2 = v.1.2) vs ->
  (run (verifies vs) db).2 !! k = Some e' ->
  exists e, db !! k = Some e /\ later_of (value e) (value e').
Proof.
  revert db. induction vs as [|[[ev email] providedOTP] vs IH];
    intros db Hw Hvs.
  - simpl. intros Hk. exists e'. split; [exact Hk|apply redis_later_of_refl].
  - apply Forall_cons in Hvs as [Hvalid Hvs]. simpl in Hvalid.
    unfold run, verifies. simpl map. rewrite sequence_cons. simpl.
    intros Hk. apply IH in Hk as (e1 & Hk1 & Hl1); [| |exact Hvs].
    + apply redis_VerifyOTP_later in Hk1 as (e & Hk0 & Hl0);
        [|exact Hw|exact Hvalid].
      exists e. split; [exact Hk0|]. eapply redis_later_of_trans; eassumption.
    + apply (redis_written_call (Verify ev email providedOTP)), Hw.
Qed.

(** A record out of attempts admits no successful [VerifyOTP]. *)
Lemma redis_VerifyOTP_spent ev email providedOTP db :
  spent db email -> (VerifyOTP ev email providedOTP db).1 <> Success.
Proof.
  intros Hs.
  destruct (redis_VerifyOTP_cases ev email providedOTP db)
    as [-> | (e & Hl & _ & _ &
              [(_ & ->) | [(_ & _ & ->) | (_ & Ha & ->)]])];
    simpl; try discriminate.
  apply Hs in Hl. lia.
Qed.

Lemma redis_spent_VerifyOTP ev email' providedOTP db email :
  written db -> JSON.utf8 email' = email' -> spent db email ->
  spent (VerifyOTP ev email' providedOTP db).2 email.
Proof.
  intros Hw Hvalid Hs e' Hk.
  apply redis_VerifyOTP_later in Hk as (e & Hk & (_ & _ & _ & Ha & _));
    [|exact Hw|exact Hvalid].
  apply Hs in Hk. lia.
Qed.

Lemma redis_run_verifies_spent vs db email i ev providedOTP :
  written db ->
  Forall (fun v : Env * string * string => JSON.utf8 v.1.2 = v.1.2) vs ->
  spent db email ->
  vs !! i = Some (ev, email, providedOTP) ->
  (run (verifies vs) db).1 !! i <> Some Success.
Proof.
  revert db i. induction vs as [|[[ev1 email1] otp1] vs IH];
    intros db i Hw Hvs Hs Hi; [discriminate|].
  apply Forall_cons in Hvs as [Hvalid Hvs]. simpl in Hvalid.
  unfold run, verifies. simpl map. rewrite sequence_cons. simpl.
  destruct i as [|i]; simpl in *.
  - injection Hi as -> -> ->. intros [= Heq].
    eapply redis_VerifyOTP_spent; eassumption.
  - apply IH; [|exact Hvs| |exact Hi].
    + apply (redis_written_call (Verify ev1 email1 otp1)), Hw.
    + apply redis_spent_VerifyOTP; assumption.
Qed.

(** *** The verified flag *)

(** [VerifyOTP] leaves a verified record alone. *)
Lemma redis_VerifyOTP_on_verified ev email providedOTP db e :
  db !! key email = Some e -> Verified (value e) = true ->
  (VerifyOTP ev email providedOTP db).2 = db /\
  (now ev < expireAt e -> get_ok ev = true ->
   (VerifyOTP ev email providedOTP db).1 = Failure AlreadyVerifiedError).
Proof.
  intros Hl Hv. split.
  - destruct (redis_VerifyOTP_cases ev email providedOTP db)
      as [-> | (e0 & Hl0 & _ & _ &
                [(_ & ->) | [(Hv0 & _ & _) | (Hv0 & _ & _)]])];
      try reflexivity; congruence.
  - intros Hlive Hget.
    rewrite (redis_VerifyOTP_verified _ _ _ _ e) by assumption. reflexivity.
Qed.

(** *** A run of wrong guesses *)

Lemma redis_Send_Success ev email db db1 :
  SendVerificationEmail ev email db = (Success, db1) ->
  db1 = <[key email := stored_at ev (fresh ev email)]> db.
Proof.
  destruct (redis_Send_cases ev email db) as [(e & _ & _ & _ & _ & ->) | ->];
    [discriminate|].
  unfold issued. destruct (set_ok ev), (mail_ok ev); simpl; congruence.
Qed.

(** The store right after an issuance for an address that is valid UTF-8
    holds the pending record of that address. *)
Lemma redis_fresh_pending ev email db :
  JSON.utf8 email = email ->
  pending (<[key email := stored_at ev (fresh ev email)]> db) email
    (generateOTP (nano ev)) (now ev) 0.
Proof.
  intros Hvalid. exists (stored_at ev (fresh ev email)).
  rewrite lookup_insert_eq. simpl. rewrite utf8_generateOTP.
  repeat split; try assumption. lia.
Qed.

Lemma redis_wrong_guess ev email providedOTP db otp t k :
  JSON.utf8 email = email -> JSON.utf8 otp = otp -> JSON.year_ok t = true ->
  pending db email otp t k -> k < MaxAttempts ->
  t <= now ev < t + Minute * OTPExpiryMinutes ->
  get_ok ev = true -> set_ok ev = true -> providedOTP <> otp ->
  exists db',
    VerifyOTP ev email providedOTP db = (Failure MismatchError, db') /\
    pending db' email otp t (k + 1).
Proof.
  intros Hvalid Hcode Hyear (e & Hl & He & Ho & Ht & Hk & Hv & Hd)
    Hlt Hw Hget Hset Hne.
  rewrite (redis_VerifyOTP_counted _ _ _ _ e)
    by (assumption || lia || congruence).
  cbv zeta.
  destruct (String.eqb_spec (OTP (value e)) providedOTP) as [Heq|_];
    [congruence|].
  eexists. split; [reflexivity|].
  exists (stored_at ev (checked (value e) false)).
  rewrite He, lookup_insert_eq. simpl. rewrite He, Ho.
  repeat split; try assumption; try lia.
Qed.

Lemma redis_wrong_guesses email otp t vs : forall db k,
  JSON.utf8 email = email -> JSON.utf8 otp = otp -> JSON.year_ok t = true ->
  pending db email otp t k ->
  k + Z.of_nat (length vs) <= MaxAttempts ->
  Forall (fun v : Env * string =>
            t <= now v.1 < t + Minute * OTPExpiryMinutes /\
            get_ok v.1 = true /\ set_ok v.1 = true /\ v.2 <> otp) vs ->
  exists db',
    run (guesses email vs) db =
    (replicate (length vs) (Failure MismatchError), db') /\
    pending db' email otp t (k + Z.of_nat (length vs)).
Proof.
  induction vs as [|[ev providedOTP] vs IH];
    intros db k Hvalid Hcode Hyear Hp Hk Hvs.
  - exists db. split; [reflexivity|].
    simpl. replace (k + Z.of_nat 0) with k by lia. exact Hp.
  - apply Forall_cons in Hvs as [(Hw & Hget & Hset & Hne) Hvs].
    simpl length in *.
    destruct (redis_wrong_guess ev email providedOTP db otp t k)
      as (db1 & Hv & Hp1); try assumption; try lia.
    destruct (IH db1 (k + 1)) as (db' & Hr & Hp'); try assumption; try lia.
    exists db'. split.
    + unfold run, guesses in *. simpl map. rewrite sequence_cons.
      simpl. rewrite Hv. simpl. rewrite Hr. reflexivity.
    + replace (k + Z.of_nat (S (length vs)))
        with (k + 1 + Z.of_nat (length vs)) by lia.
      exact Hp'.
Qed.

(** A record that no call has touched since its issuance cannot be read
    once its expiry window is over. *)
Lemma redis_untouched_record_expires ev0 email db db1 ev providedOTP :
  SendVerificationEmail ev0 email db = (Success, db1) ->
  now ev0 + Minute * OTPExpiryMinutes <= now ev ->
  VerifyOTP ev email providedOTP db1 = (Failure NotFoundError, db1).
Proof.
  intros Hsend Hlate. apply redis_Send_Success in Hsend. subst db1.
  apply (redis_VerifyOTP_absent _ _ _ _ (if get_ok ev then RedisNil
                                          else StorageError)).
  unfold GetOTP. rewrite lookup_insert_eq. simpl.
  destruct (get_ok ev); [|reflexivity].
  destruct (Z.ltb_spec (now ev) (now ev0 + Minute * OTPExpiryMinutes));
    [lia|reflexivity].
Qed.

(** Wrong guesses from a fresh record, then one more call, then a new
    issuance. *)
Lemma redis_budget ev0 email db db1 vs evx otpx evs :
  JSON.utf8 email = email ->
  SendVerificationEmail ev0 email db = (Success, db1) ->
  length vs = Z.to_nat MaxAttempts ->
  Forall (fun v : Env * string =>
            in_window ev0 v.1 /\ get_ok v.1 = true /\ set_ok v.1 = true /\
            v.2 <> generateOTP (nano ev0)) vs ->
  in_window ev0 evx -> get_ok evx = true -> del_ok evx = true ->
  set_ok evs = true -> mail_ok evs = true ->
  (run (guesses email vs ++ [Verify evx email otpx; Send evs email]) db1).1
  = replicate (Z.to_nat MaxAttempts) (Failure MismatchError)
      ++ [Failure AttemptsExhausted; Success].
Proof.
  intros Hvalid Hsend Hlen Hvs Hwx Hgx Hdx Hss Hms.
  apply redis_Send_Success in Hsend. subst db1.
  destruct (redis_wrong_guesses email (generateOTP (nano ev0)) (now ev0) vs
              (<[key email := stored_at ev0 (fresh ev0 email)]> db) 0)
    as (db2 & Hrun & (e & Hl & He & Ho & Ht & Hk & Hv & Hd)).
  - exact Hvalid.
  - apply utf8_generateOTP.
  - apply now_year.
  - apply redis_fresh_pending, Hvalid.
  - rewrite Hlen. unfold MaxAttempts. simpl. lia.
  - exact Hvs.
  - unfold run in *. rewrite map_app, sequence_app, Hrun, Hlen.
    simpl map. rewrite !sequence_cons. simpl.
    unfold in_window in Hwx.
    rewrite (redis_VerifyOTP_exhausted _ _ _ _ e); try assumption;
      try lia; try (rewrite Hk, Hlen; unfold MaxAttempts; simpl; lia).
    simpl. rewrite Hdx.
    destruct (redis_Send_cases evs email (delete (key email) db2))
      as [(e0 & Hl0 & _) | ->].
    + rewrite lookup_delete_eq in Hl0. discriminate.
    + unfold issued. rewrite Hss, Hms. reflexivity.
Qed.

End RedisFacts.

Section SQLServerFacts.
Import SQLServer.

(** [GetOTP] never changes the table. *)
Lemma sql_GetOTP_reads ev email db : (GetOTP ev email db).2 = db.
Proof. unfold GetOTP. repeat case_match; reflexivity. Qed.

Lemma sql_alter_row (f : Row -> Row) email row (rows : gmap string Row) :
  rows !! email = Some row -> alter f email rows = <[email := f row]> rows.
Proof.
  intros Hl. apply map_eq. intros k.
  destruct (decide (email = k)) as [<-|Hne].
  - rewrite lookup_alter_eq, lookup_insert_eq, Hl. reflexivity.
  - rewrite lookup_alter_ne, lookup_insert_ne by exact Hne. reflexivity.
Qed.

(** What [VerifyOTP] does when the table cannot be read. *)
Lemma sql_VerifyOTP_down ev email providedOTP db :
  get_ok ev = false ->
  VerifyOTP ev email providedOTP db = (Failure StorageError, db).
Proof. intros Hg. unfold VerifyOTP, bind, ret, GetOTP. rewrite Hg. reflexivity. Qed.

(** What [VerifyOTP] does when there is no row. *)
Lemma sql_VerifyOTP_absent ev email providedOTP db :
  get_ok ev = true -> otp_verifications db !! email = None ->
  VerifyOTP ev email providedOTP db = (Failure NotFoundError, db).
Proof.
  intros Hg Hl. unfold VerifyOTP, bind, ret, GetOTP. rewrite Hg, Hl.
  reflexivity.
Qed.

(** What [VerifyOTP] does on a row that is already verified. *)
Lemma sql_VerifyOTP_verified ev email providedOTP db row :
  get_ok ev = true -> otp_verifications db !! email = Some row ->
  verified row = true ->
  VerifyOTP ev email providedOTP db = (Failure AlreadyVerifiedError, db).
Proof.
  intros Hg Hl Hv. unfold VerifyOTP, bind, ret, GetOTP. rewrite Hg, Hl.
  simpl. rewrite Hv. reflexivity.
Qed.

(** What [VerifyOTP] does on an unverified row out of attempts: the row
    stays where it is. *)
Lemma sql_VerifyOTP_exhausted ev email providedOTP db row :
  get_ok ev = true -> otp_verifications db !! email = Some row ->
  verified row = false -> MaxAttempts <= attempts row ->
  VerifyOTP ev email providedOTP db = (Failure AttemptsExhausted, db).
Proof.
  intros Hg Hl Hv Ha. unfold VerifyOTP, bind, ret, GetOTP. rewrite Hg, Hl.
  simpl. rewrite Hv.
  destruct (Z.leb_spec MaxAttempts (attempts row)); [reflexivity|lia].
Qed.

(** What [VerifyOTP] does on an unverified row with attempts left. *)
Lemma sql_VerifyOTP_pending ev email providedOTP db row :
  get_ok ev = true -> otp_verifications db !! email = Some row ->
  verified row = false -> attempts row < MaxAttempts ->
  VerifyOTP ev email providedOTP db =
  let matches := String.eqb (otp row) providedOTP in
  if update_ok ev then
    (if matches then Success else Failure MismatchError,
     with_row db email (checked row matches))
  else (Failure StorageError, db).
Proof.
  intros Hg Hl Hv Ha. unfold VerifyOTP, bind, ret, GetOTP. rewrite Hg, Hl.
  simpl. rewrite Hv.
  destruct (Z.leb_spec MaxAttempts (attempts row)); [lia|].
  unfold UpdateOTP, with_row, checked. simpl.
  destruct (String.eqb (otp row) providedOTP), (update_ok ev); simpl;
    try reflexivity;
    rewrite (sql_alter_row _ _ _ _ Hl); reflexivity.
Qed.

(** The ways a [VerifyOTP] call can go. *)
Lemma sql_VerifyOTP_cases ev email providedOTP db :
  VerifyOTP ev email providedOTP db = (Failure StorageError, db) \/
  VerifyOTP ev email providedOTP db = (Failure NotFoundError, db) \/
  exists row,
    otp_verifications db !! email = Some row /\ get_ok ev = true /\
    (verified row = true /\
     VerifyOTP ev email providedOTP db = (Failure AlreadyVerifiedError, db)
     \/
     verified row = false /\ MaxAttempts <= attempts row /\
     VerifyOTP ev email providedOTP db = (Failure AttemptsExhausted, db)
     \/
     verified row = false /\ attempts row < MaxAttempts /\
     update_ok ev = true /\
     VerifyOTP ev email providedOTP db =
     let matches := String.eqb (otp row) providedOTP in
     (if matches then Success else Failure MismatchError,
      with_row db email (checked row matches))).
Proof.
  destruct (get_ok ev) eqn:Hg;
    [|left; apply sql_VerifyOTP_down; assumption].
  destruct (otp_verifications db !! email) as [row|] eqn:Hl;
    [|right; left; apply sql_VerifyOTP_absent; assumption].
  destruct (verified row) eqn:Hv.
  { right; right. exists row. repeat split. left. split; [exact Hv|].
    apply (sql_VerifyOTP_verified _ _ _ _ row); assumption. }
  destruct (Z.le_gt_cases MaxAttempts (attempts row)) as [Ha|Ha].
  { right; right. exists row. repeat split. right; left.
    repeat split; try assumption.
    apply (sql_VerifyOTP_exhausted _ _ _ _ row); assumption. }
  pose proof (sql_VerifyOTP_pending ev email providedOTP db row
                Hg Hl Hv ltac:(lia)) as Hp.
  destruct (update_ok ev) eqn:Hu.
  - right; right. exists row. repeat split. right; right.
    repeat split; try lia; try assumption.
  - left. exact Hp.
Qed.

(** *** The sweep *)

Lemma sql_cleaned_lookup ev db k row :
  otp_verifications (cleaned ev db) !! k = Some row ->
  otp_verifications db !! k = Some row.
Proof.
  unfold cleaned, CleanupExpiredOTPs. destruct (cleanup_ok ev); simpl;
    [|trivial].
  intros H. apply map_lookup_filter_Some in H as [H _]. exact H.
Qed.

Lemma sql_cleaned_keeps ev db k row :
  otp_verifications db !! k = Some row -> swept (now ev) row = false ->
  otp_verifications (cleaned ev db) !! k = Some row.
Proof.
  intros Hl Hs. unfold cleaned, CleanupExpiredOTPs.
  destruct (cleanup_ok ev); simpl; [|exact Hl].
  apply map_lookup_filter_Some. split; [exact Hl | exact Hs].
Qed.

(** A row inside the resend delay is never swept. *)
Lemma sql_recent_not_swept t row :
  t - created_at row < ResendDelayMins * Minute -> swept t row = false.
Proof.
  intros Hd. unfold swept.
  destruct (Z.ltb_spec (created_at row) (t - Minute * OTPExpiryMinutes));
    [|reflexivity].
  unfold ResendDelayMins, OTPExpiryMinutes, Minute in *. lia.
Qed.

(** A verified row is never swept. *)
Lemma sql_verified_not_swept t row : verified row = true -> swept t row = false.
Proof. intros Hv. unfold swept. rewrite Hv. apply andb_false_r. Qed.

(** *** SendVerificationEmail *)

(** What [SendVerificationEmail] does inside the resend delay. *)
Lemma sql_Send_throttled ev email db row :
  otp_verifications db !! email = Some row -> get_ok ev = true ->
  now ev - created_at row < ResendDelayMins * Minute ->
  SendVerificationEmail ev email db =
  (Failure (ThrottleError ResendDelayMins), cleaned ev db).
Proof.
  intros Hl Hget Hd.
  pose proof (sql_cleaned_keeps ev db email row Hl
                (sql_recent_not_swept _ _ Hd)) as Hl'.
  unfold SendVerificationEmail, bind, ret, cleaned in *.
  destruct (CleanupExpiredOTPs ev db) as [o db0]. simpl in Hl'.
  unfold GetOTP. rewrite Hget, Hl'. simpl.
  destruct (Z.ltb_spec (now ev - created_at row) (ResendDelayMins * Minute));
    [reflexivity|lia].
Qed.

(** The ways a [SendVerificationEmail] call can go. *)
Lemma sql_Send_cases ev email db :
  SendVerificationEmail ev email db = (Failure StorageError, cleaned ev db) \/
  (exists row,
     otp_verifications (cleaned ev db) !! email = Some row /\
     now ev - created_at row < ResendDelayMins * Minute /\
     SendVerificationEmail ev email db =
     (Failure (ThrottleError ResendDelayMins), cleaned ev db)) \/
  SendVerificationEmail ev email db = issued ev email (cleaned ev db).
Proof.
  unfold SendVerificationEmail, bind, ret, cleaned.
  destruct (CleanupExpiredOTPs ev db) as [o db0]. simpl.
  unfold GetOTP. destruct (get_ok ev); [|left; reflexivity].
  right.
  destruct (otp_verifications db0 !! email) as [row|] eqn:Hl; simpl.
  - destruct (Z.ltb_spec (now ev - created_at row)
                (ResendDelayMins * Minute)) as [Hd|Hd].
    + left. exists row. repeat split; assumption.
    + right. unfold issued, StoreOTP, merged, with_row, fresh. simpl.
      rewrite Hl. destruct (merge_ok ev); reflexivity.
  - right. unfold issued, StoreOTP, merged, with_row, fresh. simpl.
    rewrite Hl. destruct (merge_ok ev); reflexivity.
Qed.

(** *** Invariants of the table *)

Lemma sql_later_of_refl row : later_of row row.
Proof. unfold later_of. repeat split; (reflexivity || lia || trivial). Qed.

Lemma sql_later_of_trans r1 r2 r3 :
  later_of r1 r2 -> later_of r2 r3 -> later_of r1 r3.
Proof.
  unfold later_of. intros (? & ? & ? & ? & ?) (? & ? & ? & ? & ?).
  repeat split; try congruence; try lia. auto.
Qed.

Lemma sql_bounded_cleaned ev db : bounded db -> bounded (cleaned ev db).
Proof.
  intros Hb k row Hk. apply sql_cleaned_lookup in Hk. exact (Hb k row Hk).
Qed.

Lemma sql_bounded_call c db : bounded db -> bounded (call c db).2.
Proof.
  intros Hb. destruct c as [ev email|ev email providedOTP]; simpl.
  - pose proof (sql_bounded_cleaned ev db Hb) as Hb0.
    destruct (sql_Send_cases ev email db)
      as [-> | [(row & _ & _ & ->) | ->]]; try exact Hb0.
    unfold issued, merged. destruct (merge_ok ev); [|exact Hb0]. simpl.
    destruct (otp_verifications (cleaned ev db) !! email);
      apply map_Forall_insert_2; try exact Hb0;
      simpl; unfold MaxAttempts; lia.
  - destruct (sql_VerifyOTP_cases ev email providedOTP db)
      as [-> | [-> | (row & Hl & _ &
                [(_ & ->) | [(_ & _ & ->) | (_ & Ha & _ & ->)]])]];
      simpl; try exact Hb.
    apply map_Forall_insert_2; [simpl; lia | exact Hb].
Qed.

Lemma sql_bounded_run cs db : bounded db -> bounded (run cs db).2.
Proof.
  unfold run. apply sequence_invariant. intros c s Hin.
  apply in_map_iff in Hin as (c0 & <- & _). apply sql_bounded_call.
Qed.

(** [VerifyOTP] creates no row, and what it leaves for an address is a
    later state of what was there. *)
Lemma sql_VerifyOTP_later ev email providedOTP db k row' :
  otp_verifications (VerifyOTP ev email providedOTP db).2 !! k = Some row' ->
  exists row,
    otp_verifications db !! k = Some row /\ later_of row row'.
Proof.
  destruct (sql_VerifyOTP_cases ev email providedOTP db)
    as [-> | [-> | (row & Hl & _ &
              [(_ & ->) | [(_ & _ & ->) | (Hv & _ & _ & ->)]])]];
    simpl; intros Hk;
    try (exists row'; split; [exact Hk | apply sql_later_of_refl]).
  apply lookup_insert_Some in Hk as [[<- <-] | [_ Hk]].
  - exists row. split; [exact Hl|].
    unfold later_of; simpl. repeat split; try lia. congruence.
  - exists row'. split; [exact Hk | apply sql_later_of_refl].
Qed.

Lemma sql_run_verifies_later vs db k row' :
  otp_verifications (run (verifies vs) db).2 !! k = Some row' ->
  exists row,
    otp_verifications db !! k = Some row /\ later_of row row'.
Proof.
  revert db. induction vs as [|[[ev email] providedOTP] vs IH]; intros db.
  - simpl. intros Hk. exists row'. split; [exact Hk|apply sql_later_of_refl].
  - unfold run, verifies. simpl map. rewrite sequence_cons. simpl.
    intros Hk. apply IH in Hk as (r1 & Hk1 & Hl1).
    apply sql_VerifyOTP_later in Hk1 as (r0 & Hk0 & Hl0).
    exists r0. split; [exact Hk0|]. eapply sql_later_of_trans; eassumption.
Qed.

(** A row out of attempts admits no successful [VerifyOTP]. *)
Lemma sql_VerifyOTP_spent ev email providedOTP db :
  spent db email -> (VerifyOTP ev email providedOTP db).1 <> Success.
Proof.
  intros Hs.
  destruct (sql_VerifyOTP_cases ev email providedOTP db)
    as [-> | [-> | (row & Hl & _ &
              [(_ & ->) | [(_ & _ & ->) | (_ & Ha & _ & ->)]])]];
    simpl; try discriminate.
  apply Hs in Hl. lia.
Qed.

Lemma sql_spent_VerifyOTP ev email' providedOTP db email :
  spent db email -> spent (VerifyOTP ev email' providedOTP db).2 email.
Proof.
  intros Hs row' Hk.
  apply sql_VerifyOTP_later in Hk as (row & Hk & (_ & _ & _ & Ha & _)).
  apply Hs in Hk. lia.
Qed.

Lemma sql_run_verifies_spent vs db email i ev providedOTP :
  spent db email ->
  vs !! i = Some (ev, email, providedOTP) ->
  (run (verifies vs) db).1 !! i <> Some Success.
Proof.
  revert db i. induction vs as [|[[ev1 email1] otp1] vs IH];
    intros db i Hs Hi; [discriminate|].
  unfold run, verifies. simpl map. rewrite sequence_cons. simpl.
  destruct i as [|i]; simpl in *.
  - injection Hi as -> -> ->. intros [= Heq].
    eapply sql_VerifyOTP_spent; eassumption.
  - apply IH; [|exact Hi]. apply sql_spent_VerifyOTP; assumption.
Qed.

(** *** The verified flag *)

(** [VerifyOTP] leaves a verified row alone. *)
Lemma sql_VerifyOTP_on_verified ev email providedOTP db row :
  otp_verifications db !! email = Some row -> verified row = true ->
  (VerifyOTP ev email providedOTP db).2 = db /\
  (get_ok ev = true ->
   (VerifyOTP ev email providedOTP db).1 = Failure AlreadyVerifiedError).
Proof.
  intros Hl Hv. split.
  - destruct (sql_VerifyOTP_cases ev email providedOTP db)
      as [-> | [-> | (r0 & Hl0 & _ &
                [(_ & ->) | [(Hv0 & _ & _) | (Hv0 & _ & _)]])]];
      try reflexivity; congruence.
  - intros Hget.
    rewrite (sql_VerifyOTP_verified _ _ _ _ row) by assumption. reflexivity.
Qed.

(** Only an issuance for the same address turns a verified row into an
    unverified one, and the row it leaves is the fresh one. *)
Lemma sql_unverified_only_by_Send c db email row row' :
  otp_verifications db !! email = Some row -> verified row = true ->
  otp_verifications (call c db).2 !! email = Some row' ->
  verified row' = false ->
  exists ev, c = Send ev email /\ row' = fresh ev (id row).
Proof.
  intros Hl Hv Hl' Hv'.
  destruct c as [ev email1|ev email1 providedOTP]; simpl in Hl'.
  - exists ev.
    assert (Hsame : otp_verifications (cleaned ev db) !! email = Some row' ->
                    Send ev email1 = Send ev email /\
                    row' = fresh ev (id row)).
    { intros H. apply sql_cleaned_lookup in H. congruence. }
    destruct (sql_Send_cases ev email1 db)
      as [Heq | [(r0 & _ & _ & Heq) | Heq]]; rewrite Heq in Hl'; clear Heq;
      simpl in Hl'; try (apply Hsame; exact Hl').
    unfold issued in Hl'.
    destruct (merge_ok ev); simpl in Hl'; [|apply Hsame; exact Hl'].
    unfold merged in Hl'.
    destruct (otp_verifications (cleaned ev db) !! email1) as [r1|] eqn:H1;
      simpl in Hl';
      apply lookup_insert_Some in Hl' as [[-> <-] | [_ Hl']];
      try (apply Hsame; exact Hl').
    + apply sql_cleaned_lookup in H1. rewrite Hl in H1. injection H1 as <-.
      split; reflexivity.
    + rewrite (sql_cleaned_keeps ev db email row Hl
                 (sql_verified_not_swept _ _ Hv)) in H1. discriminate.
  - apply sql_VerifyOTP_later in Hl' as (r0 & Hl0 & (_ & _ & _ & _ & Hmono)).
    rewrite Hl in Hl0. injection Hl0 as <-.
    rewrite (Hmono Hv) in Hv'. discriminate.
Qed.

(** *** A run of wrong guesses *)

Lemma sql_Send_Success ev email db db1 :
  SendVerificationEmail ev email db = (Success, db1) ->
  db1 = merged ev email (cleaned ev db).
Proof.
  destruct (sql_Send_cases ev email db)
    as [-> | [(row & _ & _ & ->) | ->]]; try discriminate.
  unfold issued. destruct (merge_ok ev); simpl; congruence.
Qed.

Lemma sql_merged_pending ev email db :
  pending (merged ev email db) email (generateOTP (nano ev)) 0.
Proof.
  unfold pending, merged.
  destruct (otp_verifications db !! email) as [row|]; simpl;
    eexists; (split; [apply lookup_insert_eq|]); repeat split.
Qed.

Lemma sql_wrong_guess ev email providedOTP db code k :
  pending db email code k -> k < MaxAttempts ->
  get_ok ev = true -> update_ok ev = true -> providedOTP <> code ->
  exists db',
    VerifyOTP ev email providedOTP db = (Failure MismatchError, db') /\
    pending db' email code (k + 1).
Proof.
  intros (row & Hl & Ho & Hk & Hv) Hlt Hget Hupd Hne.
  rewrite (sql_VerifyOTP_pending _ _ _ _ row) by (assumption || lia).
  simpl. rewrite Hupd.
  destruct (String.eqb_spec (otp row) providedOTP) as [Heq|_];
    [congruence|].
  eexists. split; [reflexivity|].
  exists (checked row false). simpl. rewrite lookup_insert_eq.
  repeat split; try assumption; lia.
Qed.

Lemma sql_wrong_guesses email code vs : forall db k,
  pending db email code k ->
  k + Z.of_nat (length vs) <= MaxAttempts ->
  Forall (fun v : Env * string =>
            get_ok v.1 = true /\ update_ok v.1 = true /\ v.2 <> code) vs ->
  exists db',
    run (guesses email vs) db =
    (replicate (length vs) (Failure MismatchError), db') /\
    pending db' email code (k + Z.of_nat (length vs)).
Proof.
  induction vs as [|[ev providedOTP] vs IH]; intros db k Hp Hk Hvs.
  - exists db. split; [reflexivity|].
    simpl. replace (k + Z.of_nat 0) with k by lia. exact Hp.
  - apply Forall_cons in Hvs as [(Hget & Hupd & Hne) Hvs].
    simpl length in *.
    destruct (sql_wrong_guess ev email providedOTP db code k)
      as (db1 & Hv & Hp1); try assumption; try lia.
    destruct (IH db1 (k + 1)) as (db' & Hr & Hp'); try assumption; try lia.
    exists db'. split.
    + unfold run, guesses in *. simpl map. rewrite sequence_cons.
      simpl. rewrite Hv. simpl. rewrite Hr. reflexivity.
    + replace (k + Z.of_nat (S (length vs)))
        with (k + 1 + Z.of_nat (length vs)) by lia.
      exact Hp'.
Qed.

(** Wrong guesses from a fresh row, then one more call. *)
Lemma sql_budget ev0 email db db1 vs evx otpx :
  SendVerificationEmail ev0 email db = (Success, db1) ->
  length vs = Z.to_nat MaxAttempts ->
  Forall (fun v : Env * string =>
            get_ok v.1 = true /\ update_ok v.1 = true /\
            v.2 <> generateOTP (nano ev0)) vs ->
  get_ok evx = true ->
  (run (guesses email vs ++ [Verify evx email otpx]) db1).1
  = replicate (Z.to_nat MaxAttempts) (Failure MismatchError)
      ++ [Failure AttemptsExhausted].
Proof.
  intros Hsend Hlen Hvs Hgx.
  apply sql_Send_Success in Hsend. subst db1.
  destruct (sql_wrong_guesses email (generateOTP (nano ev0)) vs
              (merged ev0 email (cleaned ev0 db)) 0)
    as (db2 & Hrun & (row & Hl & Ho & Hk & Hv)).
  - apply sql_merged_pending.
  - rewrite Hlen. unfold MaxAttempts. simpl. lia.
  - exact Hvs.
  - unfold run in *. rewrite map_app, sequence_app, Hrun, Hlen.
    simpl map. rewrite !sequence_cons. simpl.
    rewrite (sql_VerifyOTP_exhausted _ _ _ _ row); try assumption;
      [reflexivity|].
    rewrite Hk, Hlen. unfold MaxAttempts. simpl. lia.
Qed.

End SQLServerFacts.

(** * The claims of the specification *)

(** C4, on the code.  In the Redis program the attempt that [VerifyOTP]
    counts is not persisted where it was read.  [GetOTP] reads the key of
    the address asked for; [StoreOTP] writes the key of [record.Email], the
    address as [json.Unmarshal] gave it back.  A code is issued to
    [a\xff@x.com]; a wrong guess for that address fails with
    [MismatchError], and afterwards the record that [GetOTP] returns for the
    address has no attempt: the record with the incremented attempts lies
    under the key of [a\ufffd@x.com].  The same calls for ["a@x.com"] leave
    one attempt in the record of the address. *)
Theorem redis_attempt_stored_under_coerced_address :
  JSON.utf8 Cases.raw_address = Cases.coerced_address /\
  Cases.coerced_address <> Cases.raw_address /\
  (Redis.SendVerificationEmail (Scenario.redis_at 0) Cases.raw_address ∅).1
  = Success /\
  (Redis.VerifyOTP (Scenario.redis_at (Scenario.seconds 1)) Cases.raw_address
     "000000" Cases.redis_raw_issued).1 = Failure MismatchError /\
  (Redis.GetOTP (Scenario.redis_at (Scenario.seconds 2)) Cases.raw_address
     (Redis.VerifyOTP (Scenario.redis_at (Scenario.seconds 1))
        Cases.raw_address "000000" Cases.redis_raw_issued).2).1
  = Ok {| Redis.Email := Cases.coerced_address; Redis.OTP := "123456";
          Redis.CreatedAt := 0; Redis.Attempts := 0;
          Redis.Verified := false |} /\
  Redis.value <$>
    ((Redis.VerifyOTP (Scenario.redis_at (Scenario.seconds 1))
        Cases.raw_address "000000" Cases.redis_raw_issued).2
       !! Redis.key Cases.coerced_address)
  = Some {| Redis.Email := Cases.coerced_address; Redis.OTP := "123456";
            Redis.CreatedAt := 0; Redis.Attempts := 1;
            Redis.Verified := false |} /\
  (Redis.GetOTP (Scenario.redis_at (Scenario.seconds 2)) "a@x.com"
     (Redis.VerifyOTP (Scenario.redis_at (Scenario.seconds 1))
        "a@x.com" "000000" Scenario.redis_issued).2).1
  = Ok {| Redis.Email := "a@x.com"; Redis.OTP := "123456";
          Redis.CreatedAt := 0; Redis.Attempts := 1;
          Redis.Verified := false |}.
Proof.
  repeat split; try (vm_compute; reflexivity). vm_compute. discriminate.
Qed.

(** C10, on the code.  In the Redis program a successful [VerifyOTP] for
    [a\xff@x.com] persists the verified record under the key of
    [a\ufffd@x.com]: the record that [GetOTP] returns for the address
    afterwards is the unverified one of the issuance.  After the same calls
    for ["a@x.com"], [GetOTP] returns the verified record. *)
Theorem redis_verified_record_under_coerced_address :
  (Redis.VerifyOTP (Scenario.redis_at (Scenario.seconds 5)) Cases.raw_address
     "123456" Cases.redis_raw_issued).1 = Success /\
  (Redis.GetOTP (Scenario.redis_at (Scenario.seconds 6)) Cases.raw_address
     (Redis.VerifyOTP (Scenario.redis_at (Scenario.seconds 5))
        Cases.raw_address "123456" Cases.redis_raw_issued).2).1
  = Ok {| Redis.Email := Cases.coerced_address; Redis.OTP := "123456";
          Redis.CreatedAt := 0; Redis.Attempts := 0;
          Redis.Verified := false |} /\
  Redis.value <$>
    ((Redis.VerifyOTP (Scenario.redis_at (Scenario.seconds 5))
        Cases.raw_address "123456" Cases.redis_raw_issued).2
       !! Redis.key Cases.coerced_address)
  = Some {| Redis.Email := Cases.coerced_address; Redis.OTP := "123456";
            Redis.CreatedAt := 0; Redis.Attempts := 1;
            Redis.Verified := true |} /\
  (Redis.GetOTP (Scenario.redis_at (Scenario.seconds 6)) "a@x.com"
     (Redis.VerifyOTP (Scenario.redis_at (Scenario.seconds 5))
        "a@x.com" "123456" Scenario.redis_issued).2).1
  = Ok {| Redis.Email := "a@x.com"; Redis.OTP := "123456";
          Redis.CreatedAt := 0; Redis.Attempts := 1;
          Redis.Verified := true |}.
Proof. repeat split; vm_compute; reflexivity. Qed.

(** C9, on the code.  In the Redis program the verified flag is not kept
    per record.  After a successful [VerifyOTP] for [a\xff@x.com] the
    record of that address is still unverified, and the same code is
    accepted again four seconds later; for ["a@x.com"] the second call
    fails with [AlreadyVerifiedError].  And a verified record can become
    unverified without an issuance for its address: while the record of
    [a\ufffd@x.com] is verified, a wrong guess for [a\xff@x.com] puts the
    record of that other address, unverified and with one attempt, in its
    place; with ["a@x.com"] and ["b@x.com"] for the two addresses the
    verified record stays. *)
Theorem redis_verified_flag_lost_through_coerced_address :
  (Redis.run
     [Redis.Verify (Scenario.redis_at (Scenario.seconds 5)) Cases.raw_address
        "123456";
      Redis.Verify (Scenario.redis_at (Scenario.seconds 9)) Cases.raw_address
        "123456"] Cases.redis_raw_issued).1
  = [Success; Success] /\
  (Redis.run
     [Redis.Verify (Scenario.redis_at (Scenario.seconds 5)) "a@x.com"
        "123456";
      Redis.Verify (Scenario.redis_at (Scenario.seconds 9)) "a@x.com"
        "123456"] Scenario.redis_issued).1
  = [Success; Failure AlreadyVerifiedError] /\
  Redis.value <$>
    (Cases.redis_verified_beside Cases.coerced_address Cases.raw_address
       !! Redis.key Cases.coerced_address)
  = Some {| Redis.Email := Cases.coerced_address; Redis.OTP := "123456";
            Redis.CreatedAt := 0; Redis.Attempts := 1;
            Redis.Verified := true |} /\
  (Redis.VerifyOTP (Scenario.redis_at (Scenario.seconds 5)) Cases.raw_address
     "000000"
     (Cases.redis_verified_beside Cases.coerced_address Cases.raw_address)).1
  = Failure MismatchError /\
  Redis.value <$>
    ((Redis.VerifyOTP (Scenario.redis_at (Scenario.seconds 5))
        Cases.raw_address "000000"
        (Cases.redis_verified_beside Cases.coerced_address
           Cases.raw_address)).2
       !! Redis.key Cases.coerced_address)
  = Some {| Redis.Email := Cases.coerced_address; Redis.OTP := "654321";
            Redis.CreatedAt := Scenario.seconds 4; Redis.Attempts := 1;
            Redis.Verified := false |} /\
  Redis.value <$>
    ((Redis.VerifyOTP (Scenario.redis_at (Scenario.seconds 5))
        "b@x.com" "000000"
        (Cases.redis_verified_beside "a@x.com" "b@x.com")).2
       !! Redis.key "a@x.com")
  = Some {| Redis.Email := "a@x.com"; Redis.OTP := "123456";
            Redis.CreatedAt := 0; Redis.Attempts := 1;
            Redis.Verified := true |}.
Proof. repeat split; vm_compute; reflexivity. Qed.

(** C7, as the code has it.  When [SendVerificationEmail] is called while the
    record of the address can be read and is less than [ResendDelayMins]
    old, the call fails with [ThrottleError] carrying the configured
    [ResendDelayMins], and the record of that address is unchanged: in Redis
    the whole store is, in SQL Server the row is (the sweep has run). *)
Theorem throttled_resend_keeps_record :
  (forall ev email db e,
     db !! Redis.key email = Some e ->
     Redis.now ev < Redis.expireAt e -> Redis.get_ok ev = true ->
     Redis.now ev - Redis.CreatedAt (Redis.value e) < ResendDelayMins * Minute ->
     Redis.SendVerificationEmail ev email db
     = (Failure (ThrottleError ResendDelayMins), db)) /\
  (forall ev email db row,
     SQLServer.otp_verifications db !! email = Some row ->
     SQLServer.get_ok ev = true ->
     SQLServer.now ev - SQLServer.created_at row < ResendDelayMins * Minute ->
     (SQLServer.SendVerificationEmail ev email db).1
     = Failure (ThrottleError ResendDelayMins) /\
     SQLServer.otp_verifications
       (SQLServer.SendVerificationEmail ev email db).2 !! email = Some row).
Proof.
  split.
  - intros ev email db e. apply redis_Send_throttled.
  - intros ev email db row Hl Hget Hd.
    rewrite (sql_Send_throttled _ _ _ row) by assumption. simpl.
    split; [reflexivity|].
    apply sql_cleaned_keeps; [exact Hl|].
    apply sql_recent_not_swept. exact Hd.
Qed.

Lemma throttled_resend_keeps_record_witness :
  Redis.SendVerificationEmail (Scenario.redis_at (Scenario.seconds 30))
    "a@x.com" Scenario.redis_issued
  = (Failure (ThrottleError ResendDelayMins), Scenario.redis_issued) /\
  SQLServer.otp_verifications
    (SQLServer.SendVerificationEmail (Scenario.sql_at (Scenario.seconds 30))
       "a@x.com" Scenario.sql_issued).2 !! "a@x.com"
  = Some Scenario.sql_row.
Proof.
  split.
  - apply (proj1 throttled_resend_keeps_record
             (Scenario.redis_at (Scenario.seconds 30)) "a@x.com"
             Scenario.redis_issued Scenario.redis_entry);
      vm_compute; reflexivity.
  - apply (proj2 throttled_resend_keeps_record
             (Scenario.sql_at (Scenario.seconds 30)) "a@x.com"
             Scenario.sql_issued Scenario.sql_row);
      vm_compute; reflexivity.
Defined.

(** C7, as stated, fails.  Thirty seconds after an issuance the resend is
    refused with a [ThrottleError] that says one minute, although thirty
    seconds are left of the delay.  And in the SQL Server program a throttled
    resend does mutate the table: forty-five seconds after the issuance for
    ["a@x.com"], the sweep that opens the call removes the row of
    ["c@x.com"], which has expired in between. *)
Lemma throttle_error_is_not_remaining_wait :
  Scenario.redis_issued !! Redis.key "a@x.com" = Some Scenario.redis_entry /\
  Redis.CreatedAt (Redis.value Scenario.redis_entry) = 0 /\
  (Redis.SendVerificationEmail (Scenario.redis_at (Scenario.seconds 30))
     "a@x.com" Scenario.redis_issued).1 = Failure (ThrottleError 1) /\
  1 * Minute <> spec_remaining_wait (Scenario.seconds 30) 0 /\
  (SQLServer.SendVerificationEmail (Scenario.sql_at (Scenario.seconds 615))
     "a@x.com" Scenario.sql_two_rows).1 = Failure (ThrottleError 1) /\
  is_Some (SQLServer.otp_verifications Scenario.sql_two_rows !! "c@x.com") /\
  SQLServer.otp_verifications
    (SQLServer.SendVerificationEmail (Scenario.sql_at (Scenario.seconds 615))
       "a@x.com" Scenario.sql_two_rows).2 !! "c@x.com" = None.
Proof.
  repeat split; try (vm_compute; reflexivity).
  - vm_compute. discriminate.
  - vm_compute. eexists. reflexivity.
Qed.

(** C3, on the code.  In the Redis program the attempts of a record are not
    counted under the key they are read from when the address is not valid
    UTF-8.  After an issuance to [a\xff@x.com], five wrong guesses each fail
    with [MismatchError] and leave the attempts of the record at 0, and the
    right code is then accepted; the same calls for ["a@x.com"] are answered
    with [AttemptsExhausted] at the fourth, and find no record after it.
    The record of another address is overwritten on the way: when the
    record of [a\ufffd@x.com] has used up its [MaxAttempts] attempts, a
    wrong guess for [a\xff@x.com] puts a record with one attempt in its
    place, and the next [VerifyOTP] for [a\ufffd@x.com] succeeds; with
    ["a@x.com"] and ["b@x.com"] for the two addresses that call fails with
    [AttemptsExhausted]. *)
Theorem redis_attempts_lost_through_coerced_address :
  (Redis.run (Cases.redis_six_guesses Cases.raw_address)
     Cases.redis_raw_issued).1
  = [Failure MismatchError; Failure MismatchError; Failure MismatchError;
     Failure MismatchError; Failure MismatchError; Success] /\
  Redis.Attempts <$> (Redis.value <$>
    ((Redis.run (Cases.redis_six_guesses Cases.raw_address)
        Cases.redis_raw_issued).2 !! Redis.key Cases.raw_address))
  = Some 0 /\
  (Redis.run (Cases.redis_six_guesses "a@x.com") Scenario.redis_issued).1
  = [Failure MismatchError; Failure MismatchError; Failure MismatchError;
     Failure AttemptsExhausted; Failure NotFoundError;
     Failure NotFoundError] /\
  Redis.Attempts <$> (Redis.value <$>
    (Cases.redis_spent_beside Cases.coerced_address Cases.raw_address
       !! Redis.key Cases.coerced_address))
  = Some MaxAttempts /\
  (Redis.run
     [Redis.Verify (Scenario.redis_at (Scenario.seconds 5)) Cases.raw_address
        "000000";
      Redis.Verify (Scenario.redis_at (Scenario.seconds 6))
        Cases.coerced_address "654321"]
     (Cases.redis_spent_beside Cases.coerced_address Cases.raw_address)).1
  = [Failure MismatchError; Success] /\
  Redis.Attempts <$> (Redis.value <$>
    ((Redis.VerifyOTP (Scenario.redis_at (Scenario.seconds 5))
        Cases.raw_address "000000"
        (Cases.redis_spent_beside Cases.coerced_address
           Cases.raw_address)).2
       !! Redis.key Cases.coerced_address))
  = Some 1 /\
  (Redis.run
     [Redis.Verify (Scenario.redis_at (Scenario.seconds 5)) "b@x.com"
        "000000";
      Redis.Verify (Scenario.redis_at (Scenario.seconds 6)) "a@x.com"
        "654321"]
     (Cases.redis_spent_beside "a@x.com" "b@x.com")).1
  = [Failure MismatchError; Failure AttemptsExhausted].
Proof. repeat split; vm_compute; reflexivity. Qed.

(** C2, as the code has it.  Starting from the record an issuance has just
    stored, [MaxAttempts] consecutive [VerifyOTP] calls with a wrong code
    each fail with [MismatchError], and the call after them fails with
    [AttemptsExhausted], in both programs (in Redis, for an address that is
    valid UTF-8, all within the expiry window of the issuance).  In the
    Redis program a [SendVerificationEmail] for that address then
    succeeds. *)
Theorem wrong_guesses_use_up_the_budget :
  (forall ev0 email db db1 vs evx otpx evs,
     JSON.utf8 email = email ->
     Redis.SendVerificationEmail ev0 email db = (Success, db1) ->
     length vs = Z.to_nat MaxAttempts ->
     Forall (fun v : Redis.Env * string =>
               Redis.in_window ev0 v.1 /\
               Redis.get_ok v.1 = true /\ Redis.set_ok v.1 = true /\
               v.2 <> generateOTP (Redis.nano ev0)) vs ->
     Redis.in_window ev0 evx ->
     Redis.get_ok evx = true -> Redis.del_ok evx = true ->
     Redis.set_ok evs = true -> Redis.mail_ok evs = true ->
     (Redis.run
        (Redis.guesses email vs
           ++ [Redis.Verify evx email otpx; Redis.Send evs email]) db1).1
     = replicate (Z.to_nat MaxAttempts) (Failure MismatchError)
         ++ [Failure AttemptsExhausted; Success]) /\
  (forall ev0 email db db1 vs evx otpx,
     SQLServer.SendVerificationEmail ev0 email db = (Success, db1) ->
     length vs = Z.to_nat MaxAttempts ->
     Forall (fun v : SQLServer.Env * string =>
               SQLServer.get_ok v.1 = true /\
               SQLServer.update_ok v.1 = true /\
               v.2 <> generateOTP (SQLServer.nano ev0)) vs ->
     SQLServer.get_ok evx = true ->
     (SQLServer.run
        (SQLServer.guesses email vs ++ [SQLServer.Verify evx email otpx])
        db1).1
     = replicate (Z.to_nat MaxAttempts) (Failure MismatchError)
         ++ [Failure AttemptsExhausted]).
Proof.
  split.
  - intros ev0 email db db1 vs evx otpx evs. apply redis_budget.
  - intros ev0 email db db1 vs evx otpx. apply sql_budget.
Qed.

Lemma wrong_guesses_use_up_the_budget_witness :
  (Redis.run
     (Scenario.redis_three_wrong
        ++ [Redis.Verify (Scenario.redis_at (Scenario.seconds 4))
              "a@x.com" "123456";
            Redis.Send (Scenario.redis_at (Scenario.seconds 5)) "a@x.com"])
     Scenario.redis_issued).1
  = [Failure MismatchError; Failure MismatchError; Failure MismatchError;
     Failure AttemptsExhausted; Success] /\
  (SQLServer.run
     (Scenario.sql_three_wrong
        ++ [SQLServer.Verify (Scenario.sql_at (Scenario.seconds 4))
              "a@x.com" "123456"])
     Scenario.sql_issued).1
  = [Failure MismatchError; Failure MismatchError; Failure MismatchError;
     Failure AttemptsExhausted].
Proof.
  split.
  - apply (proj1 wrong_guesses_use_up_the_budget
             (Scenario.redis_at 0) "a@x.com" ∅ Scenario.redis_issued
             [(Scenario.redis_at (Scenario.seconds 1), "000000");
              (Scenario.redis_at (Scenario.seconds 2), "111111");
              (Scenario.redis_at (Scenario.seconds 3), "222222")]
             (Scenario.redis_at (Scenario.seconds 4)) "123456"
             (Scenario.redis_at (Scenario.seconds 5)));
      try reflexivity.
    + repeat constructor; try (vm_compute; discriminate).
    + split; vm_compute; (reflexivity || discriminate).
  - apply (proj2 wrong_guesses_use_up_the_budget
             (Scenario.sql_at 0) "a@x.com" SQLServer.empty Scenario.sql_issued
             [(Scenario.sql_at (Scenario.seconds 1), "000000");
              (Scenario.sql_at (Scenario.seconds 2), "111111");
              (Scenario.sql_at (Scenario.seconds 3), "222222")]
             (Scenario.sql_at (Scenario.seconds 4)) "123456");
      try reflexivity.
    repeat constructor; vm_compute; discriminate.
Defined.

(** C2, as stated, fails: of [MaxAttempts] consecutive wrong guesses on a
    fresh record the last one, too, fails with [MismatchError], not with
    [AttemptsExhausted], in both programs. *)
Lemma last_of_MaxAttempts_guesses_is_mismatch :
  length Scenario.redis_three_wrong = Z.to_nat MaxAttempts /\
  (Redis.run Scenario.redis_three_wrong Scenario.redis_issued).1
  = [Failure MismatchError; Failure MismatchError; Failure MismatchError] /\
  last (Redis.run Scenario.redis_three_wrong Scenario.redis_issued).1
  <> Some (Failure AttemptsExhausted) /\
  length Scenario.sql_three_wrong = Z.to_nat MaxAttempts /\
  (SQLServer.run Scenario.sql_three_wrong Scenario.sql_issued).1
  = [Failure MismatchError; Failure MismatchError; Failure MismatchError] /\
  last (SQLServer.run Scenario.sql_three_wrong Scenario.sql_issued).1
  <> Some (Failure AttemptsExhausted).
Proof.
  repeat split; try (vm_compute; reflexivity); vm_compute; discriminate.
Qed.

(** C1, on the code.  In the SQL Server program a record issued at instant 0
    and left alone is still handed out by [GetOTP] eleven minutes later, and
    [VerifyOTP] with its code succeeds: nothing on the way of [VerifyOTP]
    looks at [created_at]. *)
Theorem sqlserver_verifies_expired_record :
  SQLServer.otp_verifications Scenario.sql_issued !! "a@x.com"
  = Some Scenario.sql_row /\
  SQLServer.created_at Scenario.sql_row + Minute * OTPExpiryMinutes
  < Scenario.minutes 11 /\
  (SQLServer.GetOTP (Scenario.sql_at (Scenario.minutes 11)) "a@x.com"
     Scenario.sql_issued).1
  = Ok (Some {| SQLServer.ID := 1; SQLServer.Email := "a@x.com";
                SQLServer.OTP := "123456"; SQLServer.CreatedAt := 0;
                SQLServer.Attempts := 0; SQLServer.Verified := false |}) /\
  (SQLServer.VerifyOTP (Scenario.sql_at (Scenario.minutes 11)) "a@x.com"
     "123456" Scenario.sql_issued).1 = Success.
Proof. repeat split; vm_compute; reflexivity. Qed.

(** C8, on the code.  In the Redis program every [StoreOTP] restarts the
    time-to-live: after a wrong guess nine minutes after the issuance the
    entry lives until minute nineteen, and the right code is accepted at
    minute eleven, past [CreatedAt + OTPExpiryMinutes].  Without the wrong
    guess the same call finds nothing. *)
Theorem redis_update_restarts_expiry :
  Redis.CreatedAt (Redis.value Scenario.redis_entry)
    + Minute * OTPExpiryMinutes < Scenario.minutes 11 /\
  (Redis.run
     [Redis.Verify (Scenario.redis_at (Scenario.minutes 9)) "a@x.com" "000000";
      Redis.Verify (Scenario.redis_at (Scenario.minutes 11)) "a@x.com" "123456"]
     Scenario.redis_issued).1
  = [Failure MismatchError; Success] /\
  Redis.expireAt <$>
    ((Redis.VerifyOTP (Scenario.redis_at (Scenario.minutes 9)) "a@x.com"
        "000000" Scenario.redis_issued).2 !! Redis.key "a@x.com")
  = Some (Scenario.minutes 19) /\
  (Redis.VerifyOTP (Scenario.redis_at (Scenario.minutes 11)) "a@x.com"
     "123456" Scenario.redis_issued).1 = Failure NotFoundError.
Proof. repeat split; vm_compute; reflexivity. Qed.

(** C5, on the code.  In the SQL Server program [VerifyOTP] on a row out of
    attempts fails with [AttemptsExhausted] and leaves the table as it is:
    the row is still there, and an issuance a second later is throttled by
    it.  The Redis program deletes the entry at that point, and the same
    issuance succeeds. *)
Theorem sqlserver_keeps_exhausted_row :
  SQLServer.VerifyOTP (Scenario.sql_at (Scenario.seconds 4)) "a@x.com"
    "123456" Scenario.sql_spent
  = (Failure AttemptsExhausted, Scenario.sql_spent) /\
  SQLServer.attempts <$>
    (SQLServer.otp_verifications Scenario.sql_spent !! "a@x.com")
  = Some MaxAttempts /\
  (SQLServer.SendVerificationEmail (Scenario.sql_at (Scenario.seconds 5))
     "a@x.com" Scenario.sql_spent).1 = Failure (ThrottleError 1) /\
  Redis.VerifyOTP (Scenario.redis_at (Scenario.seconds 4)) "a@x.com"
    "123456" Scenario.redis_spent
  = (Failure AttemptsExhausted, ∅) /\
  (Redis.SendVerificationEmail (Scenario.redis_at (Scenario.seconds 5))
     "a@x.com" ∅).1 = Success.
Proof. repeat split; vm_compute; reflexivity. Qed.

(** C6, on the code.  In the SQL Server program an issuance whose mail is
    refused returns the error of [SendEmail] and leaves the row it has just
    merged in the table; a retry a second later is throttled by that row.
    The Redis program deletes the entry it has just set. *)
Theorem sqlserver_keeps_undelivered_row :
  (SQLServer.SendVerificationEmail (Scenario.sql_no_mail_at 0) "a@x.com"
     SQLServer.empty).1 = Failure DeliveryError /\
  SQLServer.otp_verifications
    (SQLServer.SendVerificationEmail (Scenario.sql_no_mail_at 0) "a@x.com"
       SQLServer.empty).2 !! "a@x.com"
  = Some Scenario.sql_row /\
  (SQLServer.SendVerificationEmail (Scenario.sql_at (Scenario.seconds 1))
     "a@x.com"
     (SQLServer.SendVerificationEmail (Scenario.sql_no_mail_at 0) "a@x.com"
        SQLServer.empty).2).1 = Failure (ThrottleError 1) /\
  Redis.SendVerificationEmail (Scenario.redis_no_mail_at 0) "a@x.com" ∅
  = (Failure DeliveryError, ∅).
Proof. repeat split; vm_compute; reflexivity. Qed.

(** * Beyond the claims: the Redis program *)

Section RedisMore.
Import Redis.

(** X1. Store and read back.  [StoreOTP] returns the error of
    [json.Marshal], and leaves the store alone, for a record whose
    [CreatedAt] lies outside the years 0 to 9999, also when the store could
    be written.  After a [StoreOTP] that went through, a [GetOTP] for the
    address of the record returns the record as [encoding/json] hands it
    back, with [Email] and [OTP] coerced to valid UTF-8 (the very record
    when both are valid UTF-8), at every instant before [OTPExpiryMinutes]
    have passed since the store, and [redis.Nil] from that instant on. *)
Theorem redis_store_then_get ev ev' record db :
  (JSON.year_ok (CreatedAt record) = false ->
   StoreOTP ev record db = (Failure MarshalError, db)) /\
  (JSON.year_ok (CreatedAt record) = true ->
   set_ok ev = true -> get_ok ev' = true ->
   (StoreOTP ev record db).1 = Success /\
   (now ev' < now ev + Minute * OTPExpiryMinutes ->
    (GetOTP ev' (Email record) (StoreOTP ev record db).2).1
    = Ok {| Email := JSON.utf8 (Email record);
            OTP := JSON.utf8 (OTP record);
            CreatedAt := CreatedAt record; Attempts := Attempts record;
            Verified := Verified record |}) /\
   (now ev + Minute * OTPExpiryMinutes <= now ev' ->
    (GetOTP ev' (Email record) (StoreOTP ev record db).2).1
    = Err RedisNil)) /\
  (JSON.utf8 (Email record) = Email record ->
   JSON.utf8 (OTP record) = OTP record ->
   {| Email := JSON.utf8 (Email record); OTP := JSON.utf8 (OTP record);
      CreatedAt := CreatedAt record; Attempts := Attempts record;
      Verified := Verified record |} = record).
Proof.
  split; [apply redis_StoreOTP_refused|]. split.
  - intros Hy Hset Hget. rewrite redis_StoreOTP_marshalled by exact Hy.
    rewrite Hset. unfold GetOTP. rewrite Hget. simpl.
    rewrite lookup_insert_eq. simpl. split; [reflexivity|].
    split; intros Ht.
    + destruct (Z.ltb_spec (now ev') (now ev + Minute * OTPExpiryMinutes));
        [reflexivity|lia].
    + destruct (Z.ltb_spec (now ev') (now ev + Minute * OTPExpiryMinutes));
        [lia|reflexivity].
  - intros -> ->. destruct record; reflexivity.
Qed.

Lemma redis_store_then_get_witness :
  StoreOTP (Scenario.redis_at 0) Cases.redis_year_10000 Scenario.redis_issued
  = (Failure MarshalError, Scenario.redis_issued) /\
  (GetOTP (Scenario.redis_at (Scenario.minutes 9)) Cases.raw_address
     (StoreOTP (Scenario.redis_at 0) Cases.redis_raw_record ∅).2).1
  = Ok {| Email := Cases.coerced_address; OTP := "654321";
          CreatedAt := Scenario.seconds 2; Attempts := 1;
          Verified := false |} /\
  (GetOTP (Scenario.redis_at (Scenario.minutes 10)) Cases.raw_address
     (StoreOTP (Scenario.redis_at 0) Cases.redis_raw_record ∅).2).1
  = Err RedisNil /\
  (GetOTP (Scenario.redis_at (Scenario.minutes 9)) "b@x.com"
     (StoreOTP (Scenario.redis_at 0) Cases.redis_other ∅).2).1
  = Ok Cases.redis_other.
Proof.
  destruct (redis_store_then_get (Scenario.redis_at 0) (Scenario.redis_at 0)
              Cases.redis_year_10000 Scenario.redis_issued) as (Hno & _ & _).
  destruct (redis_store_then_get (Scenario.redis_at 0)
              (Scenario.redis_at (Scenario.minutes 9))
              Cases.redis_raw_record ∅) as (_ & Hraw9 & _).
  destruct (redis_store_then_get (Scenario.redis_at 0)
              (Scenario.redis_at (Scenario.minutes 10))
              Cases.redis_raw_record ∅) as (_ & Hraw10 & _).
  destruct (redis_store_then_get (Scenario.redis_at 0)
              (Scenario.redis_at (Scenario.minutes 9))
              Cases.redis_other ∅) as (_ & Hother & Hsame).
  split; [apply Hno; reflexivity|].
  destruct (Hraw9 eq_refl eq_refl eq_refl) as (_ & Hread & _).
  destruct (Hraw10 eq_refl eq_refl eq_refl) as (_ & _ & Hgone).
  destruct (Hother eq_refl eq_refl eq_refl) as (_ & Hread' & _).
  split; [apply Hread; vm_compute; reflexivity|].
  split; [apply Hgone; vm_compute; discriminate|].
  assert (H9 : now (Scenario.redis_at (Scenario.minutes 9))
               < now (Scenario.redis_at 0) + Minute * OTPExpiryMinutes)
    by (vm_compute; reflexivity).
  exact (eq_trans (Hread' H9) (f_equal Ok (Hsame eq_refl eq_refl))).
Defined.

(** X2. Delete.  A [DeleteOTP] that went through returns no error whether or
    not there was an entry; afterwards [GetOTP] for the address finds
    nothing, and a store that had no entry for the address is unchanged. *)
Theorem redis_delete_then_get ev ev' email db :
  del_ok ev = true ->
  (DeleteOTP ev email db).1 = Success /\
  (get_ok ev' = true ->
   (GetOTP ev' email (DeleteOTP ev email db).2).1 = Err RedisNil) /\
  (db !! key email = None -> (DeleteOTP ev email db).2 = db).
Proof.
  intros Hdel. unfold DeleteOTP, GetOTP. rewrite Hdel. simpl.
  repeat split.
  - intros ->. rewrite lookup_delete_eq. reflexivity.
  - intros Hnone. apply delete_id. exact Hnone.
Qed.

Lemma redis_delete_then_get_witness :
  (GetOTP (Scenario.redis_at (Scenario.seconds 1)) "a@x.com"
     (DeleteOTP (Scenario.redis_at (Scenario.seconds 1)) "a@x.com"
        Scenario.redis_issued).2).1 = Err RedisNil /\
  DeleteOTP (Scenario.redis_at 0) "a@x.com" ∅ = (Success, ∅).
Proof.
  destruct (redis_delete_then_get (Scenario.redis_at (Scenario.seconds 1))
              (Scenario.redis_at (Scenario.seconds 1)) "a@x.com"
              Scenario.redis_issued eq_refl) as (_ & Hget & _).
  destruct (redis_delete_then_get (Scenario.redis_at 0)
              (Scenario.redis_at 0) "a@x.com" ∅ eq_refl) as (Hout & _ & Hid).
  split; [apply Hget; reflexivity|].
  apply injective_projections; [exact Hout | apply Hid; reflexivity].
Defined.

(** X3. Which entries a call touches.  [SendVerificationEmail] for an
    address leaves the entry of every other address as it was.  In a store
    built by the service, [VerifyOTP] for an address leaves alone every
    entry but two: that of the address, which it may delete, and that of
    the address coerced to valid UTF-8, which it may write (one and the
    same entry when the address is valid UTF-8). *)
Theorem redis_calls_touch_one_address cs ev email providedOTP other :
  other <> email ->
  (forall db,
     (SendVerificationEmail ev email db).2 !! key other = db !! key other) /\
  (other <> JSON.utf8 email ->
   (VerifyOTP ev email providedOTP (run cs ∅).2).2 !! key other
   = (run cs ∅).2 !! key other).
Proof.
  intros Hne.
  assert (Hk : key email <> key other).
  { intros H. apply redis_key_inj in H. congruence. }
  split.
  - intros db.
    destruct (redis_Send_cases ev email db) as [(e & _ & _ & _ & _ & ->) | ->];
      [reflexivity|].
    unfold issued.
    destruct (set_ok ev), (mail_ok ev), (del_ok ev); simpl;
      rewrite ?lookup_delete_ne, ?lookup_insert_ne by exact Hk; reflexivity.
  - intros Hne'. pose proof (redis_written_reachable cs) as Hw.
    destruct (redis_VerifyOTP_cases ev email providedOTP (run cs ∅).2)
      as [-> | (e & Hl & _ & _ &
                [(_ & ->) | [(_ & _ & ->) | (_ & _ & ->)]])];
      simpl; try reflexivity.
    + destruct (del_ok ev); [|reflexivity].
      apply lookup_delete_ne. exact Hk.
    + destruct (redis_StoreOTP_cases ev
                  (checked (value e)
                     (String.eqb (OTP (value e)) providedOTP)) (run cs ∅).2)
        as [(_ & _ & ->) | [_ ->]]; [|reflexivity].
      simpl. destruct (redis_written_lookup _ _ _ Hw Hl) as (-> & _).
      apply lookup_insert_ne. intros H. apply redis_key_inj in H. congruence.
Qed.

Lemma redis_calls_touch_one_address_witness :
  (VerifyOTP (Scenario.redis_at (Scenario.seconds 3)) Cases.raw_address
     "000000"
     (run [Send (Scenario.redis_at 0) "a@x.com";
           Send (Scenario.redis_at (Scenario.seconds 2)) Cases.raw_address]
        ∅).2).2 !! key "a@x.com"
  = Some Scenario.redis_entry.
Proof.
  destruct (redis_calls_touch_one_address
              [Send (Scenario.redis_at 0) "a@x.com";
               Send (Scenario.redis_at (Scenario.seconds 2)) Cases.raw_address]
              (Scenario.redis_at (Scenario.seconds 3)) Cases.raw_address
              "000000" "a@x.com")
    as [_ Hverify].
  - discriminate.
  - rewrite Hverify; [vm_compute; reflexivity|]. vm_compute. discriminate.
Defined.

Lemma redis_timely_call c db :
  RedisStates.timely db -> RedisStates.timely (call c db).2.
Proof.
  apply redis_call_Forall.
  - intros ev email. simpl. lia.
  - intros ev email e matches _ Ht Hlive _ _ _. simpl in *.
    unfold Minute, OTPExpiryMinutes in *. lia.
Qed.

Lemma redis_counted_call c db :
  RedisStates.counted db -> RedisStates.counted (call c db).2.
Proof.
  apply redis_call_Forall.
  - intros ev email. simpl. lia.
  - intros ev email e matches _ Ht _ _ _ _. simpl in *. lia.
Qed.

(** X4. A bound on the life of a record.  Every store of a record restarts
    the time-to-live, but a record is stored once when issued and once per
    counted attempt, so in every store reachable from the empty one by calls
    of the service, [GetOTP] never hands out a record older than
    [MaxAttempts + 1] expiry windows. *)
Theorem redis_record_lifetime_bound cs ev email record :
  (GetOTP ev email (run cs ∅).2).1 = Ok record ->
  now ev < CreatedAt record + (MaxAttempts + 1) * (Minute * OTPExpiryMinutes).
Proof.
  intros Hg. apply redis_GetOTP_Ok in Hg as (e & Hl & <- & Hlive & _).
  assert (Ht : RedisStates.timely (run cs ∅).2).
  { apply redis_run_Forall; [apply redis_timely_call | apply map_Forall_empty]. }
  assert (Hb : bounded (run cs ∅).2).
  { apply redis_bounded_run, map_Forall_empty. }
  apply Ht in Hl as Ht'. apply Hb in Hl as Hb'. simpl in *.
  unfold Minute, OTPExpiryMinutes, MaxAttempts in *. lia.
Qed.

Lemma redis_record_lifetime_bound_witness :
  Scenario.minutes 11
  < 0 + (MaxAttempts + 1) * (Minute * OTPExpiryMinutes).
Proof.
  apply (redis_record_lifetime_bound
           [Send (Scenario.redis_at 0) "a@x.com";
            Verify (Scenario.redis_at (Scenario.minutes 9)) "a@x.com" "000000"]
           (Scenario.redis_at (Scenario.minutes 11)) "a@x.com"
           (checked (fresh (Scenario.redis_at 0) "a@x.com") false)).
  vm_compute. reflexivity.
Defined.

(** X5. What [GetOTP] hands out.  In every store reachable from the empty
    one, the record that [GetOTP] returns for an address holds that address
    coerced to valid UTF-8 (the address itself when it is valid UTF-8), and
    its attempts lie between [0] and [MaxAttempts]. *)
Theorem redis_get_returns_own_record cs ev email record :
  (GetOTP ev email (run cs ∅).2).1 = Ok record ->
  Email record = JSON.utf8 email /\ 0 <= Attempts record <= MaxAttempts.
Proof.
  intros Hg. apply redis_GetOTP_Ok in Hg as (e & Hl & <- & _ & _).
  pose proof (redis_written_reachable cs) as Hw.
  assert (Hb : bounded (run cs ∅).2).
  { apply redis_bounded_run, map_Forall_empty. }
  assert (Hc : RedisStates.counted (run cs ∅).2).
  { apply redis_run_Forall; [apply redis_counted_call | apply map_Forall_empty]. }
  split; [apply (redis_written_lookup _ _ _ Hw Hl)|].
  apply Hb in Hl as Hb'. apply Hc in Hl as Hc'. simpl in *. lia.
Qed.

Lemma redis_get_returns_own_record_witness :
  Email (roundtrip (fresh (Scenario.redis_at 0) Cases.raw_address))
  = Cases.coerced_address /\
  Email (checked (fresh (Scenario.redis_at 0) "a@x.com") false) = "a@x.com".
Proof.
  split.
  - apply (redis_get_returns_own_record
             [Send (Scenario.redis_at 0) Cases.raw_address]
             (Scenario.redis_at (Scenario.minutes 9)) Cases.raw_address).
    vm_compute. reflexivity.
  - apply (redis_get_returns_own_record
             [Send (Scenario.redis_at 0) "a@x.com";
              Verify (Scenario.redis_at (Scenario.minutes 9)) "a@x.com"
                "000000"]
             (Scenario.redis_at (Scenario.minutes 11)) "a@x.com").
    vm_compute. reflexivity.
Defined.

(** X6. Issuance outside the resend delay.  When the store can be written
    and the mail goes out, [SendVerificationEmail] succeeds unless a record
    of the address can be read that is younger than [ResendDelayMins]; the
    entry of the address is then the fresh record (holding the address as
    [json.Marshal] coerces it), whatever was there before: a verified
    record, one out of attempts, an expired one. *)
Theorem redis_reissue_replaces ev email db :
  set_ok ev = true -> mail_ok ev = true ->
  (forall e,
     db !! key email = Some e -> now ev < expireAt e -> get_ok ev = true ->
     ResendDelayMins * Minute <= now ev - CreatedAt (value e)) ->
  (SendVerificationEmail ev email db).1 = Success /\
  (SendVerificationEmail ev email db).2 !! key email
  = Some {| value := {| Email := JSON.utf8 email;
                        OTP := generateOTP (nano ev);
                        CreatedAt := now ev; Attempts := 0;
                        Verified := false |};
            expireAt := now ev + Minute * OTPExpiryMinutes |}.
Proof.
  intros Hset Hmail Hold.
  destruct (redis_Send_cases ev email db)
    as [(e & Hl & Hlive & Hget & Hd & _) | ->].
  - specialize (Hold e Hl Hlive Hget). lia.
  - unfold issued. rewrite Hset, Hmail. simpl.
    rewrite lookup_insert_eq. unfold stored_at, roundtrip, fresh. simpl.
    rewrite utf8_generateOTP. split; reflexivity.
Qed.

Lemma redis_reissue_replaces_witness :
  (SendVerificationEmail (Scenario.redis_at (Scenario.minutes 2)) "a@x.com"
     Scenario.redis_verified).1 = Success /\
  Verified <$> (value <$>
    (SendVerificationEmail (Scenario.redis_at (Scenario.minutes 2)) "a@x.com"
       Scenario.redis_verified).2 !! key "a@x.com") = Some false.
Proof.
  destruct (redis_reissue_replaces (Scenario.redis_at (Scenario.minutes 2))
              "a@x.com" Scenario.redis_verified eq_refl eq_refl)
    as [Hout Hrec].
  - intros e He _ _. vm_compute in He. injection He as <-.
    vm_compute. discriminate.
  - split; [exact Hout|]. rewrite Hrec. reflexivity.
Defined.

(** X7. The resend delay is not enforced when Redis cannot be read.
    [SendVerificationEmail] takes a failed [GetOTP] for "no record": if the
    store can still be written and the mail goes out, it issues a new code
    and overwrites the entry of the address, however young the record in
    it. *)
Theorem redis_throttle_fails_open ev email db :
  get_ok ev = false -> set_ok ev = true -> mail_ok ev = true ->
  SendVerificationEmail ev email db
  = (Success, <[key email := stored_at ev (fresh ev email)]> db).
Proof.
  intros Hget Hset Hmail.
  destruct (redis_Send_cases ev email db)
    as [(e & _ & _ & Hget' & _) | ->]; [congruence|].
  unfold issued. rewrite Hset, Hmail. reflexivity.
Qed.

Lemma redis_throttle_fails_open_witness :
  Scenario.redis_issued !! key "a@x.com" = Some Scenario.redis_entry /\
  (SendVerificationEmail (Cases.redis_blind_at (Scenario.seconds 5))
     "a@x.com" Scenario.redis_issued).1 = Success /\
  CreatedAt <$> (value <$>
    (SendVerificationEmail (Cases.redis_blind_at (Scenario.seconds 5))
       "a@x.com" Scenario.redis_issued).2 !! key "a@x.com")
  = Some (Scenario.seconds 5).
Proof.
  rewrite (redis_throttle_fails_open (Cases.redis_blind_at (Scenario.seconds 5))
             "a@x.com" Scenario.redis_issued eq_refl eq_refl eq_refl).
  repeat split; vm_compute; reflexivity.
Defined.

(** X8. Guesses are not counted when Redis cannot be written.  [VerifyOTP]
    ignores the error of the [StoreOTP] that persists a wrong guess: while
    the store can be read but not written, any number of wrong guesses on a
    record with attempts left each fail with [MismatchError] and leave the
    store, hence the attempts, as they were. *)
Theorem redis_unwritable_store_counts_nothing email e vs db :
  db !! key email = Some e ->
  Verified (value e) = false -> Attempts (value e) < MaxAttempts ->
  Forall (fun v : Env * string =>
            get_ok v.1 = true /\ set_ok v.1 = false /\
            now v.1 < expireAt e /\ v.2 <> OTP (value e)) vs ->
  run (guesses email vs) db
  = (replicate (length vs) (Failure MismatchError), db).
Proof.
  intros Hl Hv Ha. induction vs as [|[ev providedOTP] vs IH]; intros Hvs.
  - reflexivity.
  - apply Forall_cons in Hvs as [(Hget & Hset & Hlive & Hne) Hvs].
    simpl in *. specialize (IH Hvs).
    unfold run, guesses in *. simpl map. rewrite sequence_cons. simpl.
    rewrite (redis_VerifyOTP_pending _ _ _ _ e) by assumption.
    cbv zeta.
    destruct (String.eqb_spec (OTP (value e)) providedOTP) as [Heq|_];
      [congruence|].
    destruct (redis_StoreOTP_cases ev (checked (value e) false) db)
      as [(_ & Hset' & _) | [_ ->]]; [congruence|].
    simpl. rewrite IH. reflexivity.
Qed.

Lemma redis_unwritable_store_counts_nothing_witness :
  run (guesses "a@x.com"
         [(Cases.redis_readonly_at (Scenario.seconds 1), "000000");
          (Cases.redis_readonly_at (Scenario.seconds 2), "000001");
          (Cases.redis_readonly_at (Scenario.seconds 3), "000002");
          (Cases.redis_readonly_at (Scenario.seconds 4), "000003");
          (Cases.redis_readonly_at (Scenario.seconds 5), "000004")])
      Scenario.redis_issued
  = (replicate 5 (Failure MismatchError), Scenario.redis_issued).
Proof.
  apply (redis_unwritable_store_counts_nothing "a@x.com" Scenario.redis_entry
           [(Cases.redis_readonly_at (Scenario.seconds 1), "000000");
            (Cases.redis_readonly_at (Scenario.seconds 2), "000001");
            (Cases.redis_readonly_at (Scenario.seconds 3), "000002");
            (Cases.redis_readonly_at (Scenario.seconds 4), "000003");
            (Cases.redis_readonly_at (Scenario.seconds 5), "000004")]
           Scenario.redis_issued).
  - vm_compute. reflexivity.
  - reflexivity.
  - vm_compute. reflexivity.
  - repeat constructor; vm_compute; discriminate.
Defined.

Lemma redis_right_guess ev email db otp t k :
  JSON.utf8 email = email -> JSON.year_ok t = true ->
  pending db email otp t k -> k < MaxAttempts ->
  t <= now ev < t + Minute * OTPExpiryMinutes ->
  get_ok ev = true -> set_ok ev = true ->
  exists e,
    db !! key email = Some e /\
    VerifyOTP ev email otp db
    = (Success, <[key email := stored_at ev (checked (value e) true)]> db).
Proof.
  intros Hvalid Hyear (e & Hl & He & Ho & Ht & Hk & Hv & Hd) Hlt Hw Hget Hset.
  exists e. split; [exact Hl|].
  rewrite (redis_VerifyOTP_counted _ _ _ _ e)
    by (assumption || lia || congruence).
  cbv zeta. rewrite He, Ho, String.eqb_refl. reflexivity.
Qed.

(** X9. Issue, verify, verify again.  After a successful issuance for an
    address that is valid UTF-8, a [VerifyOTP] with the generated code
    inside the expiry window succeeds, and a further [VerifyOTP] for the
    address, with any code, before the restarted time-to-live runs out
    fails with [AlreadyVerifiedError]. *)
Theorem redis_issue_verify_once ev0 email db db1 ev1 ev2 providedOTP :
  JSON.utf8 email = email ->
  SendVerificationEmail ev0 email db = (Success, db1) ->
  in_window ev0 ev1 -> get_ok ev1 = true -> set_ok ev1 = true ->
  now ev2 < now ev1 + Minute * OTPExpiryMinutes -> get_ok ev2 = true ->
  (run [Verify ev1 email (generateOTP (nano ev0));
        Verify ev2 email providedOTP] db1).1
  = [Success; Failure AlreadyVerifiedError].
Proof.
  intros Hvalid Hsend Hw Hg1 Hs1 Hlive2 Hg2.
  apply redis_Send_Success in Hsend. subst db1.
  destruct (redis_right_guess ev1 email
              (<[key email := stored_at ev0 (fresh ev0 email)]> db)
              (generateOTP (nano ev0)) (now ev0) 0)
    as (e & Hl & Hv1); try assumption.
  { apply now_year. }
  { apply redis_fresh_pending, Hvalid. }
  { unfold MaxAttempts. lia. }
  unfold run. simpl map. rewrite !sequence_cons.
  rewrite Hv1. cbn [fst snd].
  rewrite (redis_VerifyOTP_verified _ _ _ _
             (stored_at ev1 (checked (value e) true)));
    [reflexivity | apply lookup_insert_eq | exact Hlive2 | exact Hg2
    | reflexivity].
Qed.

Lemma redis_issue_verify_once_witness :
  (run [Verify (Scenario.redis_at (Scenario.seconds 5)) "a@x.com" "123456";
        Verify (Scenario.redis_at (Scenario.seconds 9)) "a@x.com" "123456"]
     Scenario.redis_issued).1
  = [Success; Failure AlreadyVerifiedError].
Proof.
  apply (redis_issue_verify_once (Scenario.redis_at 0) "a@x.com" ∅
           Scenario.redis_issued (Scenario.redis_at (Scenario.seconds 5))
           (Scenario.redis_at (Scenario.seconds 9)) "123456").
  - reflexivity.
  - reflexivity.
  - split; vm_compute; (reflexivity || discriminate).
  - reflexivity.
  - reflexivity.
  - vm_compute. reflexivity.
  - reflexivity.
Defined.

Lemma redis_settled_VerifyOTP ev email' providedOTP db email :
  written db -> JSON.utf8 email' = email' -> RedisStates.settled db email ->
  RedisStates.settled (VerifyOTP ev email' providedOTP db).2 email.
Proof.
  intros Hw Hvalid Hs e' Hk.
  apply redis_VerifyOTP_later in Hk as (e & Hk & (_ & _ & _ & _ & Hmono));
    [|exact Hw|exact Hvalid].
  apply Hmono, Hs, Hk.
Qed.

Lemma redis_VerifyOTP_settled ev email providedOTP db :
  RedisStates.settled db email ->
  (VerifyOTP ev email providedOTP db).1 <> Success.
Proof.
  intros Hs.
  destruct (redis_VerifyOTP_cases ev email providedOTP db)
    as [-> | (e & Hl & _ & _ &
              [(_ & ->) | [(_ & _ & ->) | (Hv & _ & ->)]])];
    simpl; try discriminate.
  apply Hs in Hl. congruence.
Qed.

Lemma redis_Success_settles ev email providedOTP db :
  written db -> JSON.utf8 email = email ->
  (VerifyOTP ev email providedOTP db).1 = Success ->
  RedisStates.settled (VerifyOTP ev email providedOTP db).2 email.
Proof.
  intros Hw Hvalid.
  destruct (redis_VerifyOTP_cases ev email providedOTP db)
    as [-> | (e & Hl & _ & _ &
              [(_ & ->) | [(_ & _ & ->) | (Hv & _ & ->)]])];
    simpl; try discriminate.
  destruct (String.eqb (OTP (value e)) providedOTP); [|discriminate].
  destruct (redis_StoreOTP_cases ev (checked (value e) true) db)
    as [(_ & _ & ->) | [Hno _]]; [|intros H; contradiction].
  simpl. destruct (redis_written_lookup _ _ _ Hw Hl) as (-> & _).
  rewrite Hvalid. intros _ e' He'. rewrite lookup_insert_eq in He'.
  injection He' as <-. reflexivity.
Qed.

Lemma redis_run_verifies_settled vs db email i ev providedOTP :
  written db ->
  Forall (fun v : Env * string * string => JSON.utf8 v.1.2 = v.1.2) vs ->
  RedisStates.settled db email ->
  vs !! i = Some (ev, email, providedOTP) ->
  (run (verifies vs) db).1 !! i <> Some Success.
Proof.
  revert db i. induction vs as [|[[ev1 email1] otp1] vs IH];
    intros db i Hw Hvs Hs Hi; [discriminate|].
  apply Forall_cons in Hvs as [Hvalid Hvs]. simpl in Hvalid.
  unfold run, verifies. simpl map. rewrite sequence_cons. simpl.
  destruct i as [|i]; simpl in *.
  - injection Hi as -> -> ->. intros [= Heq].
    eapply redis_VerifyOTP_settled; eassumption.
  - apply IH; [|exact Hvs| |exact Hi].
    + apply (redis_written_call (Verify ev1 email1 otp1)), Hw.
    + apply redis_settled_VerifyOTP; assumption.
Qed.

Lemma redis_one_success vs db email i j evi otpi evj otpj :
  written db ->
  Forall (fun v : Env * string * string => JSON.utf8 v.1.2 = v.1.2) vs ->
  (i < j)%nat ->
  vs !! i = Some (evi, email, otpi) ->
  vs !! j = Some (evj, email, otpj) ->
  (run (verifies vs) db).1 !! i = Some Success ->
  (run (verifies vs) db).1 !! j <> Some Success.
Proof.
  revert db i j. induction vs as [|[[ev1 email1] otp1] vs IH];
    intros db i j Hw Hvs Hij Hi Hj; [discriminate|].
  apply Forall_cons in Hvs as [Hvalid Hvs]. simpl in Hvalid.
  unfold run, verifies in *. simpl map. rewrite sequence_cons. simpl.
  destruct j as [|j]; [lia|]. destruct i as [|i]; simpl in *.
  - injection Hi as -> -> ->. intros [= Hsucc].
    apply (redis_run_verifies_settled vs _ email j evj otpj); try assumption.
    + apply (redis_written_call (Verify evi email otpi)), Hw.
    + apply redis_Success_settles; assumption.
  - apply (IH _ i j); try assumption; try lia.
    apply (redis_written_call (Verify ev1 email1 otp1)), Hw.
Qed.

(** X10. A code is accepted once.  In a store built by the service, of the
    [VerifyOTP] calls of a list of such calls for addresses that are valid
    UTF-8 at most one per address succeeds: after a success for an address,
    no later call of the list for that address succeeds. *)
Theorem redis_one_success_per_record cs vs email i j evi otpi evj otpj :
  Forall (fun v : Env * string * string => JSON.utf8 v.1.2 = v.1.2) vs ->
  (i < j)%nat ->
  vs !! i = Some (evi, email, otpi) ->
  vs !! j = Some (evj, email, otpj) ->
  (run (verifies vs) (run cs ∅).2).1 !! i = Some Success ->
  (run (verifies vs) (run cs ∅).2).1 !! j <> Some Success.
Proof.
  intros Hvs. apply redis_one_success; [apply redis_written_reachable|].
  exact Hvs.
Qed.

Lemma redis_one_success_per_record_witness :
  (run (verifies
          [(Scenario.redis_at (Scenario.seconds 5), "a@x.com", "123456");
           (Scenario.redis_at (Scenario.seconds 9), "a@x.com", "123456")])
     (run [Send (Scenario.redis_at 0) "a@x.com"] ∅).2).1 !! 1%nat
  <> Some Success.
Proof.
  apply (redis_one_success_per_record
           [Send (Scenario.redis_at 0) "a@x.com"]
           [(Scenario.redis_at (Scenario.seconds 5), "a@x.com", "123456");
            (Scenario.redis_at (Scenario.seconds 9), "a@x.com", "123456")]
           "a@x.com" 0%nat 1%nat
           (Scenario.redis_at (Scenario.seconds 5)) "123456"
           (Scenario.redis_at (Scenario.seconds 9)) "123456").
  - repeat constructor.
  - lia.
  - reflexivity.
  - reflexivity.
  - vm_compute. reflexivity.
Defined.

Lemma redis_at_least_VerifyOTP ev email' providedOTP db email a :
  written db -> JSON.utf8 email' = email' ->
  RedisStates.at_least db email a ->
  RedisStates.at_least (VerifyOTP ev email' providedOTP db).2 email a.
Proof.
  intros Hw Hvalid Hs e' Hk.
  apply redis_VerifyOTP_later in Hk as (e & Hk & (_ & _ & _ & Ha & _));
    [|exact Hw|exact Hvalid].
  apply Hs in Hk. lia.
Qed.

Lemma redis_compared_counts ev email providedOTP db a :
  written db -> JSON.utf8 email = email ->
  RedisStates.at_least db email a -> set_ok ev = true ->
  compared (VerifyOTP ev email providedOTP db).1 = true ->
  a < MaxAttempts /\
  RedisStates.at_least (VerifyOTP ev email providedOTP db).2 email (a + 1).
Proof.
  intros Hw Hvalid Hs Hset.
  destruct (redis_VerifyOTP_cases ev email providedOTP db)
    as [Heq | (e & Hl & Hlive & Hget &
              [(_ & Heq) | [(_ & _ & Heq) | (Hv & Ha & _)]])];
    try (rewrite Heq; simpl; discriminate).
  destruct (redis_written_lookup _ _ _ Hw Hl) as (He & _ & Hy).
  rewrite (redis_VerifyOTP_counted _ _ _ _ e) by assumption.
  cbv zeta. cbn [fst snd]. rewrite He, Hvalid. intros _.
  apply Hs in Hl as Hge. split; [lia|].
  intros e' He'. rewrite lookup_insert_eq in He'. injection He' as <-.
  simpl. lia.
Qed.

Lemma redis_compared_bounded email vs : forall db a,
  written db -> RedisStates.at_least db email a -> a <= MaxAttempts ->
  Forall (fun v : Env * string * string =>
            set_ok v.1.1 = true /\ JSON.utf8 v.1.2 = v.1.2) vs ->
  compared_guesses email vs (run (verifies vs) db).1 <= MaxAttempts - a.
Proof.
  induction vs as [|[[ev email1] otp1] vs IH]; intros db a Hw Hs Ha Hvs.
  - simpl. lia.
  - apply Forall_cons in Hvs as [[Hset Hvalid] Hvs]. simpl in Hset, Hvalid.
    unfold run, verifies in *. simpl map. rewrite sequence_cons.
    simpl compared_guesses.
    pose proof (redis_written_call (Verify ev email1 otp1) db Hw) as Hw1.
    simpl in Hw1.
    destruct (String.eqb_spec email1 email) as [->|Hne]; simpl andb.
    + destruct (compared (VerifyOTP ev email otp1 db).1) eqn:Hc.
      * destruct (redis_compared_counts ev email otp1 db a Hw Hvalid Hs
                    Hset Hc) as [Hlt Hs1].
        specialize (IH _ (a + 1) Hw1 Hs1 ltac:(lia) Hvs). lia.
      * specialize (IH _ a Hw1
                      (redis_at_least_VerifyOTP _ _ _ _ _ _ Hw Hvalid Hs)
                      Ha Hvs).
        lia.
    + specialize (IH _ a Hw1
                    (redis_at_least_VerifyOTP _ _ _ _ _ _ Hw Hvalid Hs)
                    Ha Hvs).
      cbv iota. lia.
Qed.

(** X11. The attempt budget of a record.  In a store built by the service,
    while every call can write the store and the addresses of the calls are
    valid UTF-8, the [VerifyOTP] calls of a list that get a compared outcome
    (success or [MismatchError]) for an address whose record has already at
    least [a] attempts number at most [MaxAttempts - a]. *)
Theorem redis_compared_guesses_bounded cs email vs a :
  RedisStates.at_least (run cs ∅).2 email a -> a <= MaxAttempts ->
  Forall (fun v : Env * string * string =>
            set_ok v.1.1 = true /\ JSON.utf8 v.1.2 = v.1.2) vs ->
  compared_guesses email vs (run (verifies vs) (run cs ∅).2).1
  <= MaxAttempts - a.
Proof. apply redis_compared_bounded, redis_written_reachable. Qed.

Lemma redis_compared_guesses_bounded_witness :
  compared_guesses "a@x.com"
    [(Scenario.redis_at (Scenario.seconds 1), "a@x.com", "000000");
     (Scenario.redis_at (Scenario.seconds 2), "a@x.com", "111111");
     (Scenario.redis_at (Scenario.seconds 3), "a@x.com", "222222");
     (Scenario.redis_at (Scenario.seconds 4), "a@x.com", "123456")]
    (run (verifies
            [(Scenario.redis_at (Scenario.seconds 1), "a@x.com", "000000");
             (Scenario.redis_at (Scenario.seconds 2), "a@x.com", "111111");
             (Scenario.redis_at (Scenario.seconds 3), "a@x.com", "222222");
             (Scenario.redis_at (Scenario.seconds 4), "a@x.com", "123456")])
       (run [Send (Scenario.redis_at 0) "a@x.com"] ∅).2).1
  <= MaxAttempts - 0.
Proof.
  apply (redis_compared_guesses_bounded
           [Send (Scenario.redis_at 0) "a@x.com"] "a@x.com" _ 0).
  - intros e He. vm_compute in He. injection He as <-. vm_compute.
    discriminate.
  - vm_compute. discriminate.
  - repeat constructor.
Defined.

End RedisMore.

(** * Beyond the claims: the SQL Server program *)

Section SQLServerMore.
Import SQLServer.

(** X12. Store and read back.  After a [StoreOTP] that went through, a
    [GetOTP] for the address of the record returns its code, creation time,
    attempts and verified flag at whatever instant it is made, under the
    [id] of the row that was there or else the next identity value; and
    storing the same record once more changes nothing. *)
Theorem sql_store_then_get ev ev' record db :
  merge_ok ev = true -> get_ok ev' = true ->
  (GetOTP ev' (Email record) (StoreOTP ev record db).2).1
  = Ok (Some {| ID := match otp_verifications db !! Email record with
                      | Some row => id row
                      | None => identity db
                      end;
                Email := Email record; OTP := OTP record;
                CreatedAt := CreatedAt record; Attempts := Attempts record;
                Verified := Verified record |}) /\
  (StoreOTP ev record (StoreOTP ev record db).2).2 = (StoreOTP ev record db).2.
Proof.
  intros Hm Hg. unfold GetOTP, StoreOTP. rewrite Hm, Hg.
  destruct (otp_verifications db !! Email record) as [row|] eqn:Hl; simpl;
    rewrite lookup_insert_eq; simpl; (split; [reflexivity|]);
    rewrite insert_insert_eq; reflexivity.
Qed.

Lemma sql_store_then_get_witness :
  (GetOTP (Scenario.sql_at (Scenario.minutes 600)) "b@x.com"
     (StoreOTP (Scenario.sql_at 0) Cases.sql_other Scenario.sql_issued).2).1
  = Ok (Some {| ID := 2; Email := "b@x.com"; OTP := "654321";
                CreatedAt := Scenario.seconds 2; Attempts := 1;
                Verified := false |}).
Proof.
  destruct (sql_store_then_get (Scenario.sql_at 0)
              (Scenario.sql_at (Scenario.minutes 600)) Cases.sql_other
              Scenario.sql_issued eq_refl eq_refl) as [Hget _].
  exact Hget.
Defined.

(** X13. Update writes two columns of one row.  [UpdateOTP] creates no row
    and removes none: for an address without a row the table stays as it
    was.  Of the row of the record's address it changes [attempts] and
    [verified] only; every other row and the identity counter are left
    alone. *)
Theorem sql_update_writes_counters_only ev record db :
  identity (UpdateOTP ev record db).2 = identity db /\
  (otp_verifications db !! Email record = None ->
   (UpdateOTP ev record db).2 = db) /\
  (forall k,
     k <> Email record ->
     otp_verifications (UpdateOTP ev record db).2 !! k
     = otp_verifications db !! k) /\
  (forall row,
     otp_verifications db !! Email record = Some row ->
     update_ok ev = true ->
     otp_verifications (UpdateOTP ev record db).2 !! Email record
     = Some {| id := id row; otp := otp row; created_at := created_at row;
               attempts := Attempts record; verified := Verified record |}).
Proof.
  unfold UpdateOTP. destruct (update_ok ev); simpl; repeat split.
  - intros Hnone. destruct db as [rows next]. simpl in *. f_equal.
    apply map_eq. intros k. rewrite lookup_alter.
    case_decide; [subst; rewrite Hnone|]; reflexivity.
  - intros k Hne. apply lookup_alter_ne. congruence.
  - intros row Hl _. rewrite lookup_alter_eq, Hl. reflexivity.
  - intros row Hl Hfalse. discriminate.
Qed.

(** X14. What the sweep removes.  After a [CleanupExpiredOTPs] that went
    through, the table holds exactly the rows it held that are verified or
    not older than [OTPExpiryMinutes] (a row of exactly that age stays), and
    a second sweep at the same instant removes nothing more. *)
Theorem sql_cleanup_keeps_exactly ev db :
  cleanup_ok ev = true ->
  (forall k row,
     otp_verifications (CleanupExpiredOTPs ev db).2 !! k = Some row <->
     otp_verifications db !! k = Some row /\
     (verified row = true \/
      now ev - Minute * OTPExpiryMinutes <= created_at row)) /\
  (CleanupExpiredOTPs ev (CleanupExpiredOTPs ev db).2).2
  = (CleanupExpiredOTPs ev db).2.
Proof.
  intros Hc.
  assert (Hkeep : forall row,
            swept (now ev) row = false <->
            verified row = true \/
            now ev - Minute * OTPExpiryMinutes <= created_at row).
  { intros row. unfold swept.
    destruct (Z.ltb_spec (created_at row) (now ev - Minute * OTPExpiryMinutes)),
      (verified row); simpl; split; intros H'; auto; try discriminate;
      destruct H' as [H'|H']; (discriminate || lia). }
  unfold CleanupExpiredOTPs. rewrite Hc. simpl. split.
  - intros k row. rewrite map_lookup_filter_Some. simpl.
    rewrite Hkeep. reflexivity.
  - f_equal. apply map_eq. intros k. apply option_eq. intros row.
    rewrite !map_lookup_filter_Some. simpl. tauto.
Qed.

Lemma sql_cleanup_keeps_exactly_witness :
  otp_verifications
    (CleanupExpiredOTPs (Scenario.sql_at (Scenario.minutes 10))
       Scenario.sql_issued).2 !! "a@x.com" = Some Scenario.sql_row /\
  otp_verifications
    (CleanupExpiredOTPs (Scenario.sql_at (Scenario.minutes 10 + 1))
       Scenario.sql_issued).2 !! "a@x.com" = None.
Proof.
  destruct (sql_cleanup_keeps_exactly (Scenario.sql_at (Scenario.minutes 10))
              Scenario.sql_issued eq_refl) as [Hkeep _].
  destruct (sql_cleanup_keeps_exactly
              (Scenario.sql_at (Scenario.minutes 10 + 1))
              Scenario.sql_issued eq_refl) as [Hdrop _].
  split.
  - apply Hkeep. split; [vm_compute; reflexivity|].
    right. vm_compute. discriminate.
  - destruct (otp_verifications
                (CleanupExpiredOTPs (Scenario.sql_at (Scenario.minutes 10 + 1))
                   Scenario.sql_issued).2 !! "a@x.com") as [row|] eqn:Hrow;
      [|reflexivity].
    apply Hdrop in Hrow as [Hrow [Hv|Ht]].
    + vm_compute in Hrow. injection Hrow as <-. discriminate.
    + vm_compute in Hrow. injection Hrow as <-. vm_compute in Ht.
      exfalso. apply Ht. reflexivity.
Defined.

Lemma sql_update_writes_counters_only_witness :
  (UpdateOTP (Scenario.sql_at (Scenario.seconds 3)) Cases.sql_other
     Scenario.sql_issued).2 = Scenario.sql_issued /\
  otp_verifications
    (UpdateOTP (Scenario.sql_at (Scenario.seconds 3))
       {| ID := 0; Email := "a@x.com"; OTP := "999999";
          CreatedAt := Scenario.seconds 3; Attempts := 2;
          Verified := true |} Scenario.sql_issued).2 !! "a@x.com"
  = Some {| id := 1; otp := "123456"; created_at := 0; attempts := 2;
            verified := true |}.
Proof.
  destruct (sql_update_writes_counters_only
              (Scenario.sql_at (Scenario.seconds 3)) Cases.sql_other
              Scenario.sql_issued) as (_ & Hnone & _ & _).
  destruct (sql_update_writes_counters_only
              (Scenario.sql_at (Scenario.seconds 3))
              {| ID := 0; Email := "a@x.com"; OTP := "999999";
                 CreatedAt := Scenario.seconds 3; Attempts := 2;
                 Verified := true |} Scenario.sql_issued)
    as (_ & _ & _ & Hrow).
  split.
  - apply Hnone. vm_compute. reflexivity.
  - apply (Hrow Scenario.sql_row).
    + vm_compute. reflexivity.
    + reflexivity.
Defined.

Lemma sql_cleaned_clean ev db :
  cleanup_ok ev = true -> SQLServerStates.clean_at (now ev) (cleaned ev db).
Proof.
  intros Hc k row Hk. unfold cleaned, CleanupExpiredOTPs in Hk.
  rewrite Hc in Hk. simpl in Hk.
  apply map_lookup_filter_Some in Hk as [_ Hs]. simpl in Hs.
  unfold swept in Hs. apply andb_false_iff in Hs as [Ht|Hv].
  - right. apply Z.ltb_ge in Ht. exact Ht.
  - left. apply negb_false_iff in Hv. exact Hv.
Qed.

(** X15. An issuance sweeps first.  After a [SendVerificationEmail] whose
    sweep went through, whatever its result (success, throttled, storage or
    delivery failure) and whatever the address, no row of the table is both
    unverified and older than [OTPExpiryMinutes]. *)
Theorem sql_send_leaves_no_expired_row ev email db :
  cleanup_ok ev = true ->
  forall k row,
    otp_verifications (SendVerificationEmail ev email db).2 !! k = Some row ->
    verified row = true \/
    now ev - Minute * OTPExpiryMinutes <= created_at row.
Proof.
  intros Hc k row.
  pose proof (sql_cleaned_clean ev db Hc) as Hclean.
  destruct (sql_Send_cases ev email db)
    as [-> | [(r0 & _ & _ & ->) | ->]]; simpl; try apply Hclean.
  unfold issued. destruct (merge_ok ev); simpl; [|apply Hclean].
  unfold merged.
  destruct (otp_verifications (cleaned ev db) !! email); simpl;
    intros Hk; apply lookup_insert_Some in Hk as [[_ <-] | [_ Hk]];
    try (apply (Hclean _ _ Hk));
    right; simpl; unfold Minute, OTPExpiryMinutes; lia.
Qed.

Lemma sql_send_leaves_no_expired_row_witness :
  otp_verifications
    (SendVerificationEmail (Scenario.sql_at (Scenario.seconds 615)) "a@x.com"
       Scenario.sql_two_rows).2 !! "c@x.com" = None.
Proof.
  destruct (otp_verifications
              (SendVerificationEmail (Scenario.sql_at (Scenario.seconds 615))
                 "a@x.com" Scenario.sql_two_rows).2 !! "c@x.com")
    as [row|] eqn:Hrow; [|reflexivity].
  destruct (sql_send_leaves_no_expired_row
              (Scenario.sql_at (Scenario.seconds 615)) "a@x.com"
              Scenario.sql_two_rows eq_refl "c@x.com" row Hrow) as [Hv|Ht];
    vm_compute in Hrow; discriminate.
Defined.

Lemma sql_keyed_cleaned ev db :
  SQLServerStates.keyed_by_id db -> SQLServerStates.keyed_by_id (cleaned ev db).
Proof.
  intros (Hn & Hr & Hu).
  assert (Hid : identity (cleaned ev db) = identity db).
  { unfold cleaned, CleanupExpiredOTPs. destruct (cleanup_ok ev); reflexivity. }
  repeat split.
  - rewrite Hid. exact Hn.
  - apply sql_cleaned_lookup in H. apply (Hr k row H).
  - rewrite Hid. apply sql_cleaned_lookup in H. apply (Hr k row H).
  - intros k1 k2 r1 r2 H1 H2. apply sql_cleaned_lookup in H1, H2.
    exact (Hu k1 k2 r1 r2 H1 H2).
Qed.

Lemma sql_keyed_with_row db email row row' :
  SQLServerStates.keyed_by_id db ->
  otp_verifications db !! email = Some row -> id row' = id row ->
  SQLServerStates.keyed_by_id (with_row db email row').
Proof.
  intros (Hn & Hr & Hu) Hl Hid. split; [exact Hn|]. split.
  - intros k r Hk. simpl in *.
    apply lookup_insert_Some in Hk as [[<- <-] | [_ Hk]].
    + rewrite Hid. exact (Hr _ _ Hl).
    + exact (Hr _ _ Hk).
  - intros k1 k2 r1 r2 H1 H2 Heq. simpl in *.
    apply lookup_insert_Some in H1 as [[<- <-] | [Hn1 H1]];
      apply lookup_insert_Some in H2 as [[<- <-] | [Hn2 H2]];
      try reflexivity.
    + rewrite Hid in Heq. exact (Hu _ _ _ _ Hl H2 Heq).
    + rewrite Hid in Heq. exact (Hu _ _ _ _ H1 Hl Heq).
    + exact (Hu _ _ _ _ H1 H2 Heq).
Qed.

Lemma sql_keyed_merged ev email db :
  SQLServerStates.keyed_by_id db ->
  SQLServerStates.keyed_by_id (merged ev email db).
Proof.
  intros Hk. unfold merged.
  destruct (otp_verifications db !! email) as [row|] eqn:Hl.
  - apply (sql_keyed_with_row _ _ row); [exact Hk | exact Hl | reflexivity].
  - destruct Hk as (Hn & Hr & Hu). split; [simpl; lia|]. split.
    + intros k r Hkr. simpl in *.
      apply lookup_insert_Some in Hkr as [[<- <-] | [_ Hkr]].
      * simpl. lia.
      * specialize (Hr _ _ Hkr). lia.
    + intros k1 k2 r1 r2 H1 H2 Heq. simpl in *.
      apply lookup_insert_Some in H1 as [[<- <-] | [Hn1 H1]];
        apply lookup_insert_Some in H2 as [[<- <-] | [Hn2 H2]];
        try reflexivity.
      * specialize (Hr _ _ H2). simpl in Heq. lia.
      * specialize (Hr _ _ H1). simpl in Heq. lia.
      * exact (Hu _ _ _ _ H1 H2 Heq).
Qed.

Lemma sql_keyed_by_id_call c db :
  SQLServerStates.keyed_by_id db -> SQLServerStates.keyed_by_id (call c db).2.
Proof.
  intros Hk. destruct c as [ev email|ev email providedOTP]; simpl.
  - pose proof (sql_keyed_cleaned ev db Hk) as Hk0.
    destruct (sql_Send_cases ev email db)
      as [-> | [(r0 & _ & _ & ->) | ->]]; try exact Hk0.
    unfold issued. destruct (merge_ok ev); simpl; [|exact Hk0].
    apply sql_keyed_merged, Hk0.
  - destruct (sql_VerifyOTP_cases ev email providedOTP db)
      as [-> | [-> | (row & Hl & _ &
                [(_ & ->) | [(_ & _ & ->) | (_ & _ & _ & ->)]])]];
      simpl; try exact Hk.
    apply (sql_keyed_with_row _ _ row); [exact Hk | exact Hl | reflexivity].
Qed.

(** X16. The primary key.  In every table reachable from the empty one by
    calls of the service, the [id] values of the rows are pairwise distinct,
    at least [1] and below the next identity value. *)
Theorem sql_ids_stay_unique cs :
  1 <= identity (run cs empty).2 /\
  (forall k row,
     otp_verifications (run cs empty).2 !! k = Some row ->
     1 <= id row < identity (run cs empty).2) /\
  (forall k1 k2 r1 r2,
     otp_verifications (run cs empty).2 !! k1 = Some r1 ->
     otp_verifications (run cs empty).2 !! k2 = Some r2 ->
     id r1 = id r2 -> k1 = k2).
Proof.
  change (SQLServerStates.keyed_by_id (run cs empty).2).
  unfold run. apply sequence_invariant.
  - intros c s Hin. apply in_map_iff in Hin as (c0 & <- & _).
    apply sql_keyed_by_id_call.
  - split; [simpl; lia|]. split.
    + intros k row Hk. simpl in Hk. rewrite lookup_empty in Hk. discriminate.
    + intros k1 k2 r1 r2 H1. simpl in H1. rewrite lookup_empty in H1.
      discriminate.
Qed.

Lemma sql_VerifyOTP_other ev email providedOTP db other :
  other <> email ->
  otp_verifications (VerifyOTP ev email providedOTP db).2 !! other
  = otp_verifications db !! other.
Proof.
  intros Hne.
  destruct (sql_VerifyOTP_cases ev email providedOTP db)
    as [-> | [-> | (row & Hl & _ &
              [(_ & ->) | [(_ & _ & ->) | (_ & _ & _ & ->)]])]];
    simpl; try reflexivity.
  apply lookup_insert_ne. congruence.
Qed.

Lemma sql_Send_other ev email db other :
  other <> email ->
  otp_verifications (SendVerificationEmail ev email db).2 !! other
  = otp_verifications (cleaned ev db) !! other.
Proof.
  intros Hne.
  destruct (sql_Send_cases ev email db)
    as [-> | [(r0 & _ & _ & ->) | ->]]; try reflexivity.
  unfold issued. destruct (merge_ok ev); simpl; [|reflexivity].
  unfold merged.
  destruct (otp_verifications (cleaned ev db) !! email); simpl;
    apply lookup_insert_ne; congruence.
Qed.

(** X17. Addresses do not interfere, but for the sweep.  A [VerifyOTP] for
    one address leaves every other row as it was.  A
    [SendVerificationEmail] for one address leaves every other row as it
    was or removes it, and it removes only rows that are unverified and
    older than [OTPExpiryMinutes]. *)
Theorem sql_calls_touch_one_address ev email providedOTP db other :
  other <> email ->
  otp_verifications (VerifyOTP ev email providedOTP db).2 !! other
  = otp_verifications db !! other /\
  (otp_verifications (SendVerificationEmail ev email db).2 !! other
   = otp_verifications db !! other \/
   otp_verifications (SendVerificationEmail ev email db).2 !! other = None /\
   exists row,
     otp_verifications db !! other = Some row /\ verified row = false /\
     created_at row < now ev - Minute * OTPExpiryMinutes).
Proof.
  intros Hne. split; [apply sql_VerifyOTP_other; exact Hne|].
  rewrite (sql_Send_other ev email db other Hne).
  destruct (otp_verifications db !! other) as [row|] eqn:Hl.
  - destruct (swept (now ev) row) eqn:Hs.
    + destruct (otp_verifications (cleaned ev db) !! other) as [r|] eqn:Hc.
      { left. apply sql_cleaned_lookup in Hc. congruence. }
      right. split; [reflexivity|]. exists row.
      unfold swept in Hs. apply andb_true_iff in Hs as [Ht Hv].
      apply Z.ltb_lt in Ht. apply negb_true_iff in Hv. auto.
    + left. apply sql_cleaned_keeps; assumption.
  - left.
    destruct (otp_verifications (cleaned ev db) !! other) as [r|] eqn:Hc;
      [|reflexivity].
    apply sql_cleaned_lookup in Hc. congruence.
Qed.

Lemma sql_calls_touch_one_address_witness :
  otp_verifications
    (VerifyOTP (Scenario.sql_at (Scenario.seconds 580)) "a@x.com" "000000"
       Scenario.sql_two_rows).2 !! "c@x.com"
  = otp_verifications Scenario.sql_two_rows !! "c@x.com".
Proof.
  apply (sql_calls_touch_one_address (Scenario.sql_at (Scenario.seconds 580))
           "a@x.com" "000000" Scenario.sql_two_rows "c@x.com").
  discriminate.
Defined.

(** X18. A verified row stays.  As long as no new code is asked for its
    address, a verified row is in the table after any list of calls, for
    any addresses and at any instants, exactly as it was: no sweep removes
    it and no [VerifyOTP] changes it. *)
Theorem sql_verified_row_stays cs : forall db email row,
  otp_verifications db !! email = Some row -> verified row = true ->
  Forall (fun c => ~ SQLServerStates.issues email c) cs ->
  otp_verifications (run cs db).2 !! email = Some row.
Proof.
  induction cs as [|c cs IH]; intros db email row Hl Hv Hcs; [exact Hl|].
  apply Forall_cons in Hcs as [Hc Hcs].
  unfold run in *. simpl map. rewrite sequence_cons. simpl.
  apply IH; [|exact Hv|exact Hcs].
  destruct c as [ev email1|ev email1 providedOTP]; simpl in *.
  - assert (Hne : email <> email1) by congruence.
    rewrite (sql_Send_other ev email1 db email Hne).
    apply sql_cleaned_keeps; [exact Hl|].
    apply sql_verified_not_swept. exact Hv.
  - destruct (decide (email = email1)) as [<-|Hne].
    + rewrite (proj1 (sql_VerifyOTP_on_verified ev email providedOTP db row
                        Hl Hv)).
      exact Hl.
    + rewrite (sql_VerifyOTP_other ev email1 providedOTP db email Hne).
      exact Hl.
Qed.

Lemma sql_verified_row_stays_witness :
  otp_verifications
    (run [Verify (Scenario.sql_at (Scenario.minutes 30)) "a@x.com" "000000";
          Send (Scenario.sql_at (Scenario.minutes 60)) "b@x.com";
          Send (Scenario.sql_at (Scenario.minutes 900)) "c@x.com"]
       Scenario.sql_verified).2 !! "a@x.com"
  = Some Scenario.sql_verified_row.
Proof.
  apply (sql_verified_row_stays
           [Verify (Scenario.sql_at (Scenario.minutes 30)) "a@x.com" "000000";
            Send (Scenario.sql_at (Scenario.minutes 60)) "b@x.com";
            Send (Scenario.sql_at (Scenario.minutes 900)) "c@x.com"]
           Scenario.sql_verified "a@x.com" Scenario.sql_verified_row).
  - vm_compute. reflexivity.
  - reflexivity.
  - repeat constructor; simpl; try tauto; discriminate.
Defined.

(** X19. Issue, verify, verify again.  After a successful issuance, a
    [VerifyOTP] with the generated code succeeds and a further [VerifyOTP]
    for the address, with any code, fails with [AlreadyVerifiedError], at
    whatever instants the two calls are made: no call on this path looks at
    the clock. *)
Theorem sql_issue_verify_once ev0 email db db1 ev1 ev2 providedOTP :
  SendVerificationEmail ev0 email db = (Success, db1) ->
  get_ok ev1 = true -> update_ok ev1 = true -> get_ok ev2 = true ->
  (run [Verify ev1 email (generateOTP (nano ev0));
        Verify ev2 email providedOTP] db1).1
  = [Success; Failure AlreadyVerifiedError].
Proof.
  intros Hsend Hg1 Hu1 Hg2.
  apply sql_Send_Success in Hsend. subst db1.
  destruct (sql_merged_pending ev0 email (cleaned ev0 db))
    as (row & Hl & Ho & Hk & Hv).
  unfold run. simpl map. rewrite !sequence_cons.
  rewrite (sql_VerifyOTP_pending _ _ _ _ row);
    [|exact Hg1|exact Hl|exact Hv|rewrite Hk; unfold MaxAttempts; lia].
  cbv zeta. rewrite Hu1, Ho, String.eqb_refl. cbn [fst snd].
  rewrite (sql_VerifyOTP_verified _ _ _ _ (checked row true));
    [reflexivity | exact Hg2 | apply lookup_insert_eq | reflexivity].
Qed.

Lemma sql_issue_verify_once_witness :
  (run [Verify (Scenario.sql_at (Scenario.minutes 700)) "a@x.com" "123456";
        Verify (Scenario.sql_at (Scenario.minutes 900)) "a@x.com" "123456"]
     Scenario.sql_issued).1
  = [Success; Failure AlreadyVerifiedError].
Proof.
  apply (sql_issue_verify_once (Scenario.sql_at 0) "a@x.com" empty
           Scenario.sql_issued (Scenario.sql_at (Scenario.minutes 700))
           (Scenario.sql_at (Scenario.minutes 900)) "123456");
    reflexivity.
Defined.

Lemma sql_Send_readable ev email db :
  get_ok ev = true ->
  (exists row,
     otp_verifications (cleaned ev db) !! email = Some row /\
     now ev - created_at row < ResendDelayMins * Minute /\
     SendVerificationEmail ev email db =
     (Failure (ThrottleError ResendDelayMins), cleaned ev db)) \/
  SendVerificationEmail ev email db = issued ev email (cleaned ev db).
Proof.
  intros Hget. unfold SendVerificationEmail, bind, ret, cleaned.
  destruct (CleanupExpiredOTPs ev db) as [o db0]. simpl.
  unfold GetOTP. rewrite Hget.
  destruct (otp_verifications db0 !! email) as [row|] eqn:Hl; simpl.
  - destruct (Z.ltb_spec (now ev - created_at row)
                (ResendDelayMins * Minute)) as [Hd|Hd].
    + left. exists row. repeat split; assumption.
    + right. unfold issued, StoreOTP, merged, with_row, fresh. simpl.
      rewrite Hl. destruct (merge_ok ev); reflexivity.
  - right. unfold issued, StoreOTP, merged, with_row, fresh. simpl.
    rewrite Hl. destruct (merge_ok ev); reflexivity.
Qed.

(** X20. Issuance outside the resend delay.  When the table can be read and
    merged and the mail goes out, [SendVerificationEmail] succeeds unless
    the address has a row younger than [ResendDelayMins]; the row of the
    address is then the fresh one, whatever was there before, and it keeps
    the [id] of a row that was there and was verified. *)
Theorem sql_reissue_replaces ev email db :
  get_ok ev = true -> merge_ok ev = true -> mail_ok ev = true ->
  (forall row,
     otp_verifications db !! email = Some row ->
     ResendDelayMins * Minute <= now ev - created_at row) ->
  (SendVerificationEmail ev email db).1 = Success /\
  exists id0,
    otp_verifications (SendVerificationEmail ev email db).2 !! email
    = Some {| id := id0; otp := generateOTP (nano ev); created_at := now ev;
              attempts := 0; verified := false |} /\
    (forall row,
       otp_verifications db !! email = Some row -> verified row = true ->
       id0 = id row).
Proof.
  intros Hget Hmerge Hmail Hold.
  destruct (sql_Send_readable ev email db Hget)
    as [(r0 & Hl0 & Hd & _) | ->].
  - apply sql_cleaned_lookup in Hl0. specialize (Hold _ Hl0). lia.
  - unfold issued, SendEmail. rewrite Hmerge, Hmail. simpl.
    split; [reflexivity|]. unfold merged.
    destruct (otp_verifications (cleaned ev db) !! email) as [r|] eqn:Hl;
      simpl; rewrite lookup_insert_eq; eexists; (split; [reflexivity|]);
      intros row Hrow Hv.
    + apply sql_cleaned_lookup in Hl. congruence.
    + rewrite (sql_cleaned_keeps ev db email row Hrow
                 (sql_verified_not_swept _ _ Hv)) in Hl. discriminate.
Qed.

Lemma sql_reissue_replaces_witness :
  (SendVerificationEmail (Scenario.sql_at (Scenario.minutes 2)) "a@x.com"
     Scenario.sql_verified).1 = Success /\
  otp_verifications
    (SendVerificationEmail (Scenario.sql_at (Scenario.minutes 2)) "a@x.com"
       Scenario.sql_verified).2 !! "a@x.com"
  = Some {| id := 1; otp := "123456"; created_at := Scenario.minutes 2;
            attempts := 0; verified := false |}.
Proof.
  destruct (sql_reissue_replaces (Scenario.sql_at (Scenario.minutes 2))
              "a@x.com" Scenario.sql_verified eq_refl eq_refl eq_refl)
    as (Hout & id0 & Hrow & Hid).
  - intros row Hrow. vm_compute in Hrow. injection Hrow as <-.
    vm_compute. discriminate.
  - split; [exact Hout|]. rewrite Hrow.
    rewrite (Hid Scenario.sql_verified_row); [reflexivity| |reflexivity].
    vm_compute. reflexivity.
Defined.

(** X21. Storage failures are reported and change nothing.  When the table
    cannot be read, [VerifyOTP] and [SendVerificationEmail] both fail with
    the storage error, and neither adds or changes a row.  When the table
    cannot be updated, [VerifyOTP] leaves the table as it was and never
    answers that the guess was compared, be the code right or wrong. *)
Theorem sql_storage_failures_surface ev email providedOTP db :
  (get_ok ev = false ->
   VerifyOTP ev email providedOTP db = (Failure StorageError, db) /\
   (SendVerificationEmail ev email db).1 = Failure StorageError /\
   forall k row,
     otp_verifications (SendVerificationEmail ev email db).2 !! k = Some row ->
     otp_verifications db !! k = Some row) /\
  (update_ok ev = false ->
   (VerifyOTP ev email providedOTP db).2 = db /\
   compared (VerifyOTP ev email providedOTP db).1 = false).
Proof.
  split.
  - intros Hget. split; [apply sql_VerifyOTP_down; exact Hget|].
    unfold SendVerificationEmail, bind, ret, GetOTP. rewrite Hget.
    pose proof (sql_cleaned_lookup ev db) as Hsub. unfold cleaned in Hsub.
    destruct (CleanupExpiredOTPs ev db) as [o db0]. simpl in *.
    split; [reflexivity | exact Hsub].
  - intros Hupd.
    destruct (sql_VerifyOTP_cases ev email providedOTP db)
      as [-> | [-> | (row & Hl & _ &
                [(_ & ->) | [(_ & _ & ->) | (_ & _ & Hu & _)]])]];
      simpl; try (split; reflexivity).
    congruence.
Qed.

Lemma sql_storage_failures_surface_witness :
  VerifyOTP (Cases.sql_blind_at (Scenario.seconds 5)) "a@x.com" "123456"
    Scenario.sql_issued = (Failure StorageError, Scenario.sql_issued) /\
  VerifyOTP (Cases.sql_readonly_at (Scenario.seconds 5)) "a@x.com" "123456"
    Scenario.sql_issued = (Failure StorageError, Scenario.sql_issued).
Proof.
  split.
  - apply (sql_storage_failures_surface (Cases.sql_blind_at (Scenario.seconds 5))
             "a@x.com" "123456" Scenario.sql_issued).
    reflexivity.
  - destruct (proj2 (sql_storage_failures_surface
                       (Cases.sql_readonly_at (Scenario.seconds 5))
                       "a@x.com" "123456" Scenario.sql_issued) eq_refl)
      as [Hdb _].
    apply injective_projections; [vm_compute; reflexivity | exact Hdb].
Defined.

Lemma sql_settled_VerifyOTP ev email' providedOTP db email :
  SQLServerStates.settled db email ->
  SQLServerStates.settled (VerifyOTP ev email' providedOTP db).2 email.
Proof.
  intros Hs row' Hk.
  apply sql_VerifyOTP_later in Hk as (row & Hk & (_ & _ & _ & _ & Hmono)).
  apply Hmono, Hs, Hk.
Qed.

Lemma sql_VerifyOTP_settled ev email providedOTP db :
  SQLServerStates.settled db email ->
  (VerifyOTP ev email providedOTP db).1 <> Success.
Proof.
  intros Hs.
  destruct (sql_VerifyOTP_cases ev email providedOTP db)
    as [-> | [-> | (row & Hl & _ &
              [(_ & ->) | [(_ & _ & ->) | (Hv & _ & _ & ->)]])]];
    simpl; try discriminate.
  apply Hs in Hl. congruence.
Qed.

Lemma sql_Success_settles ev email providedOTP db :
  (VerifyOTP ev email providedOTP db).1 = Success ->
  SQLServerStates.settled (VerifyOTP ev email providedOTP db).2 email.
Proof.
  destruct (sql_VerifyOTP_cases ev email providedOTP db)
    as [-> | [-> | (row & Hl & _ &
              [(_ & ->) | [(_ & _ & ->) | (Hv & _ & _ & ->)]])]];
    simpl; try discriminate.
  destruct (String.eqb (otp row) providedOTP); [|discriminate].
  intros _ row' Hrow'. simpl in Hrow'. rewrite lookup_insert_eq in Hrow'.
  injection Hrow' as <-. reflexivity.
Qed.

Lemma sql_run_verifies_settled vs db email i ev providedOTP :
  SQLServerStates.settled db email ->
  vs !! i = Some (ev, email, providedOTP) ->
  (run (verifies vs) db).1 !! i <> Some Success.
Proof.
  revert db i. induction vs as [|[[ev1 email1] otp1] vs IH];
    intros db i Hs Hi; [discriminate|].
  unfold run, verifies. simpl map. rewrite sequence_cons. simpl.
  destruct i as [|i]; simpl in *.
  - injection Hi as -> -> ->. intros [= Heq].
    eapply sql_VerifyOTP_settled; eassumption.
  - apply IH; [|exact Hi]. apply sql_settled_VerifyOTP; assumption.
Qed.

(** X22. A code is accepted once.  Of the [VerifyOTP] calls of any list of
    such calls at most one per address succeeds: after a success for an
    address, no later call of the list for that address succeeds. *)
Theorem sql_one_success_per_record vs db email i j evi otpi evj otpj :
  (i < j)%nat ->
  vs !! i = Some (evi, email, otpi) ->
  vs !! j = Some (evj, email, otpj) ->
  (run (verifies vs) db).1 !! i = Some Success ->
  (run (verifies vs) db).1 !! j <> Some Success.
Proof.
  revert db i j. induction vs as [|[[ev1 email1] otp1] vs IH];
    intros db i j Hij Hi Hj; [discriminate|].
  unfold run, verifies in *. simpl map. rewrite sequence_cons. simpl.
  destruct j as [|j]; [lia|]. destruct i as [|i]; simpl in *.
  - injection Hi as -> -> ->. intros [= Hsucc].
    apply (sql_run_verifies_settled vs _ email j evj otpj); try assumption.
    apply sql_Success_settles; assumption.
  - apply (IH _ i j); try assumption; lia.
Qed.

Lemma sql_one_success_per_record_witness :
  (run (verifies
          [(Scenario.sql_at (Scenario.seconds 5), "a@x.com", "123456");
           (Scenario.sql_at (Scenario.seconds 9), "a@x.com", "123456")])
     Scenario.sql_issued).1 !! 1%nat <> Some Success.
Proof.
  apply (sql_one_success_per_record
           [(Scenario.sql_at (Scenario.seconds 5), "a@x.com", "123456");
            (Scenario.sql_at (Scenario.seconds 9), "a@x.com", "123456")]
           Scenario.sql_issued "a@x.com" 0%nat 1%nat
           (Scenario.sql_at (Scenario.seconds 5)) "123456"
           (Scenario.sql_at (Scenario.seconds 9)) "123456").
  - lia.
  - reflexivity.
  - reflexivity.
  - vm_compute. reflexivity.
Defined.

(** X23. The attempts column counts the compared guesses.  Through any list
    of [VerifyOTP] calls the row of an address stays in the table, and its
    [attempts] grow by exactly the number of calls for that address that
    were answered with success or with [MismatchError]; starting from at
    most [MaxAttempts] they never pass [MaxAttempts], so at most
    [MaxAttempts - attempts] guesses are ever compared with the code. *)
Theorem sql_attempts_count_compared_guesses email vs : forall db row,
  otp_verifications db !! email = Some row ->
  exists row',
    otp_verifications (run (verifies vs) db).2 !! email = Some row' /\
    attempts row'
    = attempts row + compared_guesses email vs (run (verifies vs) db).1 /\
    (attempts row <= MaxAttempts -> attempts row' <= MaxAttempts).
Proof.
  induction vs as [|[[ev email1] otp1] vs IH]; intros db row Hl.
  - exists row. simpl. repeat split; [exact Hl | lia | trivial].
  - unfold run, verifies in *. simpl map. rewrite sequence_cons.
    simpl compared_guesses. cbn [fst snd].
    assert (Hstep : exists row1,
              otp_verifications (VerifyOTP ev email1 otp1 db).2 !! email
              = Some row1 /\
              attempts row1
              = attempts row
                + (if String.eqb email1 email
                      && compared (VerifyOTP ev email1 otp1 db).1
                   then 1 else 0) /\
              (attempts row <= MaxAttempts -> attempts row1 <= MaxAttempts)).
    { destruct (String.eqb_spec email1 email) as [->|Hne]; cbn [andb].
      - destruct (sql_VerifyOTP_cases ev email otp1 db)
          as [-> | [-> | (r & Hr & _ &
                    [(_ & ->) | [(_ & _ & ->) | (_ & Ha & _ & ->)]])]];
          simpl; try (exists row; repeat split; [exact Hl | lia | trivial]).
        rewrite Hl in Hr. injection Hr as <-.
        exists (checked row (String.eqb (otp row) otp1)).
        rewrite lookup_insert_eq. simpl.
        destruct (String.eqb (otp row) otp1); simpl;
          repeat split; try lia.
      - exists row.
        rewrite (sql_VerifyOTP_other ev email1 otp1 db email
                   ltac:(congruence)).
        repeat split; [exact Hl | lia | trivial]. }
    destruct Hstep as (row1 & Hl1 & Ha1 & Hb1).
    destruct (IH _ row1 Hl1) as (row' & Hl' & Ha' & Hb').
    exists row'. repeat split; [exact Hl' | lia | auto].
Qed.

Lemma sql_attempts_count_compared_guesses_witness :
  exists row',
    otp_verifications
      (run (verifies
              [(Scenario.sql_at (Scenario.seconds 1), "a@x.com", "000000");
               (Scenario.sql_at (Scenario.seconds 2), "b@x.com", "000000");
               (Scenario.sql_at (Scenario.seconds 3), "a@x.com", "123456");
               (Scenario.sql_at (Scenario.seconds 4), "a@x.com", "123456")])
         Scenario.sql_issued).2 !! "a@x.com" = Some row' /\
    attempts row' = 2.
Proof.
  destruct (sql_attempts_count_compared_guesses "a@x.com"
              [(Scenario.sql_at (Scenario.seconds 1), "a@x.com", "000000");
               (Scenario.sql_at (Scenario.seconds 2), "b@x.com", "000000");
               (Scenario.sql_at (Scenario.seconds 3), "a@x.com", "123456");
               (Scenario.sql_at (Scenario.seconds 4), "a@x.com", "123456")]
              Scenario.sql_issued Scenario.sql_row)
    as (row' & Hl & Ha & _).
  - vm_compute. reflexivity.
  - exists row'. split; [exact Hl|]. rewrite Ha. vm_compute. reflexivity.
Defined.

End SQLServerMore.

(** * Beyond the claims: the code generator *)

(** X24. The code is a string of digits.  Whatever the clock reads,
    [generateOTP] returns [OTPLength] characters, each of them one of the
    decimal digits ['0'] to ['9'] (codes 48 to 57), leading zeros kept. *)
Theorem generateOTP_decimal_digits (nano : nat -> N) :
  String.length (generateOTP nano) = OTPLength /\
  Forall (fun c => (48 <= nat_of_ascii c <= 57)%nat)
         (String.list_ascii_of_string (generateOTP nano)).
Proof.
  split; [reflexivity|].
  unfold generateOTP. rewrite String.list_ascii_of_string_of_list_ascii.
  apply Forall_map. apply Forall_forall. intros i _. apply digit_at_decimal.
Qed.

(** X25. A clock that stands still gives a code of one digit.  Each
    character is the last decimal digit of the clock reading taken for it:
    when the six readings are the same, as with a clock coarser than the
    loop, the code is that digit six times. *)
Theorem generateOTP_stalled_clock (nano : nat -> N) (n : N) :
  (forall i, (i < OTPLength)%nat -> nano i = n) ->
  generateOTP nano
  = String.string_of_list_ascii (replicate OTPLength (digit_at n)).
Proof.
  intros Hn. unfold generateOTP, OTPLength in *. simpl.
  rewrite !Hn by lia. reflexivity.
Qed.

Lemma generateOTP_stalled_clock_witness :
  generateOTP Cases.stalled = "777777".
Proof.
  rewrite (generateOTP_stalled_clock Cases.stalled 1700000000123456787%N).
  - reflexivity.
  - intros i _. reflexivity.
Defined.

(** * Beyond the claims: expiry and rollback in the Redis program *)

(** X26. An untouched record expires on time.  When no call has touched the
    record since its issuance, then from the instant [OTPExpiryMinutes]
    after the issuance on, [VerifyOTP] with any code, the right one
    included, fails with [NotFoundError] and changes nothing, and a
    [SendVerificationEmail] that can store and send succeeds. *)
Theorem redis_untouched_record_expires_on_time ev0 email db db1 ev providedOTP :
  Redis.SendVerificationEmail ev0 email db = (Success, db1) ->
  Redis.now ev0 + Minute * OTPExpiryMinutes <= Redis.now ev ->
  Redis.VerifyOTP ev email providedOTP db1 = (Failure NotFoundError, db1) /\
  (Redis.set_ok ev = true -> Redis.mail_ok ev = true ->
   (Redis.SendVerificationEmail ev email db1).1 = Success).
Proof.
  intros Hsend Hlate. split.
  - exact (redis_untouched_record_expires ev0 email db db1 ev providedOTP
             Hsend Hlate).
  - intros Hset Hmail. apply redis_Send_Success in Hsend. subst db1.
    destruct (redis_Send_cases ev email
                (<[Redis.key email :=
                     Redis.stored_at ev0 (Redis.fresh ev0 email)]> db))
      as [(e & Hl & Hlive & _) | ->].
    + rewrite lookup_insert_eq in Hl. injection Hl as <-. simpl in Hlive. lia.
    + unfold Redis.issued. rewrite Hset, Hmail. reflexivity.
Qed.

Lemma redis_untouched_record_expires_on_time_witness :
  Redis.VerifyOTP (Scenario.redis_at (Scenario.minutes 10)) "a@x.com" "123456"
    Scenario.redis_issued
  = (Failure NotFoundError, Scenario.redis_issued).
Proof.
  apply (redis_untouched_record_expires_on_time (Scenario.redis_at 0)
           "a@x.com" ∅ Scenario.redis_issued
           (Scenario.redis_at (Scenario.minutes 10)) "123456").
  - reflexivity.
  - vm_compute. discriminate.
Defined.

(** X27. The rollback is a delete, not a restore.  When
    [SendVerificationEmail] gets past the resend check, stores the new
    record and then fails to send, the [DeleteOTP] that follows removes the
    entry of the address altogether: the call fails with the delivery error
    and leaves the store as it was minus that entry, so an older record of
    the address that was still valid is gone too. *)
Theorem redis_failed_delivery_drops_record ev email db :
  Redis.set_ok ev = true -> Redis.mail_ok ev = false ->
  Redis.del_ok ev = true ->
  (forall e,
     db !! Redis.key email = Some e ->
     Redis.now ev < Redis.expireAt e -> Redis.get_ok ev = true ->
     ResendDelayMins * Minute <= Redis.now ev - Redis.CreatedAt (Redis.value e)) ->
  Redis.SendVerificationEmail ev email db
  = (Failure DeliveryError, delete (Redis.key email) db).
Proof.
  intros Hset Hmail Hdel Hold.
  destruct (redis_Send_cases ev email db)
    as [(e & Hl & Hlive & Hget & Hd & _) | ->].
  - specialize (Hold e Hl Hlive Hget). lia.
  - unfold Redis.issued. rewrite Hset, Hmail, Hdel.
    rewrite delete_insert_eq. reflexivity.
Qed.

Lemma redis_failed_delivery_drops_record_witness :
  Scenario.redis_issued !! Redis.key "a@x.com" = Some Scenario.redis_entry /\
  Redis.SendVerificationEmail (Scenario.redis_no_mail_at (Scenario.minutes 2))
    "a@x.com" Scenario.redis_issued
  = (Failure DeliveryError, ∅).
Proof.
  split; [vm_compute; reflexivity|].
  rewrite (redis_failed_delivery_drops_record
             (Scenario.redis_no_mail_at (Scenario.minutes 2)) "a@x.com"
             Scenario.redis_issued eq_refl eq_refl eq_refl).
  - vm_compute. reflexivity.
  - intros e He _ _. vm_compute in He. injection He as <-.
    vm_compute. discriminate.
Defined.

(** * Beyond the claims: addresses and the JSON round trip *)

Section RedisAddresses.
Import Redis.

(** [VerifyOTP] for an address that is not valid UTF-8 does not write the
    entry it has read. *)
Lemma redis_raw_guess ev email providedOTP db e :
  JSON.utf8 email <> email ->
  db !! key email = Some e -> Email (value e) = JSON.utf8 email ->
  Verified (value e) = false -> Attempts (value e) < MaxAttempts ->
  now ev < expireAt e -> get_ok ev = true ->
  (VerifyOTP ev email providedOTP db).2 !! key email = Some e /\
  (VerifyOTP ev email providedOTP db).1
  = if String.eqb (OTP (value e)) providedOTP
    then (StoreOTP ev (checked (value e) true) db).1
    else Failure MismatchError.
Proof.
  intros Hraw Hl He Hv Ha Hlive Hget.
  rewrite (redis_VerifyOTP_pending _ _ _ _ e) by assumption.
  cbv zeta. cbn [fst snd]. split; [|reflexivity].
  destruct (redis_StoreOTP_cases ev
              (checked (value e) (String.eqb (OTP (value e)) providedOTP)) db)
    as [(_ & _ & ->) | [_ ->]]; simpl; [|exact Hl].
  rewrite lookup_insert_ne; [exact Hl|].
  rewrite He. intros H. apply redis_key_inj in H. congruence.
Qed.

Lemma redis_raw_guesses ev0 email vs : forall db,
  JSON.utf8 email <> email ->
  db !! key email = Some (stored_at ev0 (fresh ev0 email)) ->
  Forall (fun v : Env * string =>
            in_window ev0 v.1 /\ get_ok v.1 = true /\
            v.2 <> generateOTP (nano ev0)) vs ->
  (run (guesses email vs) db).1
  = replicate (length vs) (Failure MismatchError) /\
  (run (guesses email vs) db).2 !! key email
  = Some (stored_at ev0 (fresh ev0 email)).
Proof.
  induction vs as [|[ev providedOTP] vs IH]; intros db Hraw Hl Hvs.
  - split; [reflexivity | exact Hl].
  - apply Forall_cons in Hvs as [([_ Hlive] & Hget & Hne) Hvs].
    simpl in Hlive, Hget, Hne.
    destruct (redis_raw_guess ev email providedOTP db
                (stored_at ev0 (fresh ev0 email)))
      as [Hkept Hout]; try assumption; try reflexivity.
    assert (Ho : OTP (value (stored_at ev0 (fresh ev0 email)))
                 = generateOTP (nano ev0)) by apply utf8_generateOTP.
    rewrite Ho in Hout.
    destruct (String.eqb_spec (generateOTP (nano ev0)) providedOTP)
      as [Heq|_]; [congruence|].
    destruct (IH _ Hraw Hkept Hvs) as [IHout IHkept].
    unfold run, guesses in *. simpl map. rewrite sequence_cons.
    cbn [fst snd]. rewrite Hout, IHout. split; [reflexivity | exact IHkept].
Qed.

(** X28. No attempt is counted for an address that is not valid UTF-8.
    After a successful issuance for such an address, any number of wrong
    guesses inside the expiry window each fail with [MismatchError] and
    leave the entry of the address as the issuance wrote it, with no
    attempt; after them the generated code is still accepted. *)
Theorem redis_invalid_address_is_never_locked ev0 email db db1 vs :
  JSON.utf8 email <> email ->
  SendVerificationEmail ev0 email db = (Success, db1) ->
  Forall (fun v : Env * string =>
            in_window ev0 v.1 /\ get_ok v.1 = true /\
            v.2 <> generateOTP (nano ev0)) vs ->
  (run (guesses email vs) db1).1
  = replicate (length vs) (Failure MismatchError) /\
  (run (guesses email vs) db1).2 !! key email = db1 !! key email /\
  Attempts <$> (value <$> db1 !! key email) = Some 0 /\
  (forall ev,
     in_window ev0 ev -> get_ok ev = true -> set_ok ev = true ->
     (VerifyOTP ev email (generateOTP (nano ev0))
        (run (guesses email vs) db1).2).1 = Success).
Proof.
  intros Hraw Hsend Hvs. apply redis_Send_Success in Hsend. subst db1.
  destruct (redis_raw_guesses ev0 email vs
              (<[key email := stored_at ev0 (fresh ev0 email)]> db))
    as [Hout Hkept]; try assumption; [apply lookup_insert_eq|].
  rewrite lookup_insert_eq.
  split; [exact Hout|]. split; [exact Hkept|]. split; [reflexivity|].
  intros ev [_ Hlive] Hget Hset.
  destruct (redis_raw_guess ev email (generateOTP (nano ev0)) _
              (stored_at ev0 (fresh ev0 email)) Hraw Hkept)
    as [_ Hright]; try assumption; try reflexivity.
  assert (Ho : OTP (value (stored_at ev0 (fresh ev0 email)))
               = generateOTP (nano ev0)) by apply utf8_generateOTP.
  rewrite Hright, Ho, String.eqb_refl.
  rewrite redis_StoreOTP_marshalled by apply now_year.
  rewrite Hset. reflexivity.
Qed.

Lemma redis_invalid_address_is_never_locked_witness :
  (run (guesses Cases.raw_address
          [(Scenario.redis_at (Scenario.seconds 1), "000000");
           (Scenario.redis_at (Scenario.seconds 2), "111111");
           (Scenario.redis_at (Scenario.seconds 3), "222222");
           (Scenario.redis_at (Scenario.seconds 4), "333333");
           (Scenario.redis_at (Scenario.seconds 5), "444444")])
     Cases.redis_raw_issued).1
  = replicate 5 (Failure MismatchError) /\
  (VerifyOTP (Scenario.redis_at (Scenario.seconds 6)) Cases.raw_address
     "123456"
     (run (guesses Cases.raw_address
             [(Scenario.redis_at (Scenario.seconds 1), "000000");
              (Scenario.redis_at (Scenario.seconds 2), "111111");
              (Scenario.redis_at (Scenario.seconds 3), "222222");
              (Scenario.redis_at (Scenario.seconds 4), "333333");
              (Scenario.redis_at (Scenario.seconds 5), "444444")])
        Cases.redis_raw_issued).2).1 = Success.
Proof.
  destruct (redis_invalid_address_is_never_locked (Scenario.redis_at 0)
              Cases.raw_address ∅ Cases.redis_raw_issued
              [(Scenario.redis_at (Scenario.seconds 1), "000000");
               (Scenario.redis_at (Scenario.seconds 2), "111111");
               (Scenario.redis_at (Scenario.seconds 3), "222222");
               (Scenario.redis_at (Scenario.seconds 4), "333333");
               (Scenario.redis_at (Scenario.seconds 5), "444444")])
    as (Hout & _ & _ & Hright).
  - vm_compute. discriminate.
  - reflexivity.
  - repeat constructor; vm_compute; discriminate.
  - split; [exact Hout|].
    apply (Hright (Scenario.redis_at (Scenario.seconds 6))).
    + split; vm_compute; (reflexivity || discriminate).
    + reflexivity.
    + reflexivity.
Defined.

End RedisAddresses.

(** X29. The attempt is counted before the code is compared.  In a store
    built by the Redis program and for an address that is valid UTF-8, and
    in any table of the SQL Server program: once the guards of [VerifyOTP]
    on a pending record have passed (the record is there, unverified, with
    attempts left) and the store takes the write, the record of the address
    has one attempt more after the call, whatever the provided code and also
    on the last attempt allowed; with a wrong code the call fails with
    [MismatchError] and the record stays unverified, with the right code it
    succeeds and the record is verified. *)
Theorem verify_counts_attempt_before_comparing :
  (forall cs ev email providedOTP e,
     JSON.utf8 email = email ->
     (Redis.run cs ∅).2 !! Redis.key email = Some e ->
     Redis.now ev < Redis.expireAt e ->
     Redis.get_ok ev = true -> Redis.set_ok ev = true ->
     Redis.Verified (Redis.value e) = false ->
     Redis.Attempts (Redis.value e) < MaxAttempts ->
     exists e',
       (Redis.VerifyOTP ev email providedOTP (Redis.run cs ∅).2).2
         !! Redis.key email = Some e' /\
       Redis.Attempts (Redis.value e') = Redis.Attempts (Redis.value e) + 1 /\
       Redis.OTP (Redis.value e') = Redis.OTP (Redis.value e) /\
       Redis.CreatedAt (Redis.value e') = Redis.CreatedAt (Redis.value e) /\
       (providedOTP <> Redis.OTP (Redis.value e) ->
        (Redis.VerifyOTP ev email providedOTP (Redis.run cs ∅).2).1
        = Failure MismatchError /\
        Redis.Verified (Redis.value e') = false) /\
       (providedOTP = Redis.OTP (Redis.value e) ->
        (Redis.VerifyOTP ev email providedOTP (Redis.run cs ∅).2).1 = Success /\
        Redis.Verified (Redis.value e') = true)) /\
  (forall ev email providedOTP db row,
     SQLServer.otp_verifications db !! email = Some row ->
     SQLServer.get_ok ev = true -> SQLServer.update_ok ev = true ->
     SQLServer.verified row = false ->
     SQLServer.attempts row < MaxAttempts ->
     exists row',
       SQLServer.otp_verifications
         (SQLServer.VerifyOTP ev email providedOTP db).2 !! email = Some row' /\
       SQLServer.attempts row' = SQLServer.attempts row + 1 /\
       SQLServer.otp row' = SQLServer.otp row /\
       SQLServer.created_at row' = SQLServer.created_at row /\
       (providedOTP <> SQLServer.otp row ->
        (SQLServer.VerifyOTP ev email providedOTP db).1 = Failure MismatchError /\
        SQLServer.verified row' = false) /\
       (providedOTP = SQLServer.otp row ->
        (SQLServer.VerifyOTP ev email providedOTP db).1 = Success /\
        SQLServer.verified row' = true)).
Proof.
  split.
  - intros cs ev email providedOTP e Hvalid Hl Hlive Hget Hset Hv Ha.
    destruct (redis_written_lookup _ _ _ (redis_written_reachable cs) Hl)
      as (He & Ho & Hy).
    rewrite (redis_VerifyOTP_counted _ _ _ _ e) by assumption.
    cbv zeta. cbn [fst snd]. rewrite He, Hvalid, lookup_insert_eq.
    eexists. split; [reflexivity|]. simpl. rewrite Ho. repeat split.
    + destruct (String.eqb_spec (Redis.OTP (Redis.value e)) providedOTP);
        congruence.
    + destruct (String.eqb_spec (Redis.OTP (Redis.value e)) providedOTP);
        congruence.
    + subst. rewrite String.eqb_refl. reflexivity.
    + subst. rewrite String.eqb_refl. reflexivity.
  - intros ev email providedOTP db row Hl Hget Hupd Hv Ha.
    rewrite (sql_VerifyOTP_pending _ _ _ _ row) by assumption.
    simpl. rewrite Hupd. simpl. rewrite lookup_insert_eq.
    eexists. split; [reflexivity|]. simpl. repeat split.
    + destruct (String.eqb_spec (SQLServer.otp row) providedOTP); congruence.
    + destruct (String.eqb_spec (SQLServer.otp row) providedOTP); congruence.
    + subst. rewrite String.eqb_refl. reflexivity.
    + subst. rewrite String.eqb_refl. reflexivity.
Qed.

Lemma verify_counts_attempt_before_comparing_witness :
  (exists e',
     (Redis.VerifyOTP (Scenario.redis_at (Scenario.seconds 5)) "a@x.com"
        "000000"
        (Redis.run [Redis.Send (Scenario.redis_at 0) "a@x.com"] ∅).2).2
       !! Redis.key "a@x.com" = Some e' /\
     Redis.Attempts (Redis.value e') = 1 /\
     Redis.Verified (Redis.value e') = false) /\
  (exists row',
     SQLServer.otp_verifications
       (SQLServer.VerifyOTP (Scenario.sql_at (Scenario.seconds 5)) "a@x.com"
          "000000" Scenario.sql_issued).2 !! "a@x.com" = Some row' /\
     SQLServer.attempts row' = 1 /\
     SQLServer.verified row' = false).
Proof.
  split.
  - destruct (proj1 verify_counts_attempt_before_comparing
                [Redis.Send (Scenario.redis_at 0) "a@x.com"]
                (Scenario.redis_at (Scenario.seconds 5)) "a@x.com" "000000"
                Scenario.redis_entry)
      as (e' & Hl & Ha & _ & _ & Hwrong & _);
      try (vm_compute; reflexivity).
    exists e'. split; [exact Hl|]. split; [exact Ha|].
    apply Hwrong. vm_compute. discriminate.
  - destruct (proj2 verify_counts_attempt_before_comparing
                (Scenario.sql_at (Scenario.seconds 5)) "a@x.com" "000000"
                Scenario.sql_issued Scenario.sql_row)
      as (row' & Hl & Ha & _ & _ & Hwrong & _);
      try (vm_compute; reflexivity).
    exists row'. split; [exact Hl|]. split; [exact Ha|].
    apply Hwrong. vm_compute. discriminate.
Defined.

(** X30. A successful [VerifyOTP] keeps the record.  In a store built by
    the Redis program and for an address that is valid UTF-8, and in any
    table of the SQL Server program: when [VerifyOTP] succeeds, the record
    of the address is still in the store afterwards, with [verified = true]
    and with the code that was provided.  In Redis any [GetOTP] for the
    address before the new time-to-live runs out returns it; in SQL Server
    no sweep removes it. *)
Theorem verified_record_is_kept :
  (forall cs ev email providedOTP db',
     JSON.utf8 email = email ->
     Redis.VerifyOTP ev email providedOTP (Redis.run cs ∅).2 = (Success, db') ->
     exists e',
       db' !! Redis.key email = Some e' /\
       Redis.Verified (Redis.value e') = true /\
       Redis.OTP (Redis.value e') = providedOTP /\
       forall ev',
         Redis.get_ok ev' = true ->
         Redis.now ev' < Redis.now ev + Minute * OTPExpiryMinutes ->
         Redis.GetOTP ev' email db' = (Ok (Redis.value e'), db')) /\
  (forall ev email providedOTP db db',
     SQLServer.VerifyOTP ev email providedOTP db = (Success, db') ->
     exists row',
       SQLServer.otp_verifications db' !! email = Some row' /\
       SQLServer.verified row' = true /\
       SQLServer.otp row' = providedOTP /\
       forall ev',
         SQLServer.otp_verifications (SQLServer.cleaned ev' db') !! email
         = Some row').
Proof.
  split.
  - intros cs ev email providedOTP db' Hvalid.
    pose proof (redis_written_reachable cs) as Hw.
    destruct (redis_VerifyOTP_cases ev email providedOTP (Redis.run cs ∅).2)
      as [-> | (e & Hl & _ & _ &
                [(_ & ->) | [(_ & _ & ->) | (_ & _ & ->)]])];
      try discriminate.
    cbv zeta.
    destruct (redis_written_lookup _ _ _ Hw Hl) as (He & Ho & _).
    destruct (String.eqb_spec (Redis.OTP (Redis.value e)) providedOTP)
      as [Heq|Hne]; [|discriminate].
    destruct (redis_StoreOTP_cases ev (Redis.checked (Redis.value e) true)
                (Redis.run cs ∅).2)
      as [(_ & _ & ->) | [Hno _]].
    + simpl. rewrite He, Hvalid. intros [= <-].
      exists (Redis.stored_at ev (Redis.checked (Redis.value e) true)).
      rewrite lookup_insert_eq. simpl. rewrite Ho.
      repeat split; try assumption.
      intros ev' Hget Hlive.
      apply (redis_GetOTP_live ev' email _
               (Redis.stored_at ev (Redis.checked (Redis.value e) true)));
        [apply lookup_insert_eq | exact Hlive | exact Hget].
    + intros [= H _]. contradiction.
  - intros ev email providedOTP db db'.
    destruct (sql_VerifyOTP_cases ev email providedOTP db)
      as [-> | [-> | (row & Hl & _ &
                [(_ & ->) | [(_ & _ & ->) | (_ & _ & _ & ->)]])]];
      try discriminate.
    simpl.
    destruct (String.eqb_spec (SQLServer.otp row) providedOTP)
      as [Heq|Hne]; [|discriminate].
    intros [= <-]. exists (SQLServer.checked row true). simpl.
    rewrite lookup_insert_eq. repeat split; try assumption.
    intros ev'. apply sql_cleaned_keeps.
    + simpl. apply lookup_insert_eq.
    + apply sql_verified_not_swept. reflexivity.
Qed.

Lemma verified_record_is_kept_witness :
  (exists e',
     (Redis.VerifyOTP (Scenario.redis_at (Scenario.seconds 5)) "a@x.com"
        "123456"
        (Redis.run [Redis.Send (Scenario.redis_at 0) "a@x.com"] ∅).2).2
       !! Redis.key "a@x.com" = Some e' /\
     Redis.Verified (Redis.value e') = true) /\
  (exists row',
     SQLServer.otp_verifications
       (SQLServer.VerifyOTP (Scenario.sql_at (Scenario.seconds 5)) "a@x.com"
          "123456" Scenario.sql_issued).2 !! "a@x.com" = Some row' /\
     SQLServer.verified row' = true).
Proof.
  split.
  - destruct (proj1 verified_record_is_kept
                [Redis.Send (Scenario.redis_at 0) "a@x.com"]
                (Scenario.redis_at (Scenario.seconds 5)) "a@x.com" "123456"
                (Redis.VerifyOTP (Scenario.redis_at (Scenario.seconds 5))
                   "a@x.com" "123456"
                   (Redis.run [Redis.Send (Scenario.redis_at 0) "a@x.com"]
                      ∅).2).2)
      as (e' & Hl & Hv & _).
    + reflexivity.
    + vm_compute. reflexivity.
    + exists e'. split; [exact Hl | exact Hv].
  - destruct (proj2 verified_record_is_kept
                (Scenario.sql_at (Scenario.seconds 5)) "a@x.com" "123456"
                Scenario.sql_issued
                (SQLServer.VerifyOTP (Scenario.sql_at (Scenario.seconds 5))
                   "a@x.com" "123456" Scenario.sql_issued).2)
      as (row' & Hl & Hv & _).
    + vm_compute. reflexivity.
    + exists row'. split; [exact Hl | exact Hv].
Defined.
